(** * ClockiFill: a shallow embedding of [main.py] and its verified properties

    The program fills a Clockify time sheet: it asks for a project, an optional
    task, a description policy and a billable flag, enumerates the working days
    from the first of the current month up to now, and posts one time entry per
    working day that has none yet.

    Layout of the development:
    - [Py]       : exceptions, decimal rendering, [int()], [str.strip()], JSON
                   values and the few object protocols the program uses on them;
    - [DateTime] : naive [datetime] values, comparison, [weekday()], adding one
                   day, [replace], [strftime] and [isoformat];
    - [get_working_days], whose loop needs a little calendar arithmetic to
      be accepted as terminating;
    - [IO]       : the world the program talks to (standard input, the HTTP
                   service, the output log) and a state-and-exception monad;
    - [Clockify] : the [ClockifyAPI] class and the functions of [main.py];
    - the vocabulary of the properties, then the properties: working days,
      timestamps, the two requests of the per-day loop, the loop itself,
      the prompts, and a whole run. *)

From Stdlib Require Import ZArith List String Ascii Bool Lia Eqdep_dec Sorted.
From Equations Require Import Equations.
Import ListNotations.

Set Warnings "-register-all".

Local Open Scope list_scope.
Local Open Scope string_scope.
Local Open Scope Z_scope.

(* ===================================================================== *)
(** ** Python values and exceptions *)
(* ===================================================================== *)

Module Py.

(** The exception classes that can reach the program. [HTTPError] is what
    [Response.raise_for_status] raises; [ConnectionError] and
    [JSONDecodeError] are the other [requests] exceptions (neither is a
    subclass of [HTTPError]). *)
Inductive exn : Type :=
| ValueError (msg : string)
| TypeError (msg : string)
| KeyError (key : string)
| IndexError (msg : string)
| OverflowError (msg : string)
| EOFError
| HTTPError (msg : string)
| ConnectionError
| JSONDecodeError.

(** Outcome of evaluating a Python expression: a value or a raised exception. *)
Inductive result (A : Type) : Type :=
| Ok (a : A)
| Raise (e : exn).
Arguments Ok {A} a.
Arguments Raise {A} e.

(** A value together with the equation that it is the value of [x]; lets a
    [match] keep the equation in its branches. *)
Definition with_eq {A : Type} (x : A) : {y : A | x = y} := exist _ x eq_refl.

Definition is_HTTPError (e : exn) : bool :=
  match e with HTTPError _ => true | _ => false end.

Definition is_ValueError (e : exn) : bool :=
  match e with ValueError _ => true | _ => false end.

(** *** Decimal rendering ([str(int)], [%d], [%02d], [%04d], [%06d]) *)

Definition digit_char (d : Z) : ascii :=
  ascii_of_nat (48 + Z.to_nat d).

(** The [n] low-order decimal digits of [z], most significant first
    (accumulator style). *)
Fixpoint low_digits (n : nat) (z : Z) (acc : string) : string :=
  match n with
  | O => acc
  | S n' => low_digits n' (z / 10) (String (digit_char (z mod 10)) acc)
  end.

(** Number of decimal digits of a non-negative number (at least one); the
    number of binary digits is fuel enough. *)
Fixpoint count_digits (fuel : nat) (z : Z) : nat :=
  match fuel with
  | O => 1%nat
  | S f => if z <? 10 then 1%nat else S (count_digits f (z / 10))
  end.

Definition num_digits (z : Z) : nat := count_digits (Z.to_nat (Z.log2 z)) z.

(** [zfill w z] is ["%0<w>d" % z]: at least [w] digits, zero padded, with a
    leading minus sign for negative numbers (the sign counts in the width). *)
Definition zfill (w : nat) (z : Z) : string :=
  if z <? 0
  then String "-" (low_digits (Nat.max (w - 1) (num_digits (- z))) (- z) "")
  else low_digits (Nat.max w (num_digits z)) z "".

(** [str(z)] for an integer. *)
Definition str_int (z : Z) : string := zfill 1 z.

(** *** [str.strip()], [str.lower()] and [int(str)]

    A [string] is read as a sequence of code points below 256, which is
    exact for Latin-1 input. *)

(** [str.isspace] on one code point below 256. *)
Definition is_space (c : ascii) : bool :=
  let n := Z.of_nat (nat_of_ascii c) in
  ((9 <=? n) && (n <=? 13)) || ((28 <=? n) && (n <=? 32))
  || (n =? 133) || (n =? 160).

Fixpoint lstrip (s : string) : string :=
  match s with
  | String c s' => if is_space c then lstrip s' else s
  | EmptyString => EmptyString
  end.

Fixpoint rev_string (s acc : string) : string :=
  match s with
  | EmptyString => acc
  | String c s' => rev_string s' (String c acc)
  end.

Definition rstrip (s : string) : string :=
  rev_string (lstrip (rev_string s "")) "".

Definition strip (s : string) : string := rstrip (lstrip s).

Definition lower_char (c : ascii) : ascii :=
  let n := nat_of_ascii c in
  if ((65 <=? n) && (n <=? 90))%nat then ascii_of_nat (n + 32)
  else if (((192 <=? n) && (n <=? 222)) && negb (n =? 215))%nat
       then ascii_of_nat (n + 32)
       else c.

Fixpoint lower (s : string) : string :=
  match s with
  | EmptyString => EmptyString
  | String c s' => String (lower_char c) (lower s')
  end.

Definition is_digit (c : ascii) : bool :=
  let n := nat_of_ascii c in ((48 <=? n) && (n <=? 57))%nat.

Definition digit_val (c : ascii) : Z := Z.of_nat (nat_of_ascii c) - 48.

(** **** [repr] of a string

    The quotation mark is the apostrophe unless the text has an
    apostrophe and no double quote; the quotation mark and the
    backslash are escaped with a backslash, tab, line feed and carriage
    return as [\t], [\n] and [\r], any other code point that is not
    printable as [\xhh]. *)
Definition apostrophe : ascii := "039"%char.
Definition double_quote : ascii := "034"%char.
Definition backslash : ascii := "092"%char.

Definition is_printable (c : ascii) : bool :=
  let n := Z.of_nat (nat_of_ascii c) in
  ((32 <=? n) && (n <=? 126)) || ((161 <=? n) && negb (n =? 173)).

Definition hex_char (n : Z) : ascii :=
  if n <? 10 then digit_char n else ascii_of_nat (Z.to_nat (87 + n)).

Fixpoint contains (c : ascii) (s : string) : bool :=
  match s with
  | EmptyString => false
  | String c' s' => Ascii.eqb c c' || contains c s'
  end.

Definition repr_quote (s : string) : ascii :=
  if contains apostrophe s && negb (contains double_quote s)
  then double_quote else apostrophe.

Definition repr_char (quote c : ascii) : string :=
  let n := Z.of_nat (nat_of_ascii c) in
  if Ascii.eqb c quote || Ascii.eqb c backslash
  then String backslash (String c "")
  else if n =? 9 then String backslash "t"
  else if n =? 10 then String backslash "n"
  else if n =? 13 then String backslash "r"
  else if is_printable c then String c ""
  else String backslash
         (String "x" (String (hex_char (n / 16)) (String (hex_char (n mod 16)) ""))).

Fixpoint repr_chars (quote : ascii) (s : string) : string :=
  match s with
  | EmptyString => String quote ""
  | String c s' => repr_char quote c ++ repr_chars quote s'
  end.

Definition repr_str (s : string) : string :=
  let quote := repr_quote s in String quote (repr_chars quote s).

(** **** [int(str)] in base 10 *)

(** White space as [int()] skips it around a literal. It is narrower
    than [str.isspace]: the separators 28 to 31 are not skipped. *)
Definition is_int_space (c : ascii) : bool :=
  let n := Z.of_nat (nat_of_ascii c) in
  ((9 <=? n) && (n <=? 13)) || (n =? 32) || (n =? 133) || (n =? 160).

Fixpoint int_lstrip (s : string) : string :=
  match s with
  | String c s' => if is_int_space c then int_lstrip s' else s
  | EmptyString => EmptyString
  end.

Definition int_strip (s : string) : string :=
  rev_string (int_lstrip (rev_string (int_lstrip s) "")) "".

(** The run of digits and underscores at the head of a literal: its
    value, its number of digits and what follows it. [None] when two
    underscores are adjacent or the run ends with one. *)
Fixpoint scan_digits (s : string) (acc : Z) (digits : nat) (prev_underscore : bool)
  : option (Z * nat * string) :=
  match s with
  | String c s' =>
      if is_digit c then scan_digits s' (10 * acc + digit_val c) (S digits) false
      else if Ascii.eqb c "_"
           then if prev_underscore then None else scan_digits s' acc digits true
           else if prev_underscore then None else Some (acc, digits, s)
  | EmptyString => if prev_underscore then None else Some (acc, digits, s)
  end.

(** The interpreter's default limit on the digits of a decimal literal
    ([sys.get_int_max_str_digits()]). *)
Definition max_str_digits : Z := 4300.

Inductive int_literal : Type :=
| IntValue (z : Z)
| IntTooLong (digits : nat)
| IntInvalid.

(** How [int(s)] reads [s]: surrounding white space is dropped, one sign
    is allowed, the digits may not start with an underscore, their
    number is checked against the limit before what follows them is
    looked at. *)
Definition read_int (s : string) : int_literal :=
  let t := int_strip s in
  let '(sign, body) := match t with
                       | String "+" r => (1, r)
                       | String "-" r => (-1, r)
                       | _ => (1, t)
                       end in
  match body with
  | String "_" _ => IntInvalid
  | _ =>
      match scan_digits body 0 0 false with
      | None => IntInvalid
      | Some (v, digits, rest) =>
          if max_str_digits <? Z.of_nat digits then IntTooLong digits
          else match digits, rest with
               | S _, EmptyString => IntValue (sign * v)
               | _, _ => IntInvalid
               end
      end
  end.

(** [None] stands for the [ValueError] the builtin raises. *)
Definition parse_int (s : string) : option Z :=
  match read_int s with
  | IntValue z => Some z
  | _ => None
  end.

(** The message of that [ValueError]; the offending text is shown as its
    [repr] cut after 200 characters. *)
Definition int_error (s : string) : string :=
  match read_int s with
  | IntTooLong digits =>
      "Exceeds the limit (" ++ str_int max_str_digits
      ++ " digits) for integer string conversion: value has "
      ++ str_int (Z.of_nat digits)
      ++ " digits; use sys.set_int_max_str_digits() to increase the limit"
  | _ =>
      "invalid literal for int() with base 10: " ++ substring 0 200 (repr_str s)
  end.

Definition int (s : string) : result Z :=
  match parse_int s with
  | Some z => Ok z
  | None => Raise (ValueError (int_error s))
  end.

(** [str(b)] for a boolean. *)
Definition str_bool (b : bool) : string := if b then "True" else "False".

(** *** JSON values, as [Response.json()] returns them

    Numbers are restricted to integers; objects keep their key order. *)
Inductive json : Type :=
| JNull
| JBool (b : bool)
| JNum (n : Z)
| JStr (s : string)
| JList (l : list json)
| JDict (kvs : list (string * json)).

Fixpoint join (sep : string) (l : list string) : string :=
  match l with
  | [] => ""
  | [s] => s
  | s :: l' => s ++ sep ++ join sep l'
  end.

(** [repr] of a decoded JSON value. *)
Fixpoint repr (j : json) : string :=
  match j with
  | JNull => "None"
  | JBool b => str_bool b
  | JNum n => str_int n
  | JStr s => repr_str s
  | JList l => "[" ++ join ", " (map repr l) ++ "]"
  | JDict kvs =>
      "{" ++ join ", " (map (fun kv => repr_str (fst kv) ++ ": " ++ repr (snd kv)) kvs) ++ "}"
  end.

(** [str(j)], what an f-string renders for a decoded JSON value. *)
Definition str (j : json) : string :=
  match j with
  | JStr s => s
  | _ => repr j
  end.

Definition type_name (j : json) : string :=
  match j with
  | JNull => "NoneType"
  | JBool _ => "bool"
  | JNum _ => "int"
  | JStr _ => "str"
  | JList _ => "list"
  | JDict _ => "dict"
  end.

(** Truth value of an object ([if x:]). *)
Definition truthy (j : json) : bool :=
  match j with
  | JNull => false
  | JBool b => b
  | JNum n => negb (n =? 0)
  | JStr s => negb (String.eqb s "")
  | JList l => match l with [] => false | _ => true end
  | JDict kvs => match kvs with [] => false | _ => true end
  end.

(** [len(j)]. *)
Definition len (j : json) : result Z :=
  match j with
  | JStr s => Ok (Z.of_nat (String.length s))
  | JList l => Ok (Z.of_nat (List.length l))
  | JDict kvs => Ok (Z.of_nat (List.length kvs))
  | _ => Raise (TypeError ("object of type '" ++ type_name j ++ "' has no len()"))
  end.

Fixpoint chars (s : string) : list json :=
  match s with
  | EmptyString => []
  | String c s' => JStr (String c EmptyString) :: chars s'
  end.

(** The items a [for] loop visits. *)
Definition iter (j : json) : result (list json) :=
  match j with
  | JStr s => Ok (chars s)
  | JList l => Ok l
  | JDict kvs => Ok (map (fun kv => JStr (fst kv)) kvs)
  | _ => Raise (TypeError ("'" ++ type_name j ++ "' object is not iterable"))
  end.

Fixpoint lookup (key : string) (kvs : list (string * json)) : option json :=
  match kvs with
  | [] => None
  | (k, v) :: kvs' => if String.eqb k key then Some v else lookup key kvs'
  end.

(** [j[key]] with a string key. *)
Definition getitem (j : json) (key : string) : result json :=
  match j with
  | JDict kvs =>
      match lookup key kvs with
      | Some v => Ok v
      | None => Raise (KeyError key)
      end
  | JStr _ => Raise (TypeError "string indices must be integers, not 'str'")
  | JList _ => Raise (TypeError "list indices must be integers or slices, not str")
  | _ => Raise (TypeError ("'" ++ type_name j ++ "' object is not subscriptable"))
  end.

(** [j[i]] with a non-negative integer index. *)
Definition getindex (j : json) (i : Z) : result json :=
  match j with
  | JList l =>
      match nth_error l (Z.to_nat i) with
      | Some v => Ok v
      | None => Raise (IndexError "list index out of range")
      end
  | JStr s =>
      match nth_error (chars s) (Z.to_nat i) with
      | Some v => Ok v
      | None => Raise (IndexError "string index out of range")
      end
  | JDict _ => Raise (KeyError (str_int i))
  | _ => Raise (TypeError ("'" ++ type_name j ++ "' object is not subscriptable"))
  end.

End Py.

Import Py.

(* ===================================================================== *)
(** ** Naive [datetime] values *)
(* ===================================================================== *)

Module DateTime.

Definition MINYEAR : Z := 1.
Definition MAXYEAR : Z := 9999.

Definition is_leap (year : Z) : bool :=
  (year mod 4 =? 0) && (negb (year mod 100 =? 0) || (year mod 400 =? 0)).

Definition _days_in_month : list Z :=
  [0; 31; 28; 31; 30; 31; 30; 31; 31; 30; 31; 30; 31].

Definition _days_before_month : list Z :=
  [0; 0; 31; 59; 90; 120; 151; 181; 212; 243; 273; 304; 334].

Definition days_in_month (year month : Z) : Z :=
  if (month =? 2) && is_leap year then 29
  else nth (Z.to_nat month) _days_in_month 0.

Definition days_before_year (year : Z) : Z :=
  let y := year - 1 in
  y * 365 + y / 4 - y / 100 + y / 400.

Definition days_before_month (year month : Z) : Z :=
  let days := nth (Z.to_nat month) _days_before_month 0 in
  if (2 <? month) && is_leap year then days + 1 else days.

Definition ymd_to_ord (year month day : Z) : Z :=
  days_before_year year + days_before_month year month + day.

(** The constructor's range checks, in the order it performs them; [None]
    when every field is in range, otherwise the [ValueError] message. *)
Definition field_error (year month day hour minute second microsecond : Z)
  : option string :=
  if negb ((MINYEAR <=? year) && (year <=? MAXYEAR))
  then Some ("year " ++ str_int year ++ " is out of range")
  else if negb ((1 <=? month) && (month <=? 12))
  then Some "month must be in 1..12"
  else if negb ((1 <=? day) && (day <=? days_in_month year month))
  then Some "day is out of range for month"
  else if negb ((0 <=? hour) && (hour <=? 23))
  then Some "hour must be in 0..23"
  else if negb ((0 <=? minute) && (minute <=? 59))
  then Some "minute must be in 0..59"
  else if negb ((0 <=? second) && (second <=? 59))
  then Some "second must be in 0..59"
  else if negb ((0 <=? microsecond) && (microsecond <=? 999999))
  then Some "microsecond must be in 0..999999"
  else None.

(** A naive [datetime] object. Every object that exists passed the
    constructor's checks, so the record carries that fact. *)
Record datetime : Type := mk_datetime {
  year : Z;
  month : Z;
  day : Z;
  hour : Z;
  minute : Z;
  second : Z;
  microsecond : Z;
  fields_ok : field_error year month day hour minute second microsecond = None
}.

(** [datetime(year, month, day, hour, minute, second, microsecond)]. *)
Definition new_datetime (y m d hh mm ss us : Z) : result datetime :=
  match with_eq (field_error y m d hh mm ss us) with
  | exist _ None H => Ok (mk_datetime y m d hh mm ss us H)
  | exist _ (Some msg) _ => Raise (ValueError msg)
  end.

(** [dt.replace(day=d, hour=h, minute=mi, second=s, microsecond=us)]; the
    constructor checks the new fields. *)
Definition replace_day_time (dt : datetime) (d h mi s us : Z) : result datetime :=
  new_datetime (year dt) (month dt) d h mi s us.

(** [dt.replace(hour=h, minute=mi, second=s, microsecond=us)]. *)
Definition replace_time (dt : datetime) (h mi s us : Z) : result datetime :=
  new_datetime (year dt) (month dt) (day dt) h mi s us.

(** [dt.weekday()]: Monday is 0, Sunday is 6. *)
Definition weekday (dt : datetime) : Z :=
  (ymd_to_ord (year dt) (month dt) (day dt) + 6) mod 7.

(** Comparison of two naive datetimes: that of the tuples
    (year, month, day, hour, minute, second, microsecond). *)
Definition lex (c1 c2 : comparison) : comparison :=
  match c1 with Eq => c2 | _ => c1 end.

Definition compare (a b : datetime) : comparison :=
  lex (year a ?= year b)
  (lex (month a ?= month b)
  (lex (day a ?= day b)
  (lex (hour a ?= hour b)
  (lex (minute a ?= minute b)
  (lex (second a ?= second b)
       (microsecond a ?= microsecond b)))))).

(** [a <= b]. *)
Definition leb (a b : datetime) : bool :=
  match compare a b with Gt => false | _ => true end.

(** [dt + timedelta(days=1)]. The day is incremented and the date is
    normalised: past the end of the month it becomes the first of the next
    month, past December the first of January of the next year; a year
    beyond [MAXYEAR] raises [OverflowError]. The time of day is kept. *)
Definition add_one_day (dt : datetime) : result datetime :=
  let d := day dt + 1 in
  let '(y, m, d) :=
    if d <=? days_in_month (year dt) (month dt) then (year dt, month dt, d)
    else if 12 <? month dt + 1 then (year dt + 1, 1, 1)
    else (year dt, month dt + 1, 1) in
  if (MINYEAR <=? y) && (y <=? MAXYEAR)
  then new_datetime y m d (hour dt) (minute dt) (second dt) (microsecond dt)
  else Raise (OverflowError "date value out of range").

(** The 10 bytes of a datetime read as one big-endian number: two for the
    year, one each for month, day, hour, minute and second, three for the
    microsecond. The order on datetimes is the order on these numbers. *)
Definition packed (dt : datetime) : Z :=
  (((((year dt * 256 + month dt) * 256 + day dt) * 256 + hour dt) * 256
    + minute dt) * 256 + second dt) * 16777216 + microsecond dt.

(** *** Serialisation *)

(** [dt.strftime(fmt)] for the directives [%Y %m %d %H %M %S] and [%%].
    The rendering is the C library's (glibc): [%Y] is the year in decimal
    with no padding, so a year below 1000 has fewer than four digits; the
    other fields have two digits. Any other character is copied. *)
Fixpoint strftime (dt : datetime) (fmt : string) : string :=
  match fmt with
  | EmptyString => EmptyString
  | String "%" (String c rest) =>
      (if Ascii.eqb c "Y" then str_int (year dt)
       else if Ascii.eqb c "m" then zfill 2 (month dt)
       else if Ascii.eqb c "d" then zfill 2 (day dt)
       else if Ascii.eqb c "H" then zfill 2 (hour dt)
       else if Ascii.eqb c "M" then zfill 2 (minute dt)
       else if Ascii.eqb c "S" then zfill 2 (second dt)
       else if Ascii.eqb c "%" then "%"
       else String "%" (String c EmptyString))
      ++ strftime dt rest
  | String c rest => String c (strftime dt rest)
  end.

(** [dt.isoformat()]: [YYYY-MM-DDTHH:MM:SS], followed by [.ffffff] when the
    microsecond is not zero. *)
Definition isoformat (dt : datetime) : string :=
  zfill 4 (year dt) ++ "-" ++ zfill 2 (month dt) ++ "-" ++ zfill 2 (day dt)
  ++ "T" ++ zfill 2 (hour dt) ++ ":" ++ zfill 2 (minute dt) ++ ":"
  ++ zfill 2 (second dt)
  ++ (if microsecond dt =? 0 then "" else "." ++ zfill 6 (microsecond dt)).

(** [str(dt.date())]: [YYYY-MM-DD]. *)
Definition date_str (dt : datetime) : string :=
  zfill 4 (year dt) ++ "-" ++ zfill 2 (month dt) ++ "-" ++ zfill 2 (day dt).

(** The ranges the constructor enforces. *)
Definition in_range (y m d hh mm ss us : Z) : Prop :=
  1 <= y <= 9999 /\ 1 <= m <= 12 /\ 1 <= d <= days_in_month y m
  /\ 0 <= hh <= 23 /\ 0 <= mm <= 59 /\ 0 <= ss <= 59 /\ 0 <= us <= 999999.

(** An upper bound on the number of loop steps from [current] to [last]:
    positive whenever [current <= last], and smaller after each added day. *)
Definition days_gap (current last : datetime) : Z :=
  372 * (year last - year current) + 31 * (month last - month current)
  + (day last - day current) + 1.

End DateTime.

Import DateTime.

(** *** Facts about the calendar used by the definitions below *)

Lemma days_in_month_bounds y m :
  1 <= m <= 12 -> 28 <= days_in_month y m <= 31.
Proof.
  intros Hm. unfold days_in_month.
  assert (Hc : m = 1 \/ m = 2 \/ m = 3 \/ m = 4 \/ m = 5 \/ m = 6 \/ m = 7
               \/ m = 8 \/ m = 9 \/ m = 10 \/ m = 11 \/ m = 12) by lia.
  destruct (is_leap y);
    repeat (destruct Hc as [-> | Hc]; [split; apply Z.leb_le; reflexivity |]);
    subst; split; apply Z.leb_le; reflexivity.
Qed.

Lemma field_error_None y m d hh mm ss us :
  field_error y m d hh mm ss us = None <-> in_range y m d hh mm ss us.
Proof.
  unfold field_error, in_range, MINYEAR, MAXYEAR.
  repeat match goal with
         | |- context [negb (?a && ?b)] =>
             let Ha := fresh in let Hb := fresh in
             destruct a eqn:Ha; destruct b eqn:Hb; cbn [negb andb]
         end;
  repeat match goal with
         | H : (_ <=? _) = true |- _ => apply Z.leb_le in H
         | H : (_ <=? _) = false |- _ => apply Z.leb_gt in H
         end;
  split; intros; try discriminate; try reflexivity; try lia.
Qed.

Lemma fields_in_range (dt : datetime) :
  in_range (year dt) (month dt) (day dt) (hour dt) (minute dt) (second dt)
           (microsecond dt).
Proof. apply field_error_None, fields_ok. Qed.

Lemma option_string_dec (a b : option string) : {a = b} + {a <> b}.
Proof. decide equality. apply string_dec. Qed.

(** Two datetimes with the same fields are the same object: the proof a
    record carries is unique. *)
Lemma datetime_ext (a b : datetime) :
  year a = year b -> month a = month b -> day a = day b ->
  hour a = hour b -> minute a = minute b -> second a = second b ->
  microsecond a = microsecond b -> a = b.
Proof.
  destruct a as [y m d hh mm ss us Ha], b as [y' m' d' hh' mm' ss' us' Hb].
  cbn. intros; subst. f_equal. apply UIP_dec, option_string_dec.
Qed.

Lemma new_datetime_Ok y m d hh mm ss us dt :
  new_datetime y m d hh mm ss us = Ok dt ->
  year dt = y /\ month dt = m /\ day dt = d /\ hour dt = hh
  /\ minute dt = mm /\ second dt = ss /\ microsecond dt = us.
Proof.
  unfold new_datetime.
  destruct (with_eq (field_error y m d hh mm ss us)) as [[msg|] E];
    [discriminate |].
  intros [= <-]. cbn. repeat split.
Qed.

Lemma new_datetime_in_range y m d hh mm ss us :
  in_range y m d hh mm ss us ->
  exists dt, new_datetime y m d hh mm ss us = Ok dt.
Proof.
  intros H. apply field_error_None in H. unfold new_datetime.
  destruct (with_eq (field_error y m d hh mm ss us)) as [[msg|] E].
  - congruence.
  - eexists. reflexivity.
Qed.

Lemma new_datetime_Raise y m d hh mm ss us e :
  new_datetime y m d hh mm ss us = Raise e -> ~ in_range y m d hh mm ss us.
Proof.
  intros H Hr. destruct (new_datetime_in_range _ _ _ _ _ _ _ Hr) as [dt E].
  congruence.
Qed.

(** The lexicographic comparison is the comparison of the packed numbers. *)
Lemma compare_packed (a b : datetime) :
  compare a b = (packed a ?= packed b).
Proof.
  pose proof (fields_in_range a) as Ha. pose proof (fields_in_range b) as Hb.
  unfold in_range in Ha, Hb.
  pose proof (days_in_month_bounds (year a) (month a)).
  pose proof (days_in_month_bounds (year b) (month b)).
  unfold compare, packed, lex.
  repeat match goal with
         | |- context [?x ?= ?y] =>
             lazymatch x with
             | context [packed] => fail
             | context [Z.mul] => fail
             | _ => destruct (Z.compare_spec x y)
             end
         end;
    symmetry;
    first [ apply Z.compare_eq_iff | apply Z.compare_lt_iff | apply Z.compare_gt_iff ];
    lia.
Qed.

Lemma leb_packed (a b : datetime) : leb a b = (packed a <=? packed b).
Proof.
  unfold leb, Z.leb. rewrite compare_packed. reflexivity.
Qed.

Lemma add_one_day_Ok dt n :
  add_one_day dt = Ok n ->
  (hour n = hour dt /\ minute n = minute dt /\ second n = second dt
   /\ microsecond n = microsecond dt)
  /\ ((day dt + 1 <= days_in_month (year dt) (month dt)
       /\ year n = year dt /\ month n = month dt /\ day n = day dt + 1)
      \/ (day dt = days_in_month (year dt) (month dt) /\ month dt < 12
          /\ year n = year dt /\ month n = month dt + 1 /\ day n = 1)
      \/ (day dt = days_in_month (year dt) (month dt) /\ month dt = 12
          /\ year n = year dt + 1 /\ month n = 1 /\ day n = 1)).
Proof.
  pose proof (fields_in_range dt) as Hr. unfold in_range in Hr.
  unfold add_one_day.
  destruct (day dt + 1 <=? days_in_month (year dt) (month dt)) eqn:Hd;
    [apply Z.leb_le in Hd | apply Z.leb_gt in Hd];
    [| destruct (12 <? month dt + 1) eqn:Hm;
       [apply Z.ltb_lt in Hm | apply Z.ltb_ge in Hm]];
    match goal with
    | |- context [if ?c then _ else _] => destruct c; [| discriminate]
    end;
    intros H; apply new_datetime_Ok in H; lia.
Qed.

Lemma add_one_day_Raise dt e :
  add_one_day dt = Raise e ->
  year dt = 9999 /\ month dt = 12 /\ day dt = 31
  /\ e = OverflowError "date value out of range".
Proof.
  pose proof (fields_in_range dt) as Hr. unfold in_range in Hr.
  pose proof (days_in_month_bounds (year dt) (month dt)) as Hb.
  pose proof (days_in_month_bounds (year dt) (month dt + 1)) as Hb'.
  assert (H1 : days_in_month (year dt + 1) 1 = 31) by reflexivity.
  assert (H12 : days_in_month (year dt) 12 = 31) by reflexivity.
  unfold add_one_day, MINYEAR, MAXYEAR.
  destruct (day dt + 1 <=? days_in_month (year dt) (month dt)) eqn:Hd;
    [apply Z.leb_le in Hd | apply Z.leb_gt in Hd].
  - replace ((1 <=? year dt) && (year dt <=? 9999)) with true
      by (symmetry; apply andb_true_iff; split; apply Z.leb_le; lia).
    intros H. apply new_datetime_Raise in H. exfalso. apply H.
    unfold in_range. lia.
  - destruct (12 <? month dt + 1) eqn:Hm;
      [apply Z.ltb_lt in Hm | apply Z.ltb_ge in Hm].
    + assert (Hm12 : month dt = 12) by lia. rewrite Hm12 in *.
      destruct (year dt + 1 <=? 9999) eqn:Hy;
        [apply Z.leb_le in Hy | apply Z.leb_gt in Hy].
      * replace (1 <=? year dt + 1) with true by (symmetry; apply Z.leb_le; lia).
        cbn [andb]. intros H. apply new_datetime_Raise in H. exfalso. apply H.
        unfold in_range. lia.
      * rewrite andb_false_r. intros [= <-]. repeat split; lia.
    + replace ((1 <=? year dt) && (year dt <=? 9999)) with true
        by (symmetry; apply andb_true_iff; split; apply Z.leb_le; lia).
      intros H. apply new_datetime_Raise in H. exfalso. apply H.
      unfold in_range. lia.
Qed.

Lemma days_gap_decreases current last next :
  leb current last = true -> add_one_day current = Ok next ->
  (Z.to_nat (days_gap next last) < Z.to_nat (days_gap current last))%nat.
Proof.
  intros Hle Hn. rewrite leb_packed in Hle. apply Z.leb_le in Hle.
  apply add_one_day_Ok in Hn.
  pose proof (fields_in_range current) as Hc.
  pose proof (fields_in_range last) as Hl. unfold in_range in Hc, Hl.
  pose proof (days_in_month_bounds (year current) (month current)).
  pose proof (days_in_month_bounds (year last) (month last)).
  unfold packed in Hle. unfold days_gap.
  assert (0 <= 372 * (year last - year current)
               + 31 * (month last - month current)
               + (day last - day current)) by lia.
  lia.
Qed.

(* ===================================================================== *)
(** ** Working days *)
(* ===================================================================== *)

(** The [while current_date <= end_date] loop of [get_working_days]:
    a working day is appended, then one day is added to [current_date]. *)
Equations? working_days_loop (end_date current_date : datetime)
    (working_days : list datetime) : result (list datetime)
    by wf (Z.to_nat (days_gap current_date end_date)) lt :=
  working_days_loop end_date current_date working_days
    with with_eq (leb current_date end_date) => {
    | exist _ false _ => Ok working_days
    | exist _ true Hle with with_eq (add_one_day current_date) => {
        | exist _ (Raise e) _ => Raise e
        | exist _ (Ok next) Hnext =>
            working_days_loop end_date next
              (if weekday current_date <? 5
               then working_days ++ [current_date]
               else working_days) } }.
Proof. apply days_gap_decreases; assumption. Qed.

(** [get_working_days(start_date, end_date)]. *)
Definition get_working_days (start_date end_date : datetime)
  : result (list datetime) :=
  working_days_loop end_date start_date [].

(* ===================================================================== *)
(** ** The world of the program: standard input, the service, the output *)
(* ===================================================================== *)

Module IO.

Inductive method : Type := GET | POST.

(** What [requests.get] and [requests.post] are called with. *)
Record request : Type := mk_request {
  req_method : method;
  req_url : string;
  req_headers : list (string * string);
  req_params : list (string * json);
  req_json : option json
}.

(** A [requests.Response]: [body] is [None] when the body is not JSON. *)
Record response : Type := mk_response {
  status_code : Z;
  reason : string;
  url : string;
  body : option json
}.

(** What happens to one request: the service answers, or it cannot be
    reached. *)
Inductive outcome : Type :=
| Responded (r : response)
| Unreachable.

(** What an observer of the process sees. *)
Inductive event : Type :=
| EPrint (line : string)
| EInput (prompt : string)
| ERequest (req : request) (out : outcome).

(** The lines still to be read from standard input, the outcomes of the
    requests still to be sent (none left: the service is unreachable), and
    everything observed so far, oldest first. *)
Record world : Type := mk_world {
  stdin : list string;
  service : list outcome;
  log : list event
}.

Definition log_event (e : event) (w : world) : world :=
  mk_world (stdin w) (service w) (log w ++ [e]).

(** Computations that read and change the world and may raise. *)
Definition M (A : Type) : Type := world -> result A * world.

Definition ret {A} (a : A) : M A := fun w => (Ok a, w).

Definition raise {A} (e : exn) : M A := fun w => (Raise e, w).

Definition bind {A B} (m : M A) (k : A -> M B) : M B :=
  fun w =>
    match m w with
    | (Ok a, w') => k a w'
    | (Raise e, w') => (Raise e, w')
    end.

(** A pure expression that may raise. *)
Definition lift {A} (r : result A) : M A := fun w => (r, w).

(** [try: m  except <the exceptions h accepts>: h e]. *)
Definition try_except {A} (m : M A) (h : exn -> option (M A)) : M A :=
  fun w =>
    match m w with
    | (Ok a, w') => (Ok a, w')
    | (Raise e, w') =>
        match h e with
        | Some handler => handler w'
        | None => (Raise e, w')
        end
    end.

Declare Scope io_scope.
Delimit Scope io_scope with io.
Bind Scope io_scope with M.

Notation "x <- m ;; k" := (bind m (fun x => k))
  (at level 100, m at next level, right associativity) : io_scope.
Notation "m ;; k" := (bind m (fun _ => k))
  (at level 100, right associativity) : io_scope.

Local Open Scope io_scope.

(** [print(line)]. *)
Definition print (line : string) : M unit :=
  fun w => (Ok tt, log_event (EPrint line) w).

(** [input(prompt)]: the prompt is written, then a line is read;
    [EOFError] at the end of the input. *)
Definition input (prompt : string) : M string :=
  fun w =>
    match stdin w with
    | [] => (Raise EOFError, log_event (EInput prompt) w)
    | line :: rest =>
        (Ok line, mk_world rest (service w) (log w ++ [EInput prompt]))
    end.

(** The outcome of the next request. *)
Definition next_outcome (w : world) : outcome :=
  match service w with
  | out :: _ => out
  | [] => Unreachable
  end.

(** The world after [req] was sent. *)
Definition sent (req : request) (w : world) : world :=
  mk_world (stdin w) (tl (service w)) (log w ++ [ERequest req (next_outcome w)]).

(** Sending a request; [requests] raises [ConnectionError] when the
    service cannot be reached. *)
Definition send (req : request) : M response :=
  fun w =>
    match next_outcome w with
    | Responded r => (Ok r, sent req w)
    | Unreachable => (Raise ConnectionError, sent req w)
    end.

Definition requests_get (url : string) (headers : list (string * string))
    (params : list (string * json)) : M response :=
  send (mk_request GET url headers params None).

Definition requests_post (url : string) (headers : list (string * string))
    (payload : json) : M response :=
  send (mk_request POST url headers [] (Some payload)).

(** The 4xx and 5xx status codes. *)
Definition is_error_status (r : response) : bool :=
  (400 <=? status_code r) && (status_code r <? 600).

Definition error_message (r : response) : string :=
  str_int (status_code r)
  ++ (if status_code r <? 500 then " Client Error: " else " Server Error: ")
  ++ reason r ++ " for url: " ++ url r.

(** [response.raise_for_status()]: [HTTPError] for the 4xx and 5xx codes. *)
Definition raise_for_status (r : response) : M unit :=
  if is_error_status r then raise (HTTPError (error_message r)) else ret tt.

(** [response.json()]. *)
Definition response_json (r : response) : M json :=
  match body r with
  | Some j => ret j
  | None => raise JSONDecodeError
  end.

(** [while True: line = input(prompt); body], where the body leaves the
    loop with a value ([Some]) or goes round again ([None]). Every round
    reads one line, so the loop is defined by recursion on the lines that
    are left; at the end of the input, [input] raises [EOFError]. *)
Fixpoint input_loop_from {A} (lines : list string) (prompt : string)
    (body : string -> M (option A)) : M A :=
  fun w =>
    match lines with
    | [] => (Raise EOFError, log_event (EInput prompt) w)
    | line :: rest =>
        match body line (mk_world rest (service w) (log w ++ [EInput prompt])) with
        | (Ok (Some a), w') => (Ok a, w')
        | (Ok None, w') =>
            input_loop_from rest prompt body
              (mk_world rest (service w') (log w'))
        | (Raise e, w') => (Raise e, w')
        end
    end.

Definition input_loop {A} (prompt : string) (body : string -> M (option A))
  : M A :=
  fun w => input_loop_from (stdin w) prompt body w.

End IO.

Import IO.
Local Open Scope io_scope.

(* ===================================================================== *)
(** ** The program *)
(* ===================================================================== *)

Module Clockify.

Definition BASE_URL : string := "https://api.clockify.me/api/v1".

(** An instance of [ClockifyAPI]. *)
Record api : Type := mk_api {
  api_key : string;
  headers : list (string * string);
  workspace_id : json;
  user_id : json
}.

Definition make_headers (key : string) : list (string * string) :=
  [("X-Api-Key", key); ("Content-Type", "application/json")].

(** [_get_workspace_id]: the id of the first workspace. *)
Definition _get_workspace_id (hdrs : list (string * string)) : M json :=
  response <- requests_get (BASE_URL ++ "/workspaces") hdrs [] ;;
  raise_for_status response ;;
  workspaces <- response_json response ;;
  first <- lift (getindex workspaces 0) ;;
  lift (getitem first "id").

(** [_get_user_id]. *)
Definition _get_user_id (hdrs : list (string * string)) : M json :=
  response <- requests_get (BASE_URL ++ "/user") hdrs [] ;;
  raise_for_status response ;;
  user <- response_json response ;;
  lift (getitem user "id").

(** [ClockifyAPI()], given the value of [os.getenv("CLOCKIFY_API_KEY")]. *)
Definition __init__ (env_key : option string) : M api :=
  match env_key with
  | None | Some EmptyString =>
      raise (ValueError "CLOCKIFY_API_KEY not found in environment variables")
  | Some key =>
      let hdrs := make_headers key in
      wid <- _get_workspace_id hdrs ;;
      uid <- _get_user_id hdrs ;;
      ret (mk_api key hdrs wid uid)
  end.

Definition get_projects (self : api) : M json :=
  response <- requests_get
    (BASE_URL ++ "/workspaces/" ++ str (workspace_id self) ++ "/projects")
    (headers self) [] ;;
  raise_for_status response ;;
  response_json response.

Definition get_tasks (self : api) (project_id : json) : M json :=
  response <- requests_get
    (BASE_URL ++ "/workspaces/" ++ str (workspace_id self) ++ "/projects/"
     ++ str project_id ++ "/tasks")
    (headers self) [] ;;
  raise_for_status response ;;
  response_json response.

(** The query [has_time_entry] sends. *)
Definition time_entries_query (self : api) (project_id : json)
    (start_time end_time : datetime) : request :=
  let start_str := strftime start_time "%Y-%m-%dT%H:%M:%SZ" in
  let end_str := strftime end_time "%Y-%m-%dT%H:%M:%SZ" in
  let params := [("start", JStr start_str); ("end", JStr end_str);
                 ("project", project_id)] in
  mk_request GET
    (BASE_URL ++ "/workspaces/" ++ str (workspace_id self) ++ "/user/"
     ++ str (user_id self) ++ "/time-entries")
    (headers self) params None.

(** [has_time_entry]: is there already a time entry for the period? *)
Definition has_time_entry (self : api) (project_id : json)
    (start_time end_time : datetime) : M bool :=
  response <- send (time_entries_query self project_id start_time end_time) ;;
  raise_for_status response ;;
  entries <- response_json response ;;
  n <- lift (len entries) ;;
  ret (0 <? n).

(** The payload [add_time_entry] posts; [task_id] is [JNull] for [None]. *)
Definition entry_payload (project_id : json) (start_time end_time : datetime)
    (description : string) (task_id : json) (billable : bool) : json :=
  let payload :=
    [("start", JStr (isoformat start_time ++ "Z"));
     ("end", JStr (isoformat end_time ++ "Z"));
     ("description", JStr description);
     ("projectId", project_id);
     ("billable", JStr (lower (str_bool billable)))] in
  JDict (if truthy task_id then payload ++ [("taskId", task_id)] else payload).

(** [add_time_entry]. *)
Definition add_time_entry (self : api) (project_id : json)
    (start_time end_time : datetime) (description : string) (task_id : json)
    (billable : bool) : M json :=
  response <- requests_post
    (BASE_URL ++ "/workspaces/" ++ str (workspace_id self) ++ "/time-entries")
    (headers self)
    (entry_payload project_id start_time end_time description task_id billable) ;;
  raise_for_status response ;;
  response_json response.

(** [get_description_mode]. *)
Definition get_description_mode : M Z :=
  print (String "010" "How would you like to handle task descriptions?") ;;
  print "1. Use default description ('Standard workday') for all entries" ;;
  print "2. Set one custom description for all entries" ;;
  print "3. Enter custom description for each day" ;;
  input_loop (String "010" "Enter your choice (1-3): ")
    (fun line =>
       r <- try_except
              (choice <- lift (int line) ;;
               if (1 <=? choice) && (choice <=? 3)
               then ret (Some choice) else ret None)
              (fun e => if is_ValueError e then Some (ret None) else None) ;;
       match r with
       | Some choice => ret (Some choice)
       | None => print "Please enter a valid choice (1-3)" ;; ret None
       end).

(** [x in ['y', 'yes']] and the like. *)
Definition in_strings (x : string) (l : list string) : bool :=
  existsb (String.eqb x) l.

(** [get_billable_preference]. *)
Definition get_billable_preference : M bool :=
  input_loop (String "010" "Make entries billable? (y/N): ")
    (fun line =>
       let choice := lower line in
       if in_strings choice ["y"; "yes"] then ret (Some true)
       else if in_strings choice [""; "n"; "no"] then ret (Some false)
       else print "Please enter 'y' for yes or 'n' for no (default is no)" ;;
            ret None).

(** [for idx, item in enumerate(items): print(f"{idx + 1}. {item['name']}")]. *)
Fixpoint print_numbered (items : list json) (idx : Z) : M unit :=
  match items with
  | [] => ret tt
  | item :: rest =>
      name <- lift (getitem item "name") ;;
      print (str_int (idx + 1) ++ ". " ++ str name) ;;
      print_numbered rest (idx + 1)
  end.

(** The body of the project prompt of [main], after the line was read:
    [Some project_idx] leaves the loop, [None] goes round again. *)
Definition check_project_number (projects : json) (line : string)
  : M (option Z) :=
  try_except
    (n <- lift (int line) ;;
     let project_idx := n - 1 in
     count <- lift (len projects) ;;
     if (0 <=? project_idx) && (project_idx <? count)
     then ret (Some project_idx)
     else (count' <- lift (len projects) ;;
           print ("Please enter a number between 1 and " ++ str_int count') ;;
           ret None))
    (fun e =>
       if is_ValueError e
       then Some (print "Please enter a valid number" ;; ret None)
       else None).

(** The project prompt of [main]: asked again until the answer is the
    number of a listed project; the value is [project_idx]. *)
Definition select_project (projects : json) : M Z :=
  input_loop (String "010" "Select project number: ")
    (check_project_number projects).

(** The task step of [main] on a non-blank answer; the value is
    [selected_task], [JNull] for [None]. *)
Definition check_task_number (tasks : json) (task_input : string) : M json :=
  try_except
    (n <- lift (int task_input) ;;
     let task_idx := n - 1 in
     count <- lift (len tasks) ;;
     if (0 <=? task_idx) && (task_idx <? count)
     then lift (getindex tasks task_idx)
     else (print "Invalid task number, proceeding without task selection" ;;
           ret JNull))
    (fun e =>
       if is_ValueError e
       then Some (print "Invalid input, proceeding without task selection" ;;
                  ret JNull)
       else None).

(** The task step of [main]; the value is [selected_task], [JNull] for
    [None]. *)
Definition select_task (tasks : json) : M json :=
  if truthy tasks then
    print (String "010" "Available Tasks:") ;;
    items <- lift (iter tasks) ;;
    print_numbered items 0 ;;
    print (String "010" "Press Enter to skip task selection or enter a task number:") ;;
    task_input <- input "" ;;
    if negb (String.eqb (strip task_input) "")
    then check_task_number tasks task_input
    else ret JNull
  else
    print (String "010" "No tasks found for this project, proceeding without task selection") ;;
    ret JNull.

(** What the per-day loop of [main] reads from the enclosing scope. *)
Record settings : Type := mk_settings {
  project_id : json;
  selected_task : json;
  description_mode : Z;
  default_description : string;
  billable : bool
}.

(** [description = default_description], replaced by the answer to a
    prompt when [description_mode == 3]. *)
Definition resolve_description (cfg : settings) (day : datetime) : M string :=
  if description_mode cfg =? 3
  then input (String "010" "Enter description for " ++ date_str day ++ ": ")
  else ret (default_description cfg).

(** [selected_task["id"] if selected_task else None]. *)
Definition task_id_argument (cfg : settings) : result json :=
  if truthy (selected_task cfg)
  then getitem (selected_task cfg) "id"
  else Ok JNull.

(** The body of [for day in working_days]; the value is the pair
    [(added_count, skipped_count)] after the iteration. *)
Definition process_day (self : api) (cfg : settings) (day : datetime)
    (added_count skipped_count : Z) : M (Z * Z) :=
  start_time <- lift (replace_time day 9 0 0 0) ;;
  end_time <- lift (replace_time day 16 30 0 0) ;;
  exists_already <- has_time_entry self (project_id cfg) start_time end_time ;;
  if exists_already : bool then
    print ("Skipping " ++ date_str day ++ " - Time entry already exists") ;;
    ret (added_count, skipped_count + 1)
  else
    description <- resolve_description cfg day ;;
    try_except
      (task_id <- lift (task_id_argument cfg) ;;
       add_time_entry self (project_id cfg) start_time end_time
         description task_id (billable cfg) ;;
       print ("Added time entry for " ++ date_str day) ;;
       ret (added_count + 1, skipped_count))
      (fun e =>
         match e with
         | HTTPError msg =>
             Some (print ("Failed to add time entry for " ++ date_str day
                          ++ ": " ++ msg) ;;
                   ret (added_count, skipped_count))
         | _ => None
         end).

(** [for day in working_days: ...], from the given values of the two
    counters. *)
Fixpoint process_days (self : api) (cfg : settings) (working_days : list datetime)
    (added_count skipped_count : Z) : M (Z * Z) :=
  match working_days with
  | [] => ret (added_count, skipped_count)
  | day :: rest =>
      counts <- process_day self cfg day added_count skipped_count ;;
      process_days self cfg rest (fst counts) (snd counts)
  end.

(** The date range of [main]: from the first of the month of [today], at
    09:00, to [today]; the value is [working_days]. *)
Definition current_month_working_days (today : datetime)
  : result (list datetime) :=
  match replace_day_time today 1 9 0 0 0 with
  | Ok start_of_month => get_working_days start_of_month today
  | Raise e => Raise e
  end.

(** [main()], given the value of the environment variable and the value
    [datetime.now()] returns. *)
Definition main (env_key : option string) (now : datetime) : M unit :=
  self <- __init__ env_key ;;
  projects <- get_projects self ;;
  print (String "010" "Available Projects:") ;;
  items <- lift (iter projects) ;;
  print_numbered items 0 ;;
  project_idx <- select_project projects ;;
  selected_project <- lift (getindex projects project_idx) ;;
  pid <- lift (getitem selected_project "id") ;;
  tasks <- get_tasks self pid ;;
  task <- select_task tasks ;;
  mode <- get_description_mode ;;
  bill <- get_billable_preference ;;
  description <-
    (if mode =? 2
     then input (String "010" "Enter the description to use for all entries: ")
     else ret "Standard workday") ;;
  let today := now in
  working_days <- lift (current_month_working_days today) ;;
  counts <- process_days self (mk_settings pid task mode description bill)
              working_days 0 0 ;;
  print (String "010" "Summary: Added " ++ str_int (fst counts)
         ++ " entries, Skipped " ++ str_int (snd counts) ++ " existing entries").

End Clockify.

Import Clockify.

(* ===================================================================== *)
(** ** Vocabulary of the properties *)
(* ===================================================================== *)

(** *** Order, calendar and timestamps *)

(** [a < b] on datetimes. *)
Definition ltb (a b : datetime) : bool :=
  match DateTime.compare a b with Lt => true | _ => false end.

(** Microseconds since midnight. *)
Definition time_of_day (dt : datetime) : Z :=
  ((hour dt * 60 + minute dt) * 60 + second dt) * 1000000 + microsecond dt.

(** The last date a datetime can hold, 9999-12-31. *)
Definition on_last_day (dt : datetime) : Prop :=
  year dt = MAXYEAR /\ month dt = 12 /\ day dt = 31.

(** Monday to Friday. *)
Definition is_working_day (dt : datetime) : Prop := weekday dt < 5.

(** Strictly ascending lists of datetimes. *)
Definition ascending (l : list datetime) : Prop :=
  StronglySorted (fun a b => ltb a b = true) l.

(** [dt] is the date of [d] at [h]:[mi]:00. *)
Definition at_time (d : datetime) (h mi : Z) (dt : datetime) : Prop :=
  year dt = year d /\ month dt = month d /\ day dt = day d
  /\ hour dt = h /\ minute dt = mi /\ second dt = 0 /\ microsecond dt = 0.

(** The working hours of [day]: 09:00 to 16:30. *)
Definition window (day start_time end_time : datetime) : Prop :=
  replace_time day 9 0 0 0 = Ok start_time
  /\ replace_time day 16 30 0 0 = Ok end_time.

(** A working day of the current month, not after today. *)
Definition day_of_run (now d : datetime) : Prop :=
  is_working_day d /\ year d = year now /\ month d = month now
  /\ 1 <= day d <= day now.

(** The timestamp of the existence check, and the timestamp of the
    creation request. *)
Definition check_stamp (dt : datetime) : string :=
  strftime dt "%Y-%m-%dT%H:%M:%SZ".

Definition create_stamp (dt : datetime) : string := isoformat dt ++ "Z".

(** Date and time to the second, [YYYY-MM-DDTHH:MM:SS]. *)
Definition to_the_second (dt : datetime) : string :=
  zfill 4 (year dt) ++ "-" ++ zfill 2 (month dt) ++ "-" ++ zfill 2 (day dt)
  ++ "T" ++ zfill 2 (hour dt) ++ ":" ++ zfill 2 (minute dt) ++ ":"
  ++ zfill 2 (second dt).

(** The same with the year as [strftime] prints it, without padding. *)
Definition to_the_second_unpadded (dt : datetime) : string :=
  str_int (year dt) ++ "-" ++ zfill 2 (month dt) ++ "-" ++ zfill 2 (day dt)
  ++ "T" ++ zfill 2 (hour dt) ++ ":" ++ zfill 2 (minute dt) ++ ":"
  ++ zfill 2 (second dt).

(** *** Requests and their answers *)

(** What [has_time_entry] returns, given the outcome of its query. *)
Definition query_answer (out : outcome) : result bool :=
  match out with
  | Unreachable => Raise ConnectionError
  | Responded r =>
      if is_error_status r then Raise (HTTPError (error_message r))
      else match body r with
           | None => Raise JSONDecodeError
           | Some entries =>
               match len entries with
               | Ok n => Ok (0 <? n)
               | Raise e => Raise e
               end
           end
  end.

(** What [add_time_entry] returns, given the outcome of its request. *)
Definition creation_answer (out : outcome) : result json :=
  match out with
  | Unreachable => Raise ConnectionError
  | Responded r =>
      if is_error_status r then Raise (HTTPError (error_message r))
      else match body r with
           | None => Raise JSONDecodeError
           | Some entry => Ok entry
           end
  end.

(** The request [add_time_entry] sends. *)
Definition creation_request (self : api) (pid : json) (start_time end_time : datetime)
    (description : string) (task_id : json) (bill : bool) : request :=
  mk_request POST
    (BASE_URL ++ "/workspaces/" ++ str (workspace_id self) ++ "/time-entries")
    (headers self) []
    (Some (entry_payload pid start_time end_time description task_id bill)).

(** What the [except] clause of the loop makes of an exception raised in
    the [try] block: an [HTTPError] is reported and the counters are left
    as they are, any other exception propagates. *)
Definition creation_failed (day : datetime) (a k : Z) (e : exn) (w : world)
  : result (Z * Z) * world :=
  match e with
  | HTTPError msg =>
      (Ok (a, k),
       log_event (EPrint ("Failed to add time entry for " ++ date_str day
                          ++ ": " ++ msg)) w)
  | _ => (Raise e, w)
  end.

(** The fields of a JSON object. *)
Definition fields (j : json) : list (string * json) :=
  match j with JDict kvs => kvs | _ => [] end.

(** [req] carries the payload of an entry for such a day, from 09:00:00 to
    16:30:00 on that day. *)
Definition creates_entry_within (now : datetime) (req : request) : Prop :=
  exists d start_time end_time pid description task_id bill,
    day_of_run now d
    /\ at_time d 9 0 start_time /\ at_time d 16 30 end_time
    /\ req_json req
       = Some (entry_payload pid start_time end_time description task_id bill)
    /\ lookup "start" (fields (entry_payload pid start_time end_time
                                 description task_id bill))
       = Some (JStr (date_str d ++ "T09:00:00Z"))
    /\ lookup "end" (fields (entry_payload pid start_time end_time
                               description task_id bill))
       = Some (JStr (date_str d ++ "T16:30:00Z")).

(** *** Logs *)

(** Every event [m] adds to the log satisfies [P]. *)
Definition emits {A} (P : event -> Prop) (m : M A) : Prop :=
  forall w, exists new, log (snd (m w)) = (log w ++ new)%list /\ Forall P new.

(** What the program may add to the log: any output, any prompt, any [GET]
    request, and [POST] requests that create an entry as above. *)
Definition allowed (now : datetime) (e : event) : Prop :=
  match e with
  | ERequest req _ =>
      match req_method req with
      | POST => creates_entry_within now req
      | GET => True
      end
  | _ => True
  end.

(** A creation request that the service answered with a 4xx or 5xx code. *)
Definition is_failed_creation (e : event) : bool :=
  match e with
  | ERequest req (Responded r) =>
      match req_method req with
      | POST => is_error_status r
      | GET => false
      end
  | _ => false
  end.

(** The number of failed creations in a stretch of the log. *)
Definition failed_creations (l : list event) : Z :=
  Z.of_nat (List.length (filter is_failed_creation l)).

Definition is_input (e : event) : bool :=
  match e with EInput _ => true | _ => false end.

(** The number of calls of [input] in a stretch of the log. *)
Definition inputs (l : list event) : nat := List.length (filter is_input l).

(** [line] reads as a number between 1 and [count]. *)
Definition is_ordinal (count : Z) (line : string) : bool :=
  match parse_int line with
  | Some n => (1 <=? n) && (n <=? count)
  | None => false
  end.

(** The prompt of description mode 3 for [day]. *)
Definition description_prompt (day : datetime) : string :=
  String "010" "Enter description for " ++ date_str day ++ ": ".

(** [prev] is the existence check of one of [days], answered with an empty
    result, and [prompt] asks for the description of that day. *)
Definition follows_empty_check (self : api) (cfg : settings)
    (days : list datetime) (prev : option event) (prompt : string) : Prop :=
  exists day start_time end_time out,
    prev = Some (ERequest (time_entries_query self (project_id cfg)
                             start_time end_time) out)
    /\ In day days /\ window day start_time end_time
    /\ query_answer out = Ok false
    /\ description_mode cfg = 3
    /\ prompt = description_prompt day.

(** Every prompt in [l] comes right after such a check; [prev] is the event
    before [l]. *)
Fixpoint prompts_guarded (self : api) (cfg : settings) (days : list datetime)
    (prev : option event) (l : list event) : Prop :=
  match l with
  | [] => True
  | e :: l' =>
      match e with
      | EInput prompt => follows_empty_check self cfg days prev prompt
      | _ => True
      end
      /\ prompts_guarded self cfg days (Some e) l'
  end.

(** The payloads of the [POST] requests in a log. *)
Fixpoint posted (l : list event) : list json :=
  match l with
  | [] => []
  | ERequest (mk_request POST _ _ _ (Some payload)) _ :: l' => payload :: posted l'
  | _ :: l' => posted l'
  end.

(** *** Sample data *)

Definition last_midnight : datetime := mk_datetime 9999 12 31 0 0 0 0 eq_refl.

Definition tuesday_0800 : datetime := mk_datetime 2024 10 1 8 0 0 0 eq_refl.

Definition tuesday_1745 : datetime := mk_datetime 2024 10 1 17 45 12 3 eq_refl.

Definition noon_and_a_bit : datetime := mk_datetime 2024 7 3 12 0 0 5 eq_refl.

(** 1 January 999, 09:00:00 sharp. *)
Definition new_year_999 : datetime := mk_datetime 999 1 1 9 0 0 0 eq_refl.

(** A line of [n] ones. *)
Fixpoint ones (n : nat) : string :=
  match n with
  | O => ""
  | S n' => String "1" (ones n')
  end.

(** Monday 1 July 2024 and the two days after it. *)
Definition monday : datetime := mk_datetime 2024 7 1 9 0 0 0 eq_refl.
Definition monday_0900 : datetime := mk_datetime 2024 7 1 9 0 0 0 eq_refl.
Definition monday_1630 : datetime := mk_datetime 2024 7 1 16 30 0 0 eq_refl.
Definition tuesday : datetime := mk_datetime 2024 7 2 9 0 0 0 eq_refl.
Definition wednesday_noon : datetime := mk_datetime 2024 7 3 12 0 0 0 eq_refl.

Definition sample_api : api :=
  mk_api "key" (make_headers "key") (JStr "ws1") (JStr "u1").

Definition sample_cfg (mode : Z) : settings :=
  mk_settings (JStr "p1") JNull mode "Standard workday" false.

Definition answer (status : Z) (why : string) (content : option json) : outcome :=
  Responded (mk_response status why "https://api.clockify.me/" content).

Definition server_error : response :=
  mk_response 500 "Internal Server Error" "https://api.clockify.me/" None.

Definition one_entry_world : world :=
  mk_world [] [Responded (mk_response 200 "OK" "" (Some (JList [JNull])))] [].

(** The service fails on the first request. *)
Definition world_check_fails : world :=
  mk_world [] [Responded server_error] [].

(** No entry yet; the creation is refused. *)
Definition world_creation_fails : world :=
  mk_world [] [answer 200 "OK" (Some (JList []));
               answer 403 "Forbidden" None] [].

(** An entry exists already. *)
Definition world_entry_exists : world :=
  mk_world ["unread"] [answer 200 "OK" (Some (JList [JDict [("id", JStr "e1")]]))] [].

(** One workspace, one project with one task, nothing entered yet; the
    user picks project 1, no task, description mode 1, not billable. *)
Definition world_scenario : world :=
  mk_world ["1"; ""; "1"; "n"]
    [answer 200 "OK" (Some (JList [JDict [("id", JStr "ws1")]]));
     answer 200 "OK" (Some (JDict [("id", JStr "u1")]));
     answer 200 "OK" (Some (JList [JDict [("id", JStr "p1"); ("name", JStr "Project")]]));
     answer 200 "OK" (Some (JList [JDict [("id", JStr "t1"); ("name", JStr "Task")]]));
     answer 200 "OK" (Some (JList [])); answer 201 "Created" (Some (JDict []));
     answer 200 "OK" (Some (JList [])); answer 201 "Created" (Some (JDict []));
     answer 200 "OK" (Some (JList [])); answer 201 "Created" (Some (JDict []))]
    [].

Definition standard_entry (start_stamp end_stamp : string) : json :=
  JDict [("start", JStr start_stamp); ("end", JStr end_stamp);
         ("description", JStr "Standard workday"); ("projectId", JStr "p1");
         ("billable", JStr "false")].

(** *** Vocabulary of the further properties *)

(** The two requests of [__init__]. *)
Definition workspaces_request (key : string) : request :=
  mk_request GET (BASE_URL ++ "/workspaces") (make_headers key) [] None.

Definition user_request (key : string) : request :=
  mk_request GET (BASE_URL ++ "/user") (make_headers key) [] None.

(** The choice a line stands for at the description-mode prompt. *)
Definition mode_of_line (line : string) : option Z :=
  match parse_int line with
  | Some choice => if (1 <=? choice) && (choice <=? 3) then Some choice else None
  | None => None
  end.

(** The answer a line stands for at the billable prompt. *)
Definition billable_of_line (line : string) : option bool :=
  if in_strings (lower line) ["y"; "yes"] then Some true
  else if in_strings (lower line) [""; "n"; "no"] then Some false
  else None.

(** The four lines of the description-mode menu. *)
Definition mode_menu : list event :=
  [EPrint (String "010" "How would you like to handle task descriptions?");
   EPrint "1. Use default description ('Standard workday') for all entries";
   EPrint "2. Set one custom description for all entries";
   EPrint "3. Enter custom description for each day"].

(** The task a line of input selects: none for a blank line, for a line
    that is not a number and for a number out of range. *)
Definition task_of_line (tasks : list json) (line : string) : json :=
  if String.eqb (strip line) "" then JNull
  else match parse_int line with
       | Some n =>
           if (1 <=? n) && (n <=? Z.of_nat (List.length tasks))
           then nth (Z.to_nat (n - 1)) tasks JNull
           else JNull
       | None => JNull
       end.

Definition is_request (m : method) (e : event) : bool :=
  match e with
  | ERequest req _ =>
      match req_method req, m with
      | GET, GET | POST, POST => true
      | _, _ => false
      end
  | _ => false
  end.

(** The number of requests with method [m] in a stretch of the log. *)
Definition requests_sent (m : method) (l : list event) : Z :=
  Z.of_nat (List.length (filter (is_request m) l)).

Definition lines_read (l : list event) : Z := Z.of_nat (inputs l).

(** The task id a creation request has to carry: the value under ["id"]
    of the selected task when that task is a record with a non-empty id,
    none otherwise (no task selected, or an empty id). *)
Definition task_id_sent (cfg : settings) : option json :=
  match selected_task cfg with
  | JDict kvs =>
      match lookup "id" kvs with
      | Some tid => if truthy tid then Some tid else None
      | None => None
      end
  | _ => None
  end.

(** [req] posts an entry made from the settings of the run. *)
Definition carries_settings (self : api) (cfg : settings) (req : request) : Prop :=
  exists payload,
    req_json req = Some payload
    /\ req_url req
       = BASE_URL ++ "/workspaces/" ++ str (workspace_id self) ++ "/time-entries"
    /\ req_headers req = headers self
    /\ lookup "projectId" (fields payload) = Some (project_id cfg)
    /\ lookup "billable" (fields payload)
       = Some (JStr (if billable cfg then "true" else "false"))
    /\ lookup "taskId" (fields payload) = task_id_sent cfg
    /\ (description_mode cfg <> 3 ->
        lookup "description" (fields payload)
        = Some (JStr (default_description cfg))).

Definition posts_carry_settings (self : api) (cfg : settings) (e : event) : Prop :=
  match e with
  | ERequest req _ =>
      match req_method req with
      | POST => carries_settings self cfg req
      | GET => True
      end
  | _ => True
  end.

(** The summary line. *)
Definition summary_line (added skipped : Z) : string :=
  String "010" "Summary: Added " ++ str_int added ++ " entries, Skipped "
  ++ str_int skipped ++ " existing entries".

(** The service answers the two requests of [__init__] and then fails. *)
Definition world_listing_fails : world :=
  mk_world ["1"]
    [answer 200 "OK" (Some (JList [JDict [("id", JStr "ws1")]]));
     answer 200 "OK" (Some (JDict [("id", JStr "u1")]));
     Responded server_error] [].

(** [n] times [current_date += timedelta(days=1)]. *)
Fixpoint add_days (n : nat) (dt : datetime) : result datetime :=
  match n with
  | O => Ok dt
  | S n' =>
      match add_one_day dt with
      | Ok next => add_days n' next
      | Raise e => Raise e
      end
  end.

(** The number of working days among the [n] days from [dt] on. *)
Fixpoint working_count (n : nat) (dt : datetime) : nat :=
  match n with
  | O => 0
  | S n' =>
      let rest := match add_one_day dt with
                  | Ok next => working_count n' next
                  | Raise _ => O
                  end in
      if weekday dt <? 5 then S rest else rest
  end.

Definition sunday_week_end : datetime := mk_datetime 2024 7 14 9 0 0 0 eq_refl.
Definition monday_after : datetime := mk_datetime 2024 7 15 9 0 0 0 eq_refl.

(* ===================================================================== *)
(** ** Facts about strings and datetimes *)
(* ===================================================================== *)

Lemma append_assoc (a b c : string) : ((a ++ b) ++ c = a ++ (b ++ c))%string.
Proof. induction a as [| ch a IH]; cbn; [reflexivity | now rewrite IH]. Qed.

Lemma append_inv_head (a b c : string) : (a ++ b = a ++ c)%string -> b = c.
Proof.
  induction a as [| ch a IH]; cbn; intros H; [exact H |].
  injection H as H. auto.
Qed.

Lemma append_nil_r (a : string) : (a ++ "")%string = a.
Proof. induction a as [| ch a IH]; cbn; [reflexivity | now rewrite IH]. Qed.

Ltac dt_bounds d :=
  let H := fresh "Hrange" in
  let H' := fresh "Hdim" in
  pose proof (fields_in_range d) as H; unfold in_range in H;
  pose proof (days_in_month_bounds (year d) (month d)) as H'.

(** The order on datetimes, through the packed numbers. *)
Lemma ltb_packed (a b : datetime) : ltb a b = (packed a <? packed b).
Proof. unfold ltb, Z.ltb. rewrite compare_packed. reflexivity. Qed.

Lemma leb_true_iff (a b : datetime) : leb a b = true <-> packed a <= packed b.
Proof. rewrite leb_packed. apply Z.leb_le. Qed.

Lemma ltb_true_iff (a b : datetime) : ltb a b = true <-> packed a < packed b.
Proof. rewrite ltb_packed. apply Z.ltb_lt. Qed.

Lemma packed_inj (a b : datetime) : packed a = packed b -> a = b.
Proof.
  intros H. dt_bounds a. dt_bounds b. unfold packed in H.
  apply datetime_ext; lia.
Qed.

(** Adding a day moves to the very next datetime with the same time of
    day: it is later, and nothing with that time of day lies in between. *)
Lemma add_one_day_next (c n : datetime) :
  add_one_day c = Ok n ->
  time_of_day n = time_of_day c /\ packed c < packed n
  /\ forall d, time_of_day d = time_of_day c -> packed c < packed d ->
               packed n <= packed d.
Proof.
  intros Hn. apply add_one_day_Ok in Hn. destruct Hn as [Ht Hd].
  dt_bounds c. dt_bounds n.
  split; [unfold time_of_day; lia |].
  split; [unfold packed; lia |].
  intros d Htd Hlt. dt_bounds d. unfold time_of_day in Htd.
  assert (hour d = hour c /\ minute d = minute c /\ second d = second c
          /\ microsecond d = microsecond c) as (Hh & Hmi & Hs & Hus) by lia.
  unfold packed in *. rewrite Hh, Hmi, Hs, Hus in *.
  destruct (Z.eq_dec (year d) (year c)) as [Ey | Ny];
    [destruct (Z.eq_dec (month d) (month c)) as [Em | Nm] |].
  - rewrite Ey, Em in *. lia.
  - lia.
  - lia.
Qed.

(** The weekday depends on the date only. *)
Lemma weekday_same_date (a b : datetime) :
  year a = year b -> month a = month b -> day a = day b ->
  weekday a = weekday b.
Proof. unfold weekday. intros -> -> ->. reflexivity. Qed.

(** Replacing the time of day, or the day by 1, cannot fail. *)
Lemma replace_time_Ok (d : datetime) (h mi : Z) :
  0 <= h <= 23 -> 0 <= mi <= 59 ->
  exists dt, replace_time d h mi 0 0 = Ok dt /\ at_time d h mi dt.
Proof.
  intros Hh Hmi. dt_bounds d. unfold replace_time.
  destruct (new_datetime_in_range (year d) (month d) (day d) h mi 0 0)
    as [dt Hdt]; [unfold in_range; lia |].
  exists dt. split; [exact Hdt |].
  apply new_datetime_Ok in Hdt. unfold at_time. tauto.
Qed.

Lemma replace_time_at_time d h mi dt :
  replace_time d h mi 0 0 = Ok dt -> at_time d h mi dt.
Proof.
  unfold replace_time. intros H. apply new_datetime_Ok in H.
  unfold at_time. tauto.
Qed.

Lemma start_of_month_Ok (today : datetime) :
  exists dt, replace_day_time today 1 9 0 0 0 = Ok dt
             /\ year dt = year today /\ month dt = month today /\ day dt = 1
             /\ hour dt = 9 /\ minute dt = 0 /\ second dt = 0
             /\ microsecond dt = 0.
Proof.
  dt_bounds today. unfold replace_day_time.
  destruct (new_datetime_in_range (year today) (month today) 1 9 0 0 0)
    as [dt Hdt]; [unfold in_range; lia |].
  exists dt. split; [exact Hdt |].
  apply new_datetime_Ok in Hdt. tauto.
Qed.

Lemma window_exists (day : datetime) :
  exists start_time end_time,
    window day start_time end_time
    /\ at_time day 9 0 start_time /\ at_time day 16 30 end_time.
Proof.
  destruct (replace_time_Ok day 9 0) as (s & Hs & Hs'); [lia | lia |].
  destruct (replace_time_Ok day 16 30) as (e & He & He'); [lia | lia |].
  exists s, e. unfold window. tauto.
Qed.

Lemma at_time_isoformat d h mi dt :
  at_time d h mi dt ->
  isoformat dt ++ "Z"
  = date_str d ++ "T" ++ zfill 2 h ++ ":" ++ zfill 2 mi ++ ":00Z".
Proof.
  intros (Hy & Hm & Hd & Hh & Hmi & Hs & Hus).
  unfold isoformat, date_str. rewrite Hy, Hm, Hd, Hh, Hmi, Hs, Hus.
  cbn [Z.eqb]. rewrite !append_assoc. reflexivity.
Qed.

(** Lengths of decimal renderings. *)
Lemma length_append (a b : string) :
  String.length (a ++ b) = (String.length a + String.length b)%nat.
Proof. induction a as [| ch a IH]; cbn; [reflexivity | now rewrite IH]. Qed.

Lemma low_digits_length (n : nat) : forall z acc,
  String.length (low_digits n z acc) = (n + String.length acc)%nat.
Proof.
  induction n as [| n IH]; intros z acc; cbn [low_digits]; [reflexivity |].
  rewrite IH. cbn [String.length]. lia.
Qed.

Lemma count_digits_upper (fuel : nat) : forall z (k : nat),
  z < 10 ^ Z.of_nat k -> (1 <= k)%nat -> (count_digits fuel z <= k)%nat.
Proof.
  induction fuel as [| f IH]; intros z k Hz Hk; cbn [count_digits]; [exact Hk |].
  destruct (z <? 10) eqn:Hsmall; [exact Hk |].
  apply Z.ltb_ge in Hsmall.
  destruct k as [| k]; [lia |].
  rewrite Nat2Z.inj_succ, Z.pow_succ_r in Hz by lia.
  destruct k as [| k]; [cbn in Hz; lia |].
  apply le_n_S, IH; [| lia].
  apply Z.div_lt_upper_bound; lia.
Qed.

Lemma count_digits_lower (fuel : nat) : forall z (k : nat),
  10 ^ Z.of_nat k <= z -> (k <= fuel)%nat -> (S k <= count_digits fuel z)%nat.
Proof.
  induction fuel as [| f IH]; intros z k Hz Hk; cbn [count_digits]; [lia |].
  destruct k as [| k]; [destruct (z <? 10); lia |].
  rewrite Nat2Z.inj_succ, Z.pow_succ_r in Hz by lia.
  assert (1 <= 10 ^ Z.of_nat k) by (pose proof (Z.pow_pos_nonneg 10 (Z.of_nat k)); lia).
  destruct (z <? 10) eqn:Hsmall; [apply Z.ltb_lt in Hsmall; lia |].
  apply le_n_S, IH; [| lia].
  apply Z.div_le_lower_bound; lia.
Qed.

Lemma zfill_length (w : nat) (z : Z) :
  0 <= z -> String.length (zfill w z) = Nat.max w (num_digits z).
Proof.
  intros Hz. unfold zfill.
  destruct (z <? 0) eqn:Hneg; [apply Z.ltb_lt in Hneg; lia |].
  rewrite low_digits_length. cbn [String.length]. lia.
Qed.

(** A number that fits in [w] digits is rendered with exactly [w]. *)
Lemma zfill_length_exact (w : nat) (z : Z) :
  (1 <= w)%nat -> 0 <= z < 10 ^ Z.of_nat w -> String.length (zfill w z) = w.
Proof.
  intros Hw Hz. rewrite zfill_length by lia.
  pose proof (count_digits_upper (Z.to_nat (Z.log2 z)) z w (proj2 Hz) Hw) as H.
  unfold num_digits. lia.
Qed.

(** A year of four digits is printed the same with and without padding. *)
Lemma str_int_four_digits (y : Z) : 1000 <= y <= 9999 -> str_int y = zfill 4 y.
Proof.
  intros Hy. unfold str_int, zfill.
  destruct (y <? 0) eqn:Hneg; [apply Z.ltb_lt in Hneg; lia |].
  assert (num_digits y = 4%nat) as ->; [| reflexivity].
  unfold num_digits.
  pose proof (count_digits_upper (Z.to_nat (Z.log2 y)) y 4 ltac:(cbn; lia) ltac:(lia)).
  pose proof (Z.log2_le_mono 1000 y ltac:(lia)) as Hlog.
  change (Z.log2 1000) with 9 in Hlog.
  pose proof (count_digits_lower (Z.to_nat (Z.log2 y)) y 3 ltac:(cbn; lia) ltac:(lia)).
  lia.
Qed.

Lemma check_stamp_eq (dt : datetime) :
  check_stamp dt = to_the_second_unpadded dt ++ "Z".
Proof.
  unfold check_stamp, to_the_second_unpadded.
  cbn [strftime Ascii.eqb Bool.eqb andb].
  rewrite !append_assoc. reflexivity.
Qed.

Lemma create_stamp_eq (dt : datetime) :
  create_stamp dt
  = to_the_second dt
    ++ (if microsecond dt =? 0 then "" else "." ++ zfill 6 (microsecond dt))
    ++ "Z".
Proof.
  unfold create_stamp, isoformat, to_the_second.
  rewrite !append_assoc. reflexivity.
Qed.

Lemma to_the_second_unpadded_eq (dt : datetime) :
  1000 <= year dt -> to_the_second_unpadded dt = to_the_second dt.
Proof.
  intros Hy. dt_bounds dt. unfold to_the_second_unpadded, to_the_second.
  unfold MINYEAR, MAXYEAR in *.
  rewrite str_int_four_digits by lia. reflexivity.
Qed.

Lemma check_stamp_length (dt : datetime) :
  String.length (check_stamp dt)
  = (Nat.max 1 (num_digits (year dt)) + 16)%nat.
Proof.
  dt_bounds dt. unfold MINYEAR, MAXYEAR in *.
  rewrite check_stamp_eq. unfold to_the_second_unpadded, str_int.
  rewrite !length_append, (zfill_length 1) by lia.
  rewrite !(zfill_length_exact 2) by (cbn; lia).
  cbn [String.length]. lia.
Qed.

Lemma create_stamp_length (dt : datetime) :
  String.length (create_stamp dt)
  = if microsecond dt =? 0 then 20%nat else 27%nat.
Proof.
  dt_bounds dt. unfold MINYEAR, MAXYEAR in *.
  rewrite create_stamp_eq. unfold to_the_second.
  rewrite !length_append, (zfill_length_exact 4) by (cbn; lia).
  rewrite !(zfill_length_exact 2) by (cbn; lia).
  destruct (microsecond dt =? 0) eqn:Hus.
  - cbn [String.length]. lia.
  - apply Z.eqb_neq in Hus.
    rewrite length_append, (zfill_length_exact 6) by (cbn; lia).
    cbn [String.length]. lia.
Qed.

Lemma year_digits_bounds (dt : datetime) :
  (num_digits (year dt) <= 4)%nat
  /\ (year dt < 1000 -> (num_digits (year dt) <= 3)%nat).
Proof.
  dt_bounds dt. unfold MINYEAR, MAXYEAR in *. unfold num_digits. split.
  - apply count_digits_upper; [cbn; lia | lia].
  - intros Hy. apply count_digits_upper; [cbn; lia | lia].
Qed.


(* ===================================================================== *)
(** ** Facts about the monad and the log *)
(* ===================================================================== *)

Section Emits.
Context (P : event -> Prop).

Lemma emits_ret {A} (a : A) : emits P (ret a).
Proof. intros w. exists []. cbn. rewrite app_nil_r. auto. Qed.

Lemma emits_raise {A} (e : exn) : emits P (@raise A e).
Proof. intros w. exists []. cbn. rewrite app_nil_r. auto. Qed.

Lemma emits_lift {A} (r : result A) : emits P (lift r).
Proof. intros w. exists []. cbn. rewrite app_nil_r. auto. Qed.

Lemma emits_bind {A B} (m : M A) (k : A -> M B) :
  emits P m -> (forall a, emits P (k a)) -> emits P (bind m k).
Proof.
  intros Hm Hk w. unfold bind. destruct (Hm w) as (new1 & Hlog1 & HP1).
  destruct (m w) as [[a | e] w1]; cbn [snd] in Hlog1.
  - destruct (Hk a w1) as (new2 & Hlog2 & HP2).
    exists (new1 ++ new2)%list. split.
    + rewrite Hlog2, Hlog1, app_assoc. reflexivity.
    + apply Forall_app. auto.
  - exists new1. auto.
Qed.

Lemma emits_bind_lift {A B} (r : result A) (k : A -> M B) :
  (forall a, r = Ok a -> emits P (k a)) -> emits P (bind (lift r) k).
Proof.
  intros Hk w. unfold bind, lift. destruct r as [a | e].
  - apply Hk. reflexivity.
  - exists []. cbn. rewrite app_nil_r. auto.
Qed.

Lemma emits_try {A} (m : M A) (h : exn -> option (M A)) :
  emits P m -> (forall e handler, h e = Some handler -> emits P handler) ->
  emits P (try_except m h).
Proof.
  intros Hm Hh w. unfold try_except.
  destruct (Hm w) as (new1 & Hlog1 & HP1).
  destruct (m w) as [[a | e] w1]; cbn [snd] in Hlog1.
  - exists new1. auto.
  - destruct (h e) as [handler |] eqn:He.
    + destruct (Hh e handler He w1) as (new2 & Hlog2 & HP2).
      exists (new1 ++ new2)%list. split.
      * rewrite Hlog2, Hlog1, app_assoc. reflexivity.
      * apply Forall_app. auto.
    + exists new1. auto.
Qed.

Lemma emits_print (line : string) : P (EPrint line) -> emits P (print line).
Proof. intros H w. exists [EPrint line]. cbn. auto. Qed.

Lemma emits_input (prompt : string) :
  P (EInput prompt) -> emits P (input prompt).
Proof.
  intros H w. exists [EInput prompt]. unfold input.
  destruct (stdin w); cbn; auto.
Qed.

Lemma emits_send (req : request) :
  (forall out, P (ERequest req out)) -> emits P (send req).
Proof.
  intros H w. exists [ERequest req (next_outcome w)]. unfold send.
  destruct (next_outcome w) eqn:E; cbn; rewrite ?E; auto.
Qed.

Lemma emits_raise_for_status (r : response) : emits P (raise_for_status r).
Proof.
  unfold raise_for_status. destruct (is_error_status r);
    [apply emits_raise | apply emits_ret].
Qed.

Lemma emits_response_json (r : response) : emits P (response_json r).
Proof.
  unfold response_json. destruct (body r); [apply emits_ret | apply emits_raise].
Qed.

Lemma emits_input_loop {A} (prompt : string) (body : string -> M (option A)) :
  P (EInput prompt) -> (forall line, emits P (body line)) ->
  emits P (input_loop prompt body).
Proof.
  intros Hp Hb w. unfold input_loop. generalize (stdin w) as lines.
  intros lines. revert w.
  induction lines as [| line lines IH]; intros w; cbn [input_loop_from].
  - exists [EInput prompt]. cbn. auto.
  - match goal with
    | |- context [body line ?w0] =>
        destruct (Hb line w0) as (new1 & Hlog1 & HP1);
        destruct (body line w0) as [[[a |] | e] w1]
    end; cbn [snd log] in Hlog1.
    + exists (EInput prompt :: new1). split.
      * cbn [snd]. rewrite Hlog1, <- app_assoc. reflexivity.
      * constructor; assumption.
    + match goal with
      | |- context [input_loop_from lines prompt body ?w0] =>
          destruct (IH w0) as (new2 & Hlog2 & HP2)
      end.
      cbn [log] in Hlog2.
      exists (EInput prompt :: new1 ++ new2)%list. split.
      * rewrite Hlog2, Hlog1, <- !app_assoc. reflexivity.
      * constructor; [assumption | apply Forall_app; auto].
    + exists (EInput prompt :: new1). split.
      * cbn [snd]. rewrite Hlog1, <- app_assoc. reflexivity.
      * constructor; assumption.
Qed.

End Emits.

(** [input_loop] is the loop it stands for: a line is read, the body runs,
    and on [None] the loop starts again (the body reads no input). *)
Lemma input_loop_unfold {A} (prompt : string) (body : string -> M (option A)) :
  (forall line w, stdin (snd (body line w)) = stdin w) ->
  forall w,
    input_loop prompt body w
    = (line <- input prompt ;;
       r <- body line ;;
       match r with
       | Some a => ret a
       | None => input_loop prompt body
       end) w.
Proof.
  intros Hbody w. unfold input_loop, bind, input.
  destruct (stdin w) as [| line lines]; [reflexivity |].
  cbn [input_loop_from].
  match goal with
  | |- context [body line ?w0] =>
      pose proof (Hbody line w0) as Hin; destruct (body line w0) as [[[a |] | e] w1]
  end; try reflexivity.
  cbn [snd stdin] in Hin. destruct w1 as [i sv lg]. cbn in *. subst i.
  reflexivity.
Qed.

Lemma failed_creations_app l1 l2 :
  failed_creations (l1 ++ l2) = failed_creations l1 + failed_creations l2.
Proof.
  unfold failed_creations. rewrite filter_app, length_app. lia.
Qed.

Lemma inputs_app l1 l2 : inputs (l1 ++ l2) = (inputs l1 + inputs l2)%nat.
Proof. unfold inputs. rewrite filter_app, length_app. reflexivity. Qed.

(* ===================================================================== *)
(** ** Working days *)
(* ===================================================================== *)

(** The three ways one round of the loop can go. *)
Lemma working_days_loop_stop end_date current acc :
  leb current end_date = false ->
  working_days_loop end_date current acc = Ok acc.
Proof.
  funelim (working_days_loop end_date current acc); intros Hc;
    [reflexivity | congruence | congruence].
Qed.

Lemma working_days_loop_step end_date current acc next :
  leb current end_date = true -> add_one_day current = Ok next ->
  working_days_loop end_date current acc
  = working_days_loop end_date next
      (if weekday current <? 5 then (acc ++ [current])%list else acc).
Proof.
  funelim (working_days_loop end_date current acc); intros Hc Hn;
    [congruence | | congruence].
  assert (next0 = next) by congruence. subst. reflexivity.
Qed.

Lemma working_days_loop_overflow end_date current acc e :
  leb current end_date = true -> add_one_day current = Raise e ->
  working_days_loop end_date current acc = Raise e.
Proof.
  funelim (working_days_loop end_date current acc); intros Hc Hn;
    [congruence | congruence |].
  congruence.
Qed.

(** What the loop returns, if it returns: the accumulator followed by the
    working days from [current] to [end_date], in ascending order. *)
Lemma working_days_loop_spec end_date current acc l :
  working_days_loop end_date current acc = Ok l ->
  exists tail,
    l = (acc ++ tail)%list /\ ascending tail
    /\ forall d, In d tail <->
                 (packed current <= packed d /\ packed d <= packed end_date
                  /\ time_of_day d = time_of_day current /\ weekday d < 5).
Proof.
  revert l. funelim (working_days_loop end_date current acc).
  all: intros l Hl.
  - injection Hl as <-. exists []. rewrite app_nil_r.
    split; [reflexivity |]. split; [constructor |].
    intros d. pose proof e as e'. rewrite leb_packed in e'. apply Z.leb_gt in e'.
    split; [intros [] | lia].
  - apply H in Hl. clear H Heqcall.
    destruct Hl as (tail & -> & Hsorted & Hin).
    destruct (add_one_day_next _ _ Hnext) as (Htod & Hlt & Hsucc).
    pose proof (proj1 (leb_true_iff _ _) Hle) as Hle'.
    assert (Hall : Forall (fun b => ltb current_date b = true) tail).
    { apply Forall_forall. intros b Hb. apply Hin in Hb.
      apply ltb_true_iff. lia. }
    destruct (weekday current_date <? 5) eqn:Hwd;
      [apply Z.ltb_lt in Hwd | apply Z.ltb_ge in Hwd].
    + exists (current_date :: tail). rewrite <- app_assoc. cbn [app].
      split; [reflexivity |]. split; [constructor; assumption |].
      intros d. cbn [In]. rewrite Hin. split.
      * intros [<- | (G1 & G2 & G3 & G4)]; [lia | repeat split; lia].
      * intros (G1 & G2 & G3 & G4).
        destruct (Z.eq_dec (packed current_date) (packed d)) as [E | N].
        -- left. apply packed_inj, E.
        -- right. assert (packed next <= packed d) by (apply Hsucc; lia).
           repeat split; lia.
    + exists tail. split; [reflexivity |]. split; [assumption |].
      intros d. rewrite Hin. split.
      * intros (G1 & G2 & G3 & G4). repeat split; lia.
      * intros (G1 & G2 & G3 & G4).
        destruct (Z.eq_dec (packed current_date) (packed d)) as [E | N].
        -- apply packed_inj in E. subst d. lia.
        -- assert (packed next <= packed d) by (apply Hsucc; lia).
           repeat split; lia.
  - discriminate.
Qed.

(** The loop returns unless it has to step past the last day. *)
Lemma working_days_loop_returns end_date current acc :
  ~ (on_last_day end_date /\ time_of_day current <= time_of_day end_date) ->
  exists l, working_days_loop end_date current acc = Ok l.
Proof.
  funelim (working_days_loop end_date current acc); intros Hno.
  - eexists; reflexivity.
  - apply H. destruct (add_one_day_next _ _ Hnext) as (Htod & _).
    rewrite Htod. exact Hno.
  - exfalso. apply Hno. clear Heqcall.
    match goal with
    | Hr : add_one_day _ = Raise _ |- _ =>
        destruct (add_one_day_Raise _ _ Hr) as (Hy & Hm & Hd & _)
    end.
    pose proof (proj1 (leb_true_iff _ _) Hle) as Hle'.
    dt_bounds current_date. dt_bounds end_date.
    unfold packed in Hle'. unfold on_last_day, MAXYEAR, time_of_day.
    assert (year end_date = 9999 /\ month end_date = 12 /\ day end_date = 31)
      as (Ey & Em & Ed) by lia.
    rewrite Hy, Hm, Hd, Ey, Em, Ed in Hle'.
    repeat split; try assumption. lia.
Qed.

(** C1, as stated, fails on the last day a datetime can hold: from
    9999-12-31 00:00:00 to itself, the loop appends the day and then adds
    one day to it, which raises [OverflowError]; nothing is returned. *)
Lemma get_working_days_overflows_on_the_last_day :
  leb last_midnight last_midnight = true
  /\ get_working_days last_midnight last_midnight
     = Raise (OverflowError "date value out of range").
Proof. split; reflexivity. Qed.

(** C1, amended. For [start_date <= end_date], unless [end_date] is on
    9999-12-31 at a time of day not earlier than that of [start_date]
    (the loop would have to step past the last day), [get_working_days]
    returns a list that is strictly ascending and holds exactly the
    datetimes from [start_date] to [end_date], both included, that have the
    time of day of [start_date] (the days reached from [start_date] one day
    at a time) and fall on Monday to Friday. *)
Theorem get_working_days_spec (start_date end_date : datetime) :
  leb start_date end_date = true ->
  ~ (on_last_day end_date /\ time_of_day start_date <= time_of_day end_date) ->
  exists l,
    get_working_days start_date end_date = Ok l
    /\ ascending l
    /\ forall d, In d l <->
                 (leb start_date d = true /\ leb d end_date = true
                  /\ time_of_day d = time_of_day start_date
                  /\ is_working_day d).
Proof.
  intros _ Hno. unfold get_working_days.
  destruct (working_days_loop_returns end_date start_date [] Hno) as [l Hl].
  exists l. split; [exact Hl |].
  apply working_days_loop_spec in Hl. destruct Hl as (tail & -> & Hs & Hin).
  cbn [app]. split; [exact Hs |].
  intros d. rewrite Hin, !leb_true_iff. unfold is_working_day. tauto.
Qed.

Lemma get_working_days_spec_witness :
  leb monday wednesday_noon = true
  /\ exists l,
       get_working_days monday wednesday_noon = Ok l
       /\ ascending l
       /\ forall d, In d l <->
                    (leb monday d = true /\ leb d wednesday_noon = true
                     /\ time_of_day d = time_of_day monday
                     /\ is_working_day d).
Proof.
  split; [reflexivity |].
  apply (get_working_days_spec monday wednesday_noon); [reflexivity |].
  intros [[Hy _] _]. discriminate Hy.
Defined.

(** When the loop has to step past the last day, it raises. *)
Lemma working_days_loop_raises end_date current acc :
  on_last_day end_date ->
  time_of_day current <= time_of_day end_date ->
  leb current end_date = true ->
  working_days_loop end_date current acc
  = Raise (OverflowError "date value out of range").
Proof.
  funelim (working_days_loop end_date current acc); intros Hlast Htod Hc.
  - congruence.
  - destruct (add_one_day_next _ _ Hnext) as (Htn & Hlt & Hsucc).
    apply H; [exact Hlast | rewrite Htn; exact Htod |].
    apply leb_true_iff.
    pose proof (add_one_day_Ok _ _ Hnext) as [_ Hcases].
    dt_bounds current_date. dt_bounds end_date. dt_bounds next.
    destruct (new_datetime_in_range (year end_date) (month end_date)
                (day end_date) (hour current_date) (minute current_date)
                (second current_date) (microsecond current_date))
      as [d Hd]; [unfold in_range; lia |].
    apply new_datetime_Ok in Hd.
    destruct Hd as (Dy & Dm & Dd & Dh & Dmi & Ds & Dus).
    destruct Hlast as (Ly & Lm & Ld). unfold MAXYEAR in Ly.
    assert (Hcd : packed current_date < packed d).
    { unfold packed. rewrite Dy, Dm, Dd, Dh, Dmi, Ds, Dus, Ly, Lm, Ld.
      assert (days_in_month 9999 12 = 31) by reflexivity.
      destruct (Z.eq_dec (year current_date) 9999) as [Ey | Ny]; [| lia].
      destruct (Z.eq_dec (month current_date) 12) as [Em | Nm]; [| lia].
      rewrite Ey, Em in *. lia. }
    assert (Hdn : packed next <= packed d).
    { apply Hsucc; [| exact Hcd].
      unfold time_of_day. rewrite Dh, Dmi, Ds, Dus. reflexivity. }
    assert (Hde : packed d <= packed end_date).
    { unfold time_of_day in Htod. unfold packed.
      rewrite Dy, Dm, Dd, Dh, Dmi, Ds, Dus. lia. }
    lia.
  - match goal with
    | Hr : add_one_day _ = Raise _ |- _ =>
        destruct (add_one_day_Raise _ _ Hr) as (_ & _ & _ & ->)
    end.
    reflexivity.
Qed.

(** From [start_date <= end_date], with [end_date] on 9999-12-31 at a time
    of day not earlier than that of [start_date], [get_working_days]
    raises [OverflowError]. *)
Lemma get_working_days_raises_past_the_last_day (start_date end_date : datetime) :
  leb start_date end_date = true ->
  on_last_day end_date ->
  time_of_day start_date <= time_of_day end_date ->
  get_working_days start_date end_date
  = Raise (OverflowError "date value out of range").
Proof.
  intros Hle Hlast Htod. apply working_days_loop_raises; assumption.
Qed.

(** C4, as stated, fails before 09:00: on Tuesday 1 October 2024 at
    08:00 the first of the month at 09:00 is later than now, and the list
    of working days is empty. *)
Lemma first_day_before_nine_counterexample :
  day tuesday_0800 = 1 /\ weekday tuesday_0800 = 1
  /\ current_month_working_days tuesday_0800 = Ok [].
Proof. repeat split. Qed.

(** C4, amended. When now is on the first day of a month, that day is a
    Tuesday, and it is 09:00 or later, the working days of the run are
    exactly the first of the month (at 09:00). *)
Theorem first_day_working_days (now : datetime) :
  day now = 1 -> weekday now = 1 -> 9 <= hour now ->
  exists d, current_month_working_days now = Ok [d] /\ at_time now 9 0 d.
Proof.
  intros Hday Hwd Hnine. unfold current_month_working_days, get_working_days.
  destruct (start_of_month_Ok now)
    as (s & -> & Hy & Hm & Hd & Hh & Hmi & Hs & Hus).
  dt_bounds now. dt_bounds s.
  exists s. split; [| unfold at_time; repeat split; congruence].
  destruct (new_datetime_in_range (year s) (month s) 2 9 0 0 0)
    as [n Hn]; [unfold in_range; lia |].
  assert (Hadd : add_one_day s = Ok n).
  { unfold add_one_day. rewrite Hd, Hh, Hmi, Hs, Hus.
    replace (1 + 1 <=? days_in_month (year s) (month s)) with true
      by (symmetry; apply Z.leb_le; lia).
    replace ((MINYEAR <=? year s) && (year s <=? MAXYEAR)) with true
      by (symmetry; apply andb_true_iff; unfold MINYEAR, MAXYEAR;
          split; apply Z.leb_le; lia).
    exact Hn. }
  apply new_datetime_Ok in Hn. dt_bounds n.
  rewrite (working_days_loop_step now s [] n);
    [| apply leb_true_iff; unfold packed; lia | exact Hadd].
  rewrite (weekday_same_date s now), Hwd by congruence.
  cbn [Z.ltb Z.compare app].
  apply working_days_loop_stop.
  rewrite leb_packed. apply Z.leb_gt. unfold packed. lia.
Qed.

Lemma first_day_working_days_witness :
  exists d, current_month_working_days tuesday_1745 = Ok [d]
            /\ at_time tuesday_1745 9 0 d.
Proof.
  apply (first_day_working_days tuesday_1745);
    [reflexivity | reflexivity | cbn; lia].
Defined.

(** Before 09:00 on the first of the month the run has no working day. *)
Lemma first_day_before_nine (now : datetime) :
  day now = 1 -> hour now < 9 -> current_month_working_days now = Ok [].
Proof.
  intros Hday Hnine. unfold current_month_working_days, get_working_days.
  destruct (start_of_month_Ok now)
    as (s & -> & Hy & Hm & Hd & Hh & Hmi & Hs & Hus).
  dt_bounds now. dt_bounds s.
  apply working_days_loop_stop.
  rewrite leb_packed. apply Z.leb_gt. unfold packed. lia.
Qed.

(** The working days of a run lie in the month of [now], up to its day. *)
Lemma current_month_working_days_in_month now l :
  current_month_working_days now = Ok l -> Forall (day_of_run now) l.
Proof.
  unfold current_month_working_days, get_working_days.
  destruct (start_of_month_Ok now) as (s & -> & Hy & Hm & Hd & Hh & Hmi & Hs & Hus).
  intros Hl. apply working_days_loop_spec in Hl.
  destruct Hl as (tail & -> & _ & Hin). cbn [app].
  apply Forall_forall. intros d Hd'. apply Hin in Hd'.
  destruct Hd' as (H1 & H2 & H3 & H4).
  dt_bounds now. dt_bounds s. dt_bounds d.
  unfold packed in H1, H2. unfold time_of_day in H3.
  rewrite Hy, Hm, Hd, Hh, Hmi, Hs, Hus in *.
  unfold day_of_run, is_working_day.
  assert (hour d = 9 /\ minute d = 0 /\ second d = 0 /\ microsecond d = 0)
    as (Eh & Emi & Es & Eus) by lia.
  rewrite Eh, Emi, Es, Eus in *.
  assert (year d = year now) by lia.
  assert (month d = month now) by lia.
  repeat split; try assumption; lia.
Qed.

(* ===================================================================== *)
(** ** Timestamps on the wire *)
(* ===================================================================== *)

(** C5, amended. The existence check sends its window as [strftime]
    renders it: date and time to the second followed by [Z], without a
    fraction, the year without padding. The creation request sends
    [isoformat()] followed by [Z]: the year on four digits and the
    microsecond unless it is zero. The two texts are the same exactly for
    the datetimes with microsecond zero and a year from 1000 on; they
    differ for every datetime with another microsecond, such as
    12:00:00.000005 on 3 July 2024. *)
Theorem stamps_agree_iff_whole_second_and_four_digit_year :
  (forall self pid start_time end_time,
      req_params (time_entries_query self pid start_time end_time)
      = [("start", JStr (check_stamp start_time));
         ("end", JStr (check_stamp end_time));
         ("project", pid)])
  /\ (forall dt, check_stamp dt = to_the_second_unpadded dt ++ "Z")
  /\ (forall pid start_time end_time description task_id billable,
         exists rest,
           entry_payload pid start_time end_time description task_id billable
           = JDict (("start", JStr (create_stamp start_time))
                    :: ("end", JStr (create_stamp end_time)) :: rest))
  /\ (forall dt, create_stamp dt
                 = to_the_second dt
                   ++ (if microsecond dt =? 0 then ""
                       else "." ++ zfill 6 (microsecond dt))
                   ++ "Z")
  /\ (forall dt, microsecond dt = 0 -> 1000 <= year dt ->
                 check_stamp dt = create_stamp dt)
  /\ (forall dt, microsecond dt <> 0 -> check_stamp dt <> create_stamp dt)
  /\ (forall dt, check_stamp dt = create_stamp dt
                 <-> microsecond dt = 0 /\ 1000 <= year dt)
  /\ (microsecond noon_and_a_bit <> 0
      /\ check_stamp noon_and_a_bit = "2024-07-03T12:00:00Z"
      /\ create_stamp noon_and_a_bit = "2024-07-03T12:00:00.000005Z").
Proof.
  assert (forall dt, microsecond dt = 0 -> 1000 <= year dt ->
                     check_stamp dt = create_stamp dt) as Hagree.
  { intros dt Hus Hy.
    rewrite check_stamp_eq, create_stamp_eq, Hus, to_the_second_unpadded_eq by exact Hy.
    reflexivity. }
  assert (forall dt, microsecond dt <> 0 -> check_stamp dt <> create_stamp dt)
    as Hdiffer.
  { intros dt Hus Heq. apply (f_equal String.length) in Heq.
    rewrite check_stamp_length, create_stamp_length in Heq.
    apply Z.eqb_neq in Hus. rewrite Hus in Heq.
    pose proof (year_digits_bounds dt) as [H4 _]. lia. }
  split; [| split; [| split; [| split; [| split; [| split; [| split]]]]]].
  - intros. reflexivity.
  - apply check_stamp_eq.
  - intros. unfold entry_payload. destruct (truthy task_id); eexists; reflexivity.
  - apply create_stamp_eq.
  - exact Hagree.
  - exact Hdiffer.
  - intros dt. split.
    + intros Heq.
      destruct (Z.eq_dec (microsecond dt) 0) as [Hus | Hus];
        [| destruct (Hdiffer dt Hus Heq)].
      split; [exact Hus |].
      destruct (Z_lt_le_dec (year dt) 1000) as [Hy | Hy]; [| exact Hy].
      apply (f_equal String.length) in Heq.
      rewrite check_stamp_length, create_stamp_length, Hus in Heq.
      pose proof (year_digits_bounds dt) as [_ H3]. specialize (H3 Hy).
      cbn [Z.eqb] in Heq. lia.
    + intros [Hus Hy]. apply Hagree; assumption.
  - repeat split. discriminate.
Qed.

Lemma stamps_agree_iff_whole_second_and_four_digit_year_witness :
  microsecond monday = 0 /\ 1000 <= year monday
  /\ check_stamp monday = create_stamp monday.
Proof.
  split; [reflexivity |]. split; [cbn; lia |].
  destruct stamps_agree_iff_whole_second_and_four_digit_year
    as (_ & _ & _ & _ & Hagree & _).
  apply Hagree; [reflexivity | cbn; lia].
Defined.

(** C5, as first stated, fails before the year 1000: at 09:00:00 sharp
    on 1 January 999 the microsecond is zero, the existence check sends
    the year as [999] and the creation request as [0999]. *)
Lemma stamps_differ_before_year_1000 :
  microsecond new_year_999 = 0
  /\ check_stamp new_year_999 = "999-01-01T09:00:00Z"
  /\ create_stamp new_year_999 = "0999-01-01T09:00:00Z".
Proof. repeat split. Qed.

(* ===================================================================== *)
(** ** The two requests of the per-day loop *)
(* ===================================================================== *)

(** [has_time_entry] sends its query and nothing else; what it returns is
    a function of the outcome alone. *)
Lemma has_time_entry_run self pid start_time end_time w :
  has_time_entry self pid start_time end_time w
  = (query_answer (next_outcome w),
     sent (time_entries_query self pid start_time end_time) w).
Proof.
  unfold has_time_entry, bind, send, query_answer, raise_for_status.
  destruct (next_outcome w) as [r |]; [| reflexivity].
  destruct (is_error_status r); [reflexivity |]. unfold ret.
  unfold response_json. destruct (body r) as [j |]; [| reflexivity].
  unfold ret, lift. destruct (len j); reflexivity.
Qed.

(** Likewise for [add_time_entry] and its creation request. *)
Lemma add_time_entry_run self pid start_time end_time description task_id bill w :
  add_time_entry self pid start_time end_time description task_id bill w
  = (creation_answer (next_outcome w),
     sent (creation_request self pid start_time end_time description task_id bill) w).
Proof.
  unfold add_time_entry, requests_post, bind, send, creation_answer,
    raise_for_status, creation_request.
  destruct (next_outcome w) as [r |]; [| reflexivity].
  destruct (is_error_status r); [reflexivity |]. unfold ret.
  unfold response_json. destruct (body r) as [j |]; reflexivity.
Qed.

(** Subscripting never raises [HTTPError]. *)
Lemma getitem_not_HTTPError j key e :
  getitem j key = Raise e -> is_HTTPError e = false.
Proof.
  destruct j; cbn; try (intros [= <-]; reflexivity).
  destruct (lookup key kvs); [discriminate | intros [= <-]; reflexivity].
Qed.

Lemma task_id_argument_not_HTTPError cfg e :
  task_id_argument cfg = Raise e -> is_HTTPError e = false.
Proof.
  unfold task_id_argument. destruct (truthy (selected_task cfg));
    [apply getitem_not_HTTPError | discriminate].
Qed.

(** [add_time_entry] raises [HTTPError] on 4xx and 5xx answers only, and
    returns on other answers only. *)
Lemma creation_answer_HTTPError out msg :
  creation_answer out = Raise (HTTPError msg) ->
  exists r, out = Responded r /\ is_error_status r = true.
Proof.
  destruct out as [r |]; cbn; [| discriminate].
  destruct (is_error_status r) eqn:E; [eauto |].
  destruct (body r); discriminate.
Qed.

Lemma creation_answer_Ok out j :
  creation_answer out = Ok j ->
  exists r, out = Responded r /\ is_error_status r = false.
Proof.
  destruct out as [r |]; cbn; [| discriminate].
  destruct (is_error_status r) eqn:E; [discriminate | eauto].
Qed.

(** C3. When the time-entry query is answered without an HTTP error by a
    list of entries, [has_time_entry] returns [True] exactly when that
    list is not empty, whatever the entries are and whatever the window;
    it sends that one query and does nothing else. *)
Theorem has_time_entry_iff_entries_returned
    (self : api) (pid : json) (start_time end_time : datetime) (w : world)
    (r : response) (entries : list json) :
  next_outcome w = Responded r ->
  is_error_status r = false ->
  body r = Some (JList entries) ->
  exists b,
    has_time_entry self pid start_time end_time w
    = (Ok b, sent (time_entries_query self pid start_time end_time) w)
    /\ (b = true <-> entries <> []).
Proof.
  intros Hout Hstatus Hbody. rewrite has_time_entry_run.
  unfold query_answer. rewrite Hout, Hstatus, Hbody. cbn [len].
  eexists. split; [reflexivity |].
  destruct entries as [| x l]; cbn.
  - split; [discriminate | congruence].
  - split; [discriminate | reflexivity].
Qed.

Lemma has_time_entry_iff_entries_returned_witness :
  exists b,
    has_time_entry (mk_api "k" [] (JStr "w") (JStr "u")) (JStr "p")
      noon_and_a_bit noon_and_a_bit one_entry_world
    = (Ok b, sent (time_entries_query (mk_api "k" [] (JStr "w") (JStr "u"))
                     (JStr "p") noon_and_a_bit noon_and_a_bit) one_entry_world)
    /\ (b = true <-> [JNull] <> []).
Proof.
  apply (has_time_entry_iff_entries_returned
           (mk_api "k" [] (JStr "w") (JStr "u")) (JStr "p")
           noon_and_a_bit noon_and_a_bit one_entry_world
           (mk_response 200 "OK" "" (Some (JList [JNull]))) [JNull]);
    reflexivity.
Defined.

(** C7. In the payload [add_time_entry] posts, the field [billable] is the
    string ["true"] when the flag is [True] and the string ["false"] when
    it is [False], and so never a JSON boolean; the request sent carries
    that payload. *)
Theorem billable_is_a_lowercase_string
    (self : api) (pid : json) (start_time end_time : datetime)
    (description : string) (task_id : json) (flag : bool) :
  let payload :=
    entry_payload pid start_time end_time description task_id flag in
  lookup "billable" (fields payload)
  = Some (JStr (if flag then "true" else "false"))
  /\ (forall b, lookup "billable" (fields payload) <> Some (JBool b))
  /\ (forall w,
         snd (add_time_entry self pid start_time end_time description
                task_id flag w)
         = sent (mk_request POST
                   (BASE_URL ++ "/workspaces/" ++ str (workspace_id self)
                    ++ "/time-entries")
                   (headers self) [] (Some payload)) w).
Proof.
  cbv zeta.
  assert (H : lookup "billable"
                (fields (entry_payload pid start_time end_time description
                           task_id flag))
              = Some (JStr (if flag then "true" else "false"))).
  { unfold entry_payload. destruct (truthy task_id), flag; reflexivity. }
  split; [exact H |]. split.
  - intros b. rewrite H. discriminate.
  - intros w. rewrite add_time_entry_run. reflexivity.
Qed.

(* ===================================================================== *)
(** ** The per-day loop *)
(* ===================================================================== *)

(** One iteration of the loop, case by case. *)
Lemma process_day_run self cfg day start_time end_time a k w :
  window day start_time end_time ->
  process_day self cfg day a k w
  = let w1 := sent (time_entries_query self (project_id cfg) start_time end_time) w in
    match query_answer (next_outcome w) with
    | Raise e => (Raise e, w1)
    | Ok true =>
        (Ok (a, k + 1),
         log_event (EPrint ("Skipping " ++ date_str day
                            ++ " - Time entry already exists")) w1)
    | Ok false =>
        match resolve_description cfg day w1 with
        | (Raise e, w2) => (Raise e, w2)
        | (Ok description, w2) =>
            match task_id_argument cfg with
            | Raise e => creation_failed day a k e w2
            | Ok task_id =>
                let w3 := sent (creation_request self (project_id cfg) start_time
                                  end_time description task_id (billable cfg)) w2 in
                match creation_answer (next_outcome w2) with
                | Ok _ =>
                    (Ok (a + 1, k),
                     log_event (EPrint ("Added time entry for " ++ date_str day)) w3)
                | Raise e => creation_failed day a k e w3
                end
            end
        end
    end.
Proof.
  intros [Hs He]. unfold process_day, bind at 1, lift at 1. rewrite Hs.
  unfold bind at 1, lift at 1. rewrite He.
  unfold bind at 1. rewrite has_time_entry_run. cbv zeta.
  destruct (query_answer (next_outcome w)) as [[|] | e]; try reflexivity.
  unfold bind at 1.
  destruct (resolve_description cfg day _) as [[description | e] w2];
    [| reflexivity].
  unfold try_except, bind at 1, lift.
  destruct (task_id_argument cfg) as [task_id | e]; [| destruct e; reflexivity].
  unfold bind at 1. rewrite add_time_entry_run.
  destruct (creation_answer (next_outcome w2)) as [j | e];
    [reflexivity | destruct e; reflexivity].
Qed.

(** The loop runs the body on the first day and, unless it raised, goes
    on with the other days. *)
Lemma process_days_cons self cfg day rest a k w :
  process_days self cfg (day :: rest) a k w
  = match process_day self cfg day a k w with
    | (Ok counts, w') => process_days self cfg rest (fst counts) (snd counts) w'
    | (Raise e, w') => (Raise e, w')
    end.
Proof. reflexivity. Qed.

(** C9. An exception raised by the existence check of a working day is
    not caught by the loop: the loop raises it in the world the check left,
    so no later day is processed and nothing that follows the loop runs.
    A 4xx or 5xx answer to the query makes the check raise [HTTPError].
    An exception raised while the description is read propagates in the
    same way: only the creation of the entry is guarded. *)
Theorem failed_check_aborts_the_loop
    (self : api) (cfg : settings) (day : datetime) (rest : list datetime)
    (start_time end_time : datetime) (a k : Z) (w : world) :
  window day start_time end_time ->
  (forall e w',
      has_time_entry self (project_id cfg) start_time end_time w = (Raise e, w') ->
      process_days self cfg (day :: rest) a k w = (Raise e, w')
      /\ forall (B : Type) (after : Z * Z -> M B),
           bind (process_days self cfg (day :: rest) a k) after w = (Raise e, w'))
  /\ (forall r,
         next_outcome w = Responded r -> is_error_status r = true ->
         has_time_entry self (project_id cfg) start_time end_time w
         = (Raise (HTTPError (error_message r)),
            sent (time_entries_query self (project_id cfg) start_time end_time) w))
  /\ (forall w1 e w2,
         has_time_entry self (project_id cfg) start_time end_time w = (Ok false, w1) ->
         resolve_description cfg day w1 = (Raise e, w2) ->
         process_days self cfg (day :: rest) a k w = (Raise e, w2))
  /\ (forall w1 description w2 e,
         has_time_entry self (project_id cfg) start_time end_time w = (Ok false, w1) ->
         resolve_description cfg day w1 = (Ok description, w2) ->
         task_id_argument cfg = Raise e ->
         process_days self cfg (day :: rest) a k w = (Raise e, w2)).
Proof.
  intros Hwin. split; [| split; [| split]].
  - intros e w' Hcheck.
    assert (Hloop : process_days self cfg (day :: rest) a k w = (Raise e, w')).
    { rewrite process_days_cons, (process_day_run _ _ _ _ _ _ _ _ Hwin).
      rewrite has_time_entry_run in Hcheck. injection Hcheck as Hq Hw.
      cbv zeta. rewrite Hq, Hw. reflexivity. }
    split; [exact Hloop |]. intros B after. unfold bind. rewrite Hloop.
    reflexivity.
  - intros r Hout Hstatus. rewrite has_time_entry_run.
    unfold query_answer. rewrite Hout, Hstatus. reflexivity.
  - intros w1 e w2 Hcheck Hdesc.
    rewrite process_days_cons, (process_day_run _ _ _ _ _ _ _ _ Hwin).
    rewrite has_time_entry_run in Hcheck. injection Hcheck as Hq Hw.
    cbv zeta. rewrite Hq, Hw, Hdesc. reflexivity.
  - intros w1 description w2 e Hcheck Hdesc Htid.
    rewrite process_days_cons, (process_day_run _ _ _ _ _ _ _ _ Hwin).
    rewrite has_time_entry_run in Hcheck. injection Hcheck as Hq Hw.
    cbv zeta. rewrite Hq, Hw, Hdesc, Htid.
    apply task_id_argument_not_HTTPError in Htid.
    unfold creation_failed. destruct e; try reflexivity. discriminate.
Qed.

Lemma failed_check_aborts_the_loop_witness :
  process_days sample_api (sample_cfg 1) [monday; tuesday] 0 0 world_check_fails
  = (Raise (HTTPError (error_message server_error)),
     sent (time_entries_query sample_api (JStr "p1") monday_0900 monday_1630)
       world_check_fails).
Proof.
  destruct (failed_check_aborts_the_loop sample_api (sample_cfg 1) monday
              [tuesday] monday_0900 monday_1630 0 0 world_check_fails)
    as (Hraise & Hstatus & _); [split; reflexivity |].
  apply Hraise. apply (Hstatus server_error); reflexivity.
Defined.

(** What reading the description adds to the log: nothing, or one prompt. *)
Lemma resolve_description_log cfg day w res w' :
  resolve_description cfg day w = (res, w') ->
  exists new, log w' = (log w ++ new)%list /\ failed_creations new = 0
              /\ service w' = service w.
Proof.
  unfold resolve_description, input, ret.
  destruct (description_mode cfg =? 3).
  - destruct (stdin w); intros [= <- <-]; eexists; cbn; eauto.
  - intros [= <- <-]. exists []. rewrite app_nil_r. auto.
Qed.

(** One iteration that completes counts its day exactly once: as added,
    as skipped, or as a failed creation. *)
Lemma process_day_tally self cfg day a k w a' k' w' :
  process_day self cfg day a k w = (Ok (a', k'), w') ->
  exists new,
    log w' = (log w ++ new)%list
    /\ ((a' = a + 1 /\ k' = k /\ failed_creations new = 0)
        \/ (a' = a /\ k' = k + 1 /\ failed_creations new = 0)
        \/ (a' = a /\ k' = k /\ failed_creations new = 1)).
Proof.
  destruct (window_exists day) as (s & e & Hwin & _).
  rewrite (process_day_run _ _ _ _ _ _ _ _ Hwin). cbv zeta.
  destruct (query_answer (next_outcome w)) as [[|] | ex]; [| | discriminate].
  - intros [= <- <- <-]. eexists. split.
    + cbn [log log_event sent]. rewrite <- app_assoc. reflexivity.
    + right; left. repeat split.
      cbn. destruct (next_outcome w); reflexivity.
  - destruct (resolve_description cfg day _) as [[description | ex] w2] eqn:Hd;
      [| discriminate].
    apply resolve_description_log in Hd.
    destruct Hd as (newd & Hlog & Hfd & _). cbn [log sent] in Hlog.
    destruct (task_id_argument cfg) as [tid | ex] eqn:Htid.
    + destruct (creation_answer (next_outcome w2)) as [j | ex] eqn:Hc.
      * intros [= <- <- <-]. apply creation_answer_Ok in Hc.
        destruct Hc as (r & Hr & Hst).
        eexists. split.
        -- cbn [log log_event sent]. rewrite Hlog, <- !app_assoc. reflexivity.
        -- left. repeat split. rewrite !failed_creations_app, Hfd, Hr.
           unfold failed_creations. cbn. rewrite Hst.
           destruct (next_outcome w); reflexivity.
      * unfold creation_failed. destruct ex; try discriminate.
        intros [= <- <- <-]. apply creation_answer_HTTPError in Hc.
        destruct Hc as (r & Hr & Hst).
        eexists. split.
        -- cbn [log log_event sent]. rewrite Hlog, <- !app_assoc. reflexivity.
        -- right; right. repeat split. rewrite !failed_creations_app, Hfd, Hr.
           unfold failed_creations. cbn. rewrite Hst.
           destruct (next_outcome w); reflexivity.
    + apply task_id_argument_not_HTTPError in Htid.
      unfold creation_failed. destruct ex; try discriminate.
Qed.

(** So does a loop that completes, for all its days. *)
Lemma process_days_tally self cfg days :
  forall a k w a' k' w',
    process_days self cfg days a k w = (Ok (a', k'), w') ->
    exists new,
      log w' = (log w ++ new)%list
      /\ (a' - a) + (k' - k) + failed_creations new = Z.of_nat (List.length days)
      /\ a <= a' /\ k <= k'.
Proof.
  induction days as [| day rest IH]; intros a k w a' k' w'.
  - cbn. intros [= <- <- <-]. exists []. rewrite app_nil_r.
    cbn. repeat split; lia.
  - rewrite process_days_cons.
    destruct (process_day self cfg day a k w) as [[[a1 k1] | ex] w1] eqn:Hday;
      [| discriminate].
    cbn [fst snd]. intros Hrest.
    apply process_day_tally in Hday. destruct Hday as (new1 & Hlog1 & Hcount1).
    apply IH in Hrest. destruct Hrest as (new2 & Hlog2 & Hcount2 & Ha & Hk).
    exists (new1 ++ new2)%list. split.
    + rewrite Hlog2, Hlog1, app_assoc. reflexivity.
    + rewrite failed_creations_app. cbn [List.length].
      rewrite Nat2Z.inj_succ. lia.
Qed.

(** C2. An [HTTPError] raised while the entry of a day is created is
    caught in the loop: the failure is reported, neither counter changes,
    and the loop goes on with the next day. When the loop completes, every
    day was counted once as added, as skipped or as a failed creation, so
    added plus skipped is the number of days exactly when no creation
    failed. *)
Theorem creation_failure_is_counted_in_neither_tally
    (self : api) (cfg : settings) :
  (forall day rest start_time end_time a k w w1 description w2 task_id msg w3,
      window day start_time end_time ->
      has_time_entry self (project_id cfg) start_time end_time w = (Ok false, w1) ->
      resolve_description cfg day w1 = (Ok description, w2) ->
      task_id_argument cfg = Ok task_id ->
      add_time_entry self (project_id cfg) start_time end_time description
        task_id (billable cfg) w2 = (Raise (HTTPError msg), w3) ->
      process_days self cfg (day :: rest) a k w
      = process_days self cfg rest a k
          (log_event (EPrint ("Failed to add time entry for " ++ date_str day
                              ++ ": " ++ msg)) w3))
  /\ (forall days w added skipped w',
         process_days self cfg days 0 0 w = (Ok (added, skipped), w') ->
         exists new,
           log w' = (log w ++ new)%list
           /\ added + skipped + failed_creations new = Z.of_nat (List.length days)
           /\ (added + skipped = Z.of_nat (List.length days)
               <-> failed_creations new = 0)).
Proof.
  split.
  - intros day rest start_time end_time a k w w1 description w2 task_id msg w3
      Hwin Hcheck Hdesc Htid Hadd.
    rewrite process_days_cons, (process_day_run _ _ _ _ _ _ _ _ Hwin).
    rewrite has_time_entry_run in Hcheck. injection Hcheck as Hq Hw.
    rewrite add_time_entry_run in Hadd. injection Hadd as Hc Hw3.
    cbv zeta. rewrite Hq, Hw, Hdesc, Htid, Hc. unfold creation_failed.
    unfold creation_request in *. rewrite Hw3. reflexivity.
  - intros days w added skipped w' Hrun.
    apply process_days_tally in Hrun.
    destruct Hrun as (new & Hlog & Hcount & _ & _).
    exists new. split; [exact Hlog |]. split; lia.
Qed.

Lemma creation_failure_is_counted_in_neither_tally_witness :
  process_days sample_api (sample_cfg 1) [monday; tuesday] 0 0
    world_creation_fails
  = process_days sample_api (sample_cfg 1) [tuesday] 0 0
      (log_event
         (EPrint ("Failed to add time entry for 2024-07-01: "
                  ++ "403 Client Error: Forbidden for url: https://api.clockify.me/"))
         (sent (creation_request sample_api (JStr "p1") monday_0900 monday_1630
                  "Standard workday" JNull false)
            (sent (time_entries_query sample_api (JStr "p1") monday_0900
                     monday_1630) world_creation_fails)))
  /\ exists new,
       log (snd (process_days sample_api (sample_cfg 1) [monday] 0 0
                   world_creation_fails))
       = (log world_creation_fails ++ new)%list
       /\ 0 + 0 + failed_creations new = 1
       /\ (0 + 0 = 1 <-> failed_creations new = 0).
Proof.
  destruct (creation_failure_is_counted_in_neither_tally sample_api (sample_cfg 1))
    as [Hcaught Htally].
  split.
  - apply (Hcaught monday [tuesday] monday_0900 monday_1630 0 0
             world_creation_fails
             (sent (time_entries_query sample_api (JStr "p1") monday_0900
                      monday_1630) world_creation_fails)
             "Standard workday"
             (sent (time_entries_query sample_api (JStr "p1") monday_0900
                      monday_1630) world_creation_fails)
             JNull
             "403 Client Error: Forbidden for url: https://api.clockify.me/");
      [split; reflexivity | reflexivity | reflexivity | reflexivity | reflexivity].
  - apply (Htally [monday] world_creation_fails 0 0). reflexivity.
Defined.

Lemma prompts_guarded_weaken self cfg days prev l :
  prompts_guarded self cfg days None l -> prompts_guarded self cfg days prev l.
Proof.
  destruct l as [| e l]; [trivial |]. cbn. intros [He Hl]. split; [| exact Hl].
  destruct e; trivial. destruct He as (? & ? & ? & ? & H & _). discriminate.
Qed.

Lemma prompts_guarded_more_days self cfg day days l :
  forall prev,
    prompts_guarded self cfg days prev l ->
    prompts_guarded self cfg (day :: days) prev l.
Proof.
  induction l as [| e l IH]; intros prev; [trivial |].
  cbn [prompts_guarded]. intros [He Hl]. split; [| apply IH, Hl].
  destruct e; trivial.
  destruct He as (d & s & en & out & H1 & H2 & H3).
  exists d, s, en, out. split; [exact H1 |]. split; [right; exact H2 | exact H3].
Qed.

(** The events of one iteration, in front of guarded events, are guarded. *)
Lemma process_day_guarded self cfg day rest a k w :
  exists new,
    log (snd (process_day self cfg day a k w)) = (log w ++ new)%list
    /\ forall tail,
         prompts_guarded self cfg (day :: rest) None tail ->
         prompts_guarded self cfg (day :: rest) None (new ++ tail).
Proof.
  destruct (window_exists day) as (s & e & Hwin & _).
  rewrite (process_day_run _ _ _ _ _ _ _ _ Hwin). cbv zeta.
  destruct (query_answer (next_outcome w)) as [[|] | ex] eqn:Hq.
  - eexists. split.
    + cbn [snd log log_event sent]. rewrite <- ?app_assoc. reflexivity.
    + intros tail Ht. cbn. repeat split. apply prompts_guarded_weaken, Ht.
  - assert (Hprompt : forall p,
               description_mode cfg = 3 -> p = description_prompt day ->
               follows_empty_check self cfg (day :: rest)
                 (Some (ERequest (time_entries_query self (project_id cfg) s e)
                          (next_outcome w))) p).
    { intros p Hmode Hp. exists day, s, e, (next_outcome w).
      repeat split; try assumption; try reflexivity; try apply Hwin.
      left; reflexivity. }
    unfold resolve_description, input, ret.
    destruct (description_mode cfg =? 3) eqn:Hmode;
      [apply Z.eqb_eq in Hmode; cbn [sent stdin];
       destruct (stdin w) as [| line lines] |].
    + eexists. split.
      * cbn [snd log log_event sent]. rewrite <- ?app_assoc. reflexivity.
      * intros tail Ht. cbn. repeat split.
        -- apply Hprompt; [exact Hmode | reflexivity].
        -- apply prompts_guarded_weaken, Ht.
    + destruct (task_id_argument cfg) as [tid | ex].
      * match goal with
        | |- context [creation_answer ?o] =>
            destruct (creation_answer o) as [j | ex]
        end;
          [| unfold creation_failed; destruct ex];
          (eexists; split;
           [ cbn [snd log log_event sent]; rewrite <- ?app_assoc; reflexivity
           | intros tail Ht; cbn; repeat split;
             try (apply Hprompt; [exact Hmode | reflexivity]);
             apply prompts_guarded_weaken, Ht ]).
      * unfold creation_failed; destruct ex;
          (eexists; split;
           [ cbn [snd log log_event sent]; rewrite <- ?app_assoc; reflexivity
           | intros tail Ht; cbn; repeat split;
             try (apply Hprompt; [exact Hmode | reflexivity]);
             apply prompts_guarded_weaken, Ht ]).
    + destruct (task_id_argument cfg) as [tid | ex].
      * match goal with
        | |- context [creation_answer ?o] =>
            destruct (creation_answer o) as [j | ex]
        end;
          [| unfold creation_failed; destruct ex];
          (eexists; split;
           [ cbn [snd log log_event sent]; rewrite <- ?app_assoc; reflexivity
           | intros tail Ht; cbn; repeat split;
             apply prompts_guarded_weaken, Ht ]).
      * unfold creation_failed; destruct ex;
          (eexists; split;
           [ cbn [snd log log_event sent]; rewrite <- ?app_assoc; reflexivity
           | intros tail Ht; cbn; repeat split;
             apply prompts_guarded_weaken, Ht ]).
  - eexists. split.
    + cbn [snd log sent]. reflexivity.
    + intros tail Ht. cbn. repeat split. apply prompts_guarded_weaken, Ht.
Qed.

Lemma process_days_guarded self cfg days :
  forall a k w,
    exists new,
      log (snd (process_days self cfg days a k w)) = (log w ++ new)%list
      /\ prompts_guarded self cfg days None new.
Proof.
  induction days as [| day rest IH]; intros a k w.
  - exists []. cbn. rewrite app_nil_r. auto.
  - rewrite process_days_cons.
    destruct (process_day_guarded self cfg day rest a k w)
      as (new1 & Hlog1 & Hguard1).
    destruct (process_day self cfg day a k w) as [[counts | ex] w1].
    + destruct (IH (fst counts) (snd counts) w1) as (new2 & Hlog2 & Hguard2).
      exists (new1 ++ new2)%list. split.
      * cbn [snd] in Hlog1. rewrite Hlog2, Hlog1, app_assoc. reflexivity.
      * apply Hguard1, prompts_guarded_more_days, Hguard2.
    + exists new1. split; [exact Hlog1 |].
      rewrite <- (app_nil_r new1). apply Hguard1. exact I.
Qed.

(** C10. A day whose existence check returns [True] is skipped without a
    prompt: the iteration only reports the skip, counts it, and leaves the
    input as it was. In the log of the whole loop, every prompt comes right
    after the existence check of the day it asks about, and that check
    returned [False]; prompts occur in description mode 3 only. *)
Theorem description_prompt_only_after_empty_check
    (self : api) (cfg : settings) :
  (forall day start_time end_time a k w w1,
      window day start_time end_time ->
      has_time_entry self (project_id cfg) start_time end_time w = (Ok true, w1) ->
      process_day self cfg day a k w
      = (Ok (a, k + 1),
         log_event (EPrint ("Skipping " ++ date_str day
                            ++ " - Time entry already exists")) w1)
      /\ stdin w1 = stdin w
      /\ log w1 = (log w ++ [ERequest (time_entries_query self (project_id cfg)
                                         start_time end_time)
                               (next_outcome w)])%list)
  /\ (forall days a k w,
         exists new,
           log (snd (process_days self cfg days a k w)) = (log w ++ new)%list
           /\ prompts_guarded self cfg days None new).
Proof.
  split.
  - intros day start_time end_time a k w w1 Hwin Hcheck.
    rewrite (process_day_run _ _ _ _ _ _ _ _ Hwin).
    rewrite has_time_entry_run in Hcheck. injection Hcheck as Hq Hw.
    cbv zeta. rewrite Hq, Hw. subst w1. repeat split.
  - apply process_days_guarded.
Qed.

Lemma description_prompt_only_after_empty_check_witness :
  process_day sample_api (sample_cfg 3) monday 0 0 world_entry_exists
  = (Ok (0, 1),
     log_event (EPrint "Skipping 2024-07-01 - Time entry already exists")
       (sent (time_entries_query sample_api (JStr "p1") monday_0900 monday_1630)
          world_entry_exists))
  /\ stdin (sent (time_entries_query sample_api (JStr "p1") monday_0900 monday_1630)
              world_entry_exists) = ["unread"].
Proof.
  destruct (description_prompt_only_after_empty_check sample_api (sample_cfg 3))
    as [Hskip _].
  destruct (Hskip monday monday_0900 monday_1630 0 0 world_entry_exists
              (sent (time_entries_query sample_api (JStr "p1") monday_0900
                       monday_1630) world_entry_exists))
    as (Hrun & Hin & _); [split; reflexivity | reflexivity |].
  split; [exact Hrun | exact Hin].
Defined.

(* ===================================================================== *)
(** ** The prompts *)
(* ===================================================================== *)

Lemma check_project_number_keeps_stdin projects line w :
  stdin (snd (check_project_number projects line w)) = stdin w.
Proof.
  unfold check_project_number, try_except, bind, lift, ret, print.
  destruct (int line) as [n | e].
  - destruct (len projects) as [count | e].
    + destruct ((0 <=? n - 1) && (n - 1 <? count)); reflexivity.
    + destruct (is_ValueError e); reflexivity.
  - destruct (is_ValueError e); reflexivity.
Qed.

(** The project prompt, as the loop of [main] reads. *)
Lemma select_project_unfold projects w :
  select_project projects w
  = (line <- input (String "010" "Select project number: ") ;;
     r <- check_project_number projects line ;;
     match r with
     | Some project_idx => ret project_idx
     | None => select_project projects
     end) w.
Proof.
  unfold select_project. apply input_loop_unfold.
  apply check_project_number_keeps_stdin.
Qed.

Lemma int_parse line : int line = match parse_int line with
                                  | Some z => Ok z
                                  | None => Raise (ValueError (int_error line))
                                  end.
Proof. reflexivity. Qed.

(** [int()] on a few lines. White space around the digits is skipped, but
    not the separators 28 to 31, which [strip()] does remove; single
    underscores may separate digits; a literal of more than 4300 digits
    is refused. *)
Example int_on_sample_lines :
  int " 2 " = Ok 2
  /\ int "1_0" = Ok 10
  /\ int "-07" = Ok (-7)
  /\ int "1__0" = Raise (ValueError "invalid literal for int() with base 10: '1__0'")
  /\ strip (String "028" "2") = "2"
  /\ int (String "028" "2")
     = Raise (ValueError "invalid literal for int() with base 10: '\x1c2'")
  /\ (exists n, int (ones 4300) = Ok n)
  /\ int (ones 4301)
     = Raise (ValueError
                ("Exceeds the limit (4300 digits) for integer string conversion: "
                 ++ "value has 4301 digits; "
                 ++ "use sys.set_int_max_str_digits() to increase the limit")).
Proof.
  repeat split; try (vm_compute; reflexivity).
  eexists. vm_compute. reflexivity.
Qed.

(** The body of the project prompt on a line that is not the number of a
    project: a message is printed and the loop goes round again. *)
Lemma project_prompt_rejects projects count line w :
  len projects = Ok count -> is_ordinal count line = false ->
  exists msg,
    check_project_number projects line w
    = (Ok None, log_event (EPrint msg) w).
Proof.
  intros Hlen Hbad. unfold is_ordinal in Hbad.
  unfold check_project_number, try_except, bind, lift. rewrite int_parse.
  destruct (parse_int line) as [n |].
  - rewrite Hlen.
    replace ((0 <=? n - 1) && (n - 1 <? count)) with false.
    + eexists. reflexivity.
    + symmetry. rewrite <- Hbad.
      destruct (1 <=? n) eqn:E1, (n <=? count) eqn:E2,
               (0 <=? n - 1) eqn:E3, (n - 1 <? count) eqn:E4;
        try reflexivity; exfalso;
        repeat match goal with
               | H : (_ <=? _) = true |- _ => apply Z.leb_le in H
               | H : (_ <=? _) = false |- _ => apply Z.leb_gt in H
               | H : (_ <? _) = true |- _ => apply Z.ltb_lt in H
               | H : (_ <? _) = false |- _ => apply Z.ltb_ge in H
               end; lia.
  - cbn. eexists. reflexivity.
Qed.

Lemma project_prompt_accepts projects count line n w :
  len projects = Ok count -> parse_int line = Some n -> 1 <= n <= count ->
  check_project_number projects line w
  = (Ok (Some (n - 1)), w).
Proof.
  intros Hlen Hparse Hn. unfold check_project_number, try_except, bind, lift.
  rewrite int_parse, Hparse, Hlen.
  replace ((0 <=? n - 1) && (n - 1 <? count)) with true; [reflexivity |].
  symmetry. apply andb_true_iff. split; [apply Z.leb_le | apply Z.ltb_lt]; lia.
Qed.

(** The project prompt is repeated over the lines that are not the number
    of a project, and ends on the first line that is. *)
Lemma select_project_run projects count n good rest :
  len projects = Ok count -> parse_int good = Some n -> 1 <= n <= count ->
  forall bad w,
    Forall (fun line => is_ordinal count line = false) bad ->
    stdin w = (bad ++ good :: rest)%list ->
    exists w',
      select_project projects w = (Ok (n - 1), w')
      /\ stdin w' = rest /\ service w' = service w
      /\ exists new, log w' = (log w ++ new)%list
                     /\ inputs new = S (List.length bad).
Proof.
  intros Hlen Hparse Hn. unfold select_project, input_loop.
  intros bad w Hbad Hin. rewrite Hin. clear Hin. revert w.
  induction Hbad as [| line bad Hline Hbad IH]; intros w.
  - cbn [app input_loop_from].
    rewrite (project_prompt_accepts _ _ _ _ _ Hlen Hparse Hn).
    eexists. split; [reflexivity |]. cbn. repeat split.
    eexists. split; reflexivity.
  - cbn [app input_loop_from].
    destruct (project_prompt_rejects projects count line
                (mk_world (bad ++ good :: rest) (service w)
                   (log w ++ [EInput (String "010" "Select project number: ")]))
                Hlen Hline) as [msg ->].
    match goal with
    | |- context [input_loop_from _ _ _ ?w0] => destruct (IH w0) as (w' & Hrun & Hstdin & Hsvc & new & Hlog & Hcount)
    end.
    exists w'. split; [exact Hrun |]. split; [exact Hstdin |].
    split; [exact Hsvc |].
    eexists. split.
    + rewrite Hlog. cbn [log log_event]. rewrite <- !app_assoc. reflexivity.
    + rewrite !inputs_app, Hcount. reflexivity.
Qed.

(** The listing of projects or tasks, when every item has a name: lines
    are printed and nothing is read. *)
Lemma print_numbered_run items :
  Forall (fun item => exists name, getitem item "name" = Ok name) items ->
  forall idx w,
    exists new,
      print_numbered items idx w
      = (Ok tt, mk_world (stdin w) (service w) (log w ++ new))
      /\ inputs new = 0%nat.
Proof.
  induction 1 as [| item items [name Hname] _ IH]; intros idx w.
  - exists []. cbn. rewrite app_nil_r. destruct w; auto.
  - cbn [print_numbered]. unfold bind at 1, lift. rewrite Hname.
    unfold bind at 1, print at 1.
    match goal with
    | |- context [print_numbered items ?i ?w0] =>
        destruct (IH i w0) as (new & -> & Hcount)
    end.
    eexists. split.
    + cbn [stdin service log log_event]. rewrite <- app_assoc. reflexivity.
    + rewrite inputs_app, Hcount. reflexivity.
Qed.

(** The task step on a non-blank line that is not the number of a task:
    a message is printed and no task is selected. *)
Lemma check_task_number_rejects tasks count line w :
  len tasks = Ok count -> is_ordinal count line = false ->
  exists msg,
    check_task_number tasks line w = (Ok JNull, log_event (EPrint msg) w).
Proof.
  intros Hlen Hbad. unfold is_ordinal in Hbad.
  unfold check_task_number, try_except, bind, lift. rewrite int_parse.
  destruct (parse_int line) as [n |].
  - rewrite Hlen.
    replace ((0 <=? n - 1) && (n - 1 <? count)) with false.
    + eexists. reflexivity.
    + symmetry. rewrite <- Hbad.
      destruct (1 <=? n) eqn:E1, (n <=? count) eqn:E2,
               (0 <=? n - 1) eqn:E3, (n - 1 <? count) eqn:E4;
        try reflexivity; exfalso;
        repeat match goal with
               | H : (_ <=? _) = true |- _ => apply Z.leb_le in H
               | H : (_ <=? _) = false |- _ => apply Z.leb_gt in H
               | H : (_ <? _) = true |- _ => apply Z.ltb_lt in H
               | H : (_ <? _) = false |- _ => apply Z.ltb_ge in H
               end; lia.
  - cbn. eexists. reflexivity.
Qed.

(** C8. At the project prompt, every line that is not the number of a
    listed project (not a number, or out of range) is answered by asking
    again, until a line is such a number: [input] is called once more than
    there were rejected lines, and the accepted number selects the project.
    At the task step, a non-blank line that is not the number of a listed
    task is read once and no task is selected: [input] is called exactly
    once. *)
Theorem invalid_input_reprompts_for_project_not_for_task :
  (forall projects count bad good n rest w,
      len projects = Ok count ->
      Forall (fun line => is_ordinal count line = false) bad ->
      parse_int good = Some n -> 1 <= n <= count ->
      stdin w = (bad ++ good :: rest)%list ->
      exists w' new,
        select_project projects w = (Ok (n - 1), w')
        /\ stdin w' = rest
        /\ log w' = (log w ++ new)%list
        /\ inputs new = S (List.length bad))
  /\ (forall tasks items count line rest w,
         truthy tasks = true ->
         iter tasks = Ok items ->
         Forall (fun item => exists name, getitem item "name" = Ok name) items ->
         len tasks = Ok count ->
         strip line <> "" ->
         is_ordinal count line = false ->
         stdin w = line :: rest ->
         exists w' new,
           select_task tasks w = (Ok JNull, w')
           /\ stdin w' = rest
           /\ log w' = (log w ++ new)%list
           /\ inputs new = 1%nat).
Proof.
  split.
  - intros projects count bad good n rest w Hlen Hbad Hparse Hn Hin.
    destruct (select_project_run projects count n good rest Hlen Hparse Hn
                bad w Hbad Hin) as (w' & Hrun & Hstdin & _ & new & Hlog & Hcount).
    exists w', new. auto.
  - intros tasks items count line rest w Htruthy Hiter Hnames Hlen Hblank
      Hbad Hin.
    unfold select_task. rewrite Htruthy.
    unfold bind at 1, print at 1. unfold bind at 1, lift at 1. rewrite Hiter.
    unfold bind at 1.
    match goal with
    | |- context [print_numbered items 0 ?w0] =>
        destruct (print_numbered_run items Hnames 0 w0) as (new1 & -> & Hc1)
    end.
    unfold bind at 1, print at 1. unfold bind at 1, input at 1.
    cbn [stdin service log log_event]. rewrite Hin.
    apply String.eqb_neq in Hblank. rewrite Hblank. cbn [negb].
    match goal with
    | |- context [check_task_number tasks line ?w0] =>
        destruct (check_task_number_rejects tasks count line w0 Hlen Hbad)
          as [msg ->]
    end.
    eexists. eexists. split; [reflexivity |]. cbn [stdin log log_event].
    split; [reflexivity |]. split.
    + rewrite <- !app_assoc. reflexivity.
    + rewrite !inputs_app, Hc1. reflexivity.
Qed.

Lemma invalid_input_reprompts_for_project_not_for_task_witness :
  (exists w' new,
      select_project (JList [JNull; JNull]) (mk_world ["x"; "7"; "2"; "y"] [] [])
      = (Ok 1, w')
      /\ stdin w' = ["y"]
      /\ log w' = ([] ++ new)%list /\ inputs new = 3%nat)
  /\ (exists w' new,
         select_task (JList [JDict [("name", JStr "Task")]])
           (mk_world ["7"; "2"] [] [])
         = (Ok JNull, w')
         /\ stdin w' = ["2"]
         /\ log w' = ([] ++ new)%list /\ inputs new = 1%nat).
Proof.
  destruct invalid_input_reprompts_for_project_not_for_task as [Hp Ht].
  split.
  - apply (Hp (JList [JNull; JNull]) 2 ["x"; "7"] "2" 2 ["y"]
              (mk_world ["x"; "7"; "2"; "y"] [] []));
      [reflexivity | repeat constructor | reflexivity | lia | reflexivity].
  - apply (Ht (JList [JDict [("name", JStr "Task")]])
              [JDict [("name", JStr "Task")]] 1 "7" ["2"]
              (mk_world ["7"; "2"] [] []));
      [reflexivity | reflexivity
      | repeat constructor; exists (JStr "Task"); reflexivity
      | reflexivity | discriminate | reflexivity | reflexivity].
Defined.

(* ===================================================================== *)
(** ** A whole run *)
(* ===================================================================== *)

Ltac emits_steps :=
  repeat first
    [ apply emits_ret | apply emits_raise | apply emits_lift
    | apply emits_raise_for_status | apply emits_response_json
    | apply emits_print; exact I
    | apply emits_input; exact I
    | apply emits_send; intros; exact I
    | apply emits_bind; [| intros]
    | apply emits_try; [| intros] ].

Section Allowed.
Context (now : datetime).

Lemma emits_init env_key : emits (allowed now) (__init__ env_key).
Proof.
  unfold __init__. destruct env_key as [[| c key] |]; try apply emits_raise.
  unfold _get_workspace_id, _get_user_id, requests_get. emits_steps.
Qed.

Lemma emits_get_projects self : emits (allowed now) (get_projects self).
Proof. unfold get_projects, requests_get. emits_steps. Qed.

Lemma emits_get_tasks self pid : emits (allowed now) (get_tasks self pid).
Proof. unfold get_tasks, requests_get. emits_steps. Qed.

Lemma emits_print_numbered items :
  forall idx, emits (allowed now) (print_numbered items idx).
Proof.
  induction items as [| item items IH]; intros idx; cbn [print_numbered].
  - apply emits_ret.
  - emits_steps. apply IH.
Qed.

Lemma emits_select_project projects :
  emits (allowed now) (select_project projects).
Proof.
  unfold select_project. apply emits_input_loop; [exact I |].
  intros line. unfold check_project_number. emits_steps.
  - match goal with |- context [if ?c then _ else _] => destruct c end;
      emits_steps.
  - match goal with
    | H : (if ?c then _ else _) = Some _ |- _ =>
        destruct c; [injection H as <- | discriminate]
    end.
    emits_steps.
Qed.

Lemma emits_select_task tasks : emits (allowed now) (select_task tasks).
Proof.
  unfold select_task. destruct (truthy tasks); emits_steps.
  - apply emits_print_numbered.
  - match goal with |- context [if ?c then _ else _] => destruct c end;
      [| apply emits_ret].
    unfold check_task_number. emits_steps.
    + match goal with |- context [if ?c then _ else _] => destruct c end;
        emits_steps.
    + match goal with
      | H : (if ?c then _ else _) = Some _ |- _ =>
          destruct c; [injection H as <- | discriminate]
      end.
      emits_steps.
Qed.

Lemma emits_get_description_mode : emits (allowed now) get_description_mode.
Proof.
  unfold get_description_mode. emits_steps.
  apply emits_input_loop; [exact I |]. intros line. emits_steps.
  - match goal with |- context [if ?c then _ else _] => destruct c end;
      emits_steps.
  - match goal with
    | H : (if ?c then _ else _) = Some _ |- _ =>
        destruct c; [injection H as <- | discriminate]
    end.
    emits_steps.
  - match goal with |- context [match ?c with _ => _ end] => destruct c end;
      emits_steps.
Qed.

Lemma emits_get_billable_preference :
  emits (allowed now) get_billable_preference.
Proof.
  unfold get_billable_preference. apply emits_input_loop; [exact I |].
  intros line. cbv zeta.
  repeat match goal with
         | |- context [if ?c then _ else _] => destruct c
         end; emits_steps.
Qed.

Lemma emits_process_day self cfg day a k :
  day_of_run now day -> emits (allowed now) (process_day self cfg day a k).
Proof.
  intros Hday. unfold process_day.
  apply emits_bind_lift. intros start_time Hs.
  apply emits_bind_lift. intros end_time He.
  apply emits_bind.
  { unfold has_time_entry. emits_steps. }
  intros [|]; [emits_steps |].
  apply emits_bind.
  { unfold resolve_description.
    destruct (description_mode cfg =? 3); emits_steps. }
  intros description. apply emits_try.
  - apply emits_bind_lift. intros task_id _.
    apply emits_bind; [| intros; emits_steps].
    unfold add_time_entry, requests_post. apply emits_bind; [| intros; emits_steps].
    apply emits_send. intros out. cbn.
    apply replace_time_at_time in Hs, He.
    exists day, start_time, end_time, (project_id cfg), description, task_id,
      (billable cfg).
    split; [exact Hday |]. split; [exact Hs |]. split; [exact He |].
    split; [reflexivity |].
    unfold entry_payload.
    rewrite (at_time_isoformat _ _ _ _ Hs), (at_time_isoformat _ _ _ _ He).
    destruct (truthy task_id); split; reflexivity.
  - intros e handler Hh. destruct e; try discriminate.
    injection Hh as <-. emits_steps.
Qed.

Lemma emits_process_days self cfg days :
  Forall (day_of_run now) days ->
  forall a k, emits (allowed now) (process_days self cfg days a k).
Proof.
  induction 1 as [| day rest Hday _ IH]; intros a k; cbn [process_days].
  - apply emits_ret.
  - apply emits_bind; [apply emits_process_day, Hday |].
    intros counts. apply IH.
Qed.

Lemma emits_main env_key : emits (allowed now) (main env_key now).
Proof.
  unfold main.
  apply emits_bind; [apply emits_init | intros self].
  apply emits_bind; [apply emits_get_projects | intros projects].
  apply emits_bind; [emits_steps | intros _].
  apply emits_bind; [emits_steps | intros items].
  apply emits_bind; [apply emits_print_numbered | intros _].
  apply emits_bind; [apply emits_select_project | intros project_idx].
  apply emits_bind; [emits_steps | intros selected_project].
  apply emits_bind; [emits_steps | intros pid].
  apply emits_bind; [apply emits_get_tasks | intros tasks].
  apply emits_bind; [apply emits_select_task | intros task].
  apply emits_bind; [apply emits_get_description_mode | intros mode].
  apply emits_bind; [apply emits_get_billable_preference | intros bill].
  apply emits_bind; [destruct (mode =? 2); emits_steps | intros description].
  cbv zeta. apply emits_bind_lift. intros working_days Hdays.
  apply current_month_working_days_in_month in Hdays.
  apply emits_bind; [apply emits_process_days, Hdays | intros counts].
  emits_steps.
Qed.

End Allowed.

(** C6. Whatever the environment, the input and the answers of the
    service, every [POST] request a run of [main] sends carries the payload
    of a time entry for a day that is a weekday (Monday to Friday) of the
    month of [now], from the first of the month to the day of [now], with
    start at 09:00:00 and end at 16:30:00 on that day, seconds and
    microseconds zero. *)
Theorem entries_only_for_working_days_of_the_month
    (env_key : option string) (now : datetime) (w : world) :
  exists new,
    log (snd (main env_key now w)) = (log w ++ new)%list
    /\ forall req out,
         In (ERequest req out) new -> req_method req = POST ->
         creates_entry_within now req.
Proof.
  destruct (emits_main now env_key w) as (new & Hlog & Hall).
  exists new. split; [exact Hlog |].
  intros req out Hin Hpost. rewrite Forall_forall in Hall.
  specialize (Hall _ Hin). cbn in Hall. rewrite Hpost in Hall. exact Hall.
Qed.

(** The scenario of the specification: today is Wednesday the 3rd, the 1st
    was a Monday. Three entries are created, for the 1st, 2nd and 3rd, with
    the standard description, not billable and without a task. *)
Example three_days_scenario :
  let '(r, w) := main (Some "key") wednesday_noon world_scenario in
  r = Ok tt
  /\ posted (log w)
     = [standard_entry "2024-07-01T09:00:00Z" "2024-07-01T16:30:00Z";
        standard_entry "2024-07-02T09:00:00Z" "2024-07-02T16:30:00Z";
        standard_entry "2024-07-03T09:00:00Z" "2024-07-03T16:30:00Z"]
  /\ last (log w) (EPrint "")
     = EPrint (String "010" "Summary: Added 3 entries, Skipped 0 existing entries").
Proof. vm_compute. repeat split. Qed.

(* ===================================================================== *)
(** ** Further properties *)
(* ===================================================================== *)

(** *** Inversion of [bind] *)

Lemma bind_Ok {A B} (m : M A) (k : A -> M B) w b w' :
  bind m k w = (Ok b, w') ->
  exists a w1, m w = (Ok a, w1) /\ k a w1 = (Ok b, w').
Proof.
  unfold bind. destruct (m w) as [[a | e] w1]; [eauto | discriminate].
Qed.

Lemma bind_run {A B} (m : M A) (k : A -> M B) w a w1 :
  m w = (Ok a, w1) -> bind m k w = k a w1.
Proof. unfold bind. intros ->. reflexivity. Qed.

Lemma bind_raise {A B} (m : M A) (k : A -> M B) w e w1 :
  m w = (Raise e, w1) -> bind m k w = (Raise e, w1).
Proof. unfold bind. intros ->. reflexivity. Qed.

(** X1. Without an API key in the environment (the variable unset or
    empty), [main] raises [ValueError] at once: no request is sent, nothing
    is printed and nothing is read. *)
Theorem main_without_api_key (now : datetime) (w : world) :
  main None now w
  = (Raise (ValueError "CLOCKIFY_API_KEY not found in environment variables"), w)
  /\ main (Some "") now w
     = (Raise (ValueError "CLOCKIFY_API_KEY not found in environment variables"), w).
Proof. split; reflexivity. Qed.

(** X2. With a key, [__init__] asks for the workspaces and then for the
    user, both times with the key in the [X-Api-Key] header, and keeps the
    id of the first workspace, whatever other workspaces are listed. When
    the list of workspaces is empty it raises [IndexError] and the user is
    not asked for. *)
Theorem init_takes_the_first_workspace (key : string) (w : world) :
  key <> "" ->
  (forall r1 r2 rest first others wid user uid,
      service w = Responded r1 :: Responded r2 :: rest ->
      is_error_status r1 = false -> body r1 = Some (JList (first :: others)) ->
      getitem first "id" = Ok wid ->
      is_error_status r2 = false -> body r2 = Some user ->
      getitem user "id" = Ok uid ->
      __init__ (Some key) w
      = (Ok (mk_api key [("X-Api-Key", key); ("Content-Type", "application/json")]
               wid uid),
         mk_world (stdin w) rest
           (log w ++ [ERequest (workspaces_request key) (Responded r1);
                      ERequest (user_request key) (Responded r2)])))
  /\ (forall r1,
         next_outcome w = Responded r1 ->
         is_error_status r1 = false -> body r1 = Some (JList []) ->
         __init__ (Some key) w
         = (Raise (IndexError "list index out of range"),
            sent (workspaces_request key) w)).
Proof.
  intros Hkey.
  assert (Hinit : forall w0,
             __init__ (Some key) w0
             = (wid <- _get_workspace_id (make_headers key) ;;
                uid <- _get_user_id (make_headers key) ;;
                ret (mk_api key (make_headers key) wid uid)) w0).
  { intros w0. destruct key; [congruence | reflexivity]. }
  split.
  - intros r1 r2 rest first others wid user uid Hsvc H1 B1 Hwid H2 B2 Huid.
    rewrite Hinit. destruct w as [lines svc events]. cbn in Hsvc. subst svc.
    assert (Hws : _get_workspace_id (make_headers key)
                    (mk_world lines (Responded r1 :: Responded r2 :: rest) events)
                  = (Ok wid,
                     mk_world lines (Responded r2 :: rest)
                       (events ++ [ERequest (workspaces_request key)
                                     (Responded r1)]))).
    { unfold _get_workspace_id, requests_get, bind, send, raise_for_status,
        response_json, lift. cbn [next_outcome service]. rewrite H1. unfold ret.
      rewrite B1. cbn [getindex nth_error Z.to_nat]. rewrite Hwid. reflexivity. }
    rewrite (bind_run _ _ _ _ _ Hws).
    assert (Hu : _get_user_id (make_headers key)
                   (mk_world lines (Responded r2 :: rest)
                      (events ++ [ERequest (workspaces_request key)
                                    (Responded r1)]))
                 = (Ok uid,
                    mk_world lines rest
                      ((events ++ [ERequest (workspaces_request key)
                                     (Responded r1)])
                       ++ [ERequest (user_request key) (Responded r2)]))).
    { unfold _get_user_id, requests_get, bind, send, raise_for_status,
        response_json, lift. cbn [next_outcome service]. rewrite H2. unfold ret.
      rewrite B2, Huid. reflexivity. }
    rewrite (bind_run _ _ _ _ _ Hu). unfold ret. cbn [stdin log].
    rewrite <- app_assoc. reflexivity.
  - intros r1 Hout H1 B1. rewrite Hinit.
    unfold _get_workspace_id, requests_get, bind, send,
      raise_for_status, response_json, lift, ret.
    rewrite Hout, H1, B1. reflexivity.
Qed.

Lemma init_takes_the_first_workspace_witness :
  __init__ (Some "key")
    (mk_world ["1"]
       [answer 200 "OK" (Some (JList [JDict [("id", JStr "ws1")];
                                     JDict [("id", JStr "ws2")]]));
        answer 200 "OK" (Some (JDict [("id", JStr "u1")]))] [])
  = (Ok sample_api,
     mk_world ["1"] []
       [ERequest (workspaces_request "key")
          (answer 200 "OK" (Some (JList [JDict [("id", JStr "ws1")];
                                        JDict [("id", JStr "ws2")]])));
        ERequest (user_request "key")
          (answer 200 "OK" (Some (JDict [("id", JStr "u1")])))]).
Proof.
  destruct (init_takes_the_first_workspace "key"
              (mk_world ["1"]
                 [answer 200 "OK" (Some (JList [JDict [("id", JStr "ws1")];
                                               JDict [("id", JStr "ws2")]]));
                  answer 200 "OK" (Some (JDict [("id", JStr "u1")]))] []))
    as [Hok _]; [discriminate |].
  apply (Hok _ _ [] (JDict [("id", JStr "ws1")]) [JDict [("id", JStr "ws2")]]
           (JStr "ws1") (JDict [("id", JStr "u1")]) (JStr "u1"));
    reflexivity.
Defined.

(** X3. When the list of projects cannot be fetched (a 4xx or 5xx answer),
    [main] stops with the [HTTPError] right after that request: nothing
    has been printed or read. *)
Theorem failed_project_listing_is_fatal
    (env_key : option string) (now : datetime) (w : world)
    (self : api) (w1 : world) (r : response) :
  __init__ env_key w = (Ok self, w1) ->
  next_outcome w1 = Responded r ->
  is_error_status r = true ->
  main env_key now w
  = (Raise (HTTPError (error_message r)),
     sent (mk_request GET
             (BASE_URL ++ "/workspaces/" ++ str (workspace_id self) ++ "/projects")
             (headers self) [] None) w1)
  /\ stdin (sent (mk_request GET
                    (BASE_URL ++ "/workspaces/" ++ str (workspace_id self)
                     ++ "/projects") (headers self) [] None) w1)
     = stdin w1.
Proof.
  intros Hinit Hout Hstatus. split; [| reflexivity].
  unfold main. rewrite (bind_run _ _ _ _ _ Hinit).
  apply bind_raise. unfold get_projects, requests_get.
  unfold bind, send, raise_for_status. rewrite Hout, Hstatus. reflexivity.
Qed.

Lemma failed_project_listing_is_fatal_witness :
  main (Some "key") wednesday_noon world_listing_fails
  = (Raise (HTTPError (error_message server_error)),
     sent (mk_request GET
             (BASE_URL ++ "/workspaces/" ++ str (workspace_id sample_api)
              ++ "/projects") (headers sample_api) [] None)
       (snd (__init__ (Some "key") world_listing_fails)))
  /\ stdin (sent (mk_request GET
                    (BASE_URL ++ "/workspaces/" ++ str (workspace_id sample_api)
                     ++ "/projects") (headers sample_api) [] None)
              (snd (__init__ (Some "key") world_listing_fails)))
     = stdin (snd (__init__ (Some "key") world_listing_fails)).
Proof.
  apply (failed_project_listing_is_fatal (Some "key") wednesday_noon
           world_listing_fails sample_api
           (snd (__init__ (Some "key") world_listing_fails)) server_error);
    reflexivity.
Defined.

(** *** The prompt loops *)

(** A loop whose body only prints: it runs over the lines the body
    rejects and ends on the first line it accepts. *)
Lemma input_loop_run {A} (prompt : string) (body : string -> M (option A))
    (accept : string -> option A) :
  (forall line w0,
      exists new,
        body line w0
        = (Ok (accept line), mk_world (stdin w0) (service w0) (log w0 ++ new))
        /\ inputs new = 0%nat) ->
  forall bad good a rest w,
    Forall (fun line => accept line = None) bad ->
    accept good = Some a ->
    stdin w = (bad ++ good :: rest)%list ->
    exists new,
      input_loop prompt body w
      = (Ok a, mk_world rest (service w) (log w ++ new))
      /\ inputs new = S (List.length bad).
Proof.
  intros Hbody bad good a rest w Hbad Hgood Hin.
  unfold input_loop. rewrite Hin. clear Hin. revert w.
  induction Hbad as [| line bad Hline Hbad IH]; intros w;
    cbn [app input_loop_from].
  - match goal with
    | |- context [body good ?w0] => destruct (Hbody good w0) as (new & -> & Hc)
    end.
    rewrite Hgood. cbn [stdin service log].
    eexists. split; [rewrite <- app_assoc; reflexivity |].
    rewrite inputs_app, Hc. reflexivity.
  - match goal with
    | |- context [body line ?w0] => destruct (Hbody line w0) as (new & -> & Hc)
    end.
    rewrite Hline. cbn [stdin service log].
    match goal with
    | |- context [input_loop_from _ _ _ ?w0] => destruct (IH w0) as (new2 & -> & Hc2)
    end.
    cbn [service log].
    eexists. split; [rewrite <- !app_assoc; reflexivity |].
    rewrite !inputs_app, Hc, Hc2. reflexivity.
Qed.

(** What a loop can end with, from what its body can end with. *)
Lemma input_loop_post {A} (prompt : string) (body : string -> M (option A))
    (P : A -> Prop) (Q : exn -> Prop) :
  (forall line w0,
      match fst (body line w0) with
      | Ok (Some a) => P a
      | Ok None => True
      | Raise e => Q e
      end) ->
  forall w,
    match fst (input_loop prompt body w) with
    | Ok a => P a
    | Raise e => e = EOFError \/ Q e
    end.
Proof.
  intros Hbody w. unfold input_loop. generalize (stdin w) as lines.
  intros lines. revert w.
  induction lines as [| line lines IH]; intros w; cbn [input_loop_from].
  - left. reflexivity.
  - match goal with
    | |- context [body line ?w0] =>
        pose proof (Hbody line w0) as Hb; destruct (body line w0) as [[[a |] | e] w1]
    end; cbn [fst] in *.
    + exact Hb.
    + apply IH.
    + right. exact Hb.
Qed.

(** X4. [get_description_mode] prints its menu once, then reads lines until
    one is 1, 2 or 3 (as [int] reads it) and returns that number; every
    other line, a number out of range or not a number, is answered by
    asking again. It never returns anything but 1, 2 or 3, and the only
    exception it can raise is [EOFError], at the end of the input. *)
Theorem get_description_mode_returns_1_2_or_3 :
  (forall w,
      match fst (get_description_mode w) with
      | Ok choice => 1 <= choice <= 3
      | Raise e => e = EOFError
      end)
  /\ (forall bad good choice rest w,
         Forall (fun line => mode_of_line line = None) bad ->
         mode_of_line good = Some choice ->
         stdin w = (bad ++ good :: rest)%list ->
         exists new,
           get_description_mode w
           = (Ok choice,
              mk_world rest (service w) (log w ++ mode_menu ++ new))
           /\ inputs new = S (List.length bad)).
Proof.
  split.
  - intros w. unfold get_description_mode, bind at 1 2 3 4, print.
    match goal with
    | |- context [input_loop ?p ?b ?w0] =>
        pose proof (input_loop_post p b (fun c => 1 <= c <= 3) (fun _ => False)) as H;
        specialize (fun Hb => H Hb w0)
    end.
    match type of H with
    | ?hyp -> _ => assert (Hb : hyp)
    end.
    { intros line w0. unfold try_except, bind, lift, ret, print.
      rewrite int_parse. destruct (parse_int line) as [c |]; cbn; [| exact I].
      destruct ((1 <=? c) && (c <=? 3)) eqn:E; cbn; [| exact I].
      apply andb_true_iff in E. destruct E as [E1 E2].
      apply Z.leb_le in E1, E2. lia. }
    specialize (H Hb).
    match goal with
    | |- match fst ?x with _ => _ end => destruct (fst x) as [c | e]
    end; [exact H | destruct H as [H | []]; exact H].
  - intros bad good choice rest w Hbad Hgood Hin.
    unfold get_description_mode, bind at 1 2 3 4, print.
    match goal with
    | |- context [input_loop ?p ?b ?w0] =>
        destruct (input_loop_run p b mode_of_line) with
          (bad := bad) (good := good) (a := choice) (rest := rest) (w := w0)
          as (new & -> & Hc)
    end.
    + intros line w0. unfold mode_of_line, try_except, bind, lift, ret, print.
      rewrite int_parse. destruct (parse_int line) as [c |]; cbn.
      * destruct ((1 <=? c) && (c <=? 3)); cbn.
        -- exists []. rewrite app_nil_r. destruct w0; auto.
        -- eexists. split; [reflexivity | reflexivity].
      * eexists. split; [reflexivity | reflexivity].
    + exact Hbad.
    + exact Hgood.
    + exact Hin.
    + exists new. split; [| exact Hc].
      cbn [stdin service log log_event]. unfold mode_menu.
      rewrite <- !app_assoc. reflexivity.
Qed.

Lemma get_description_mode_returns_1_2_or_3_witness :
  exists new,
    get_description_mode (mk_world ["0"; "two"; " 2 "; "n"] [] [])
    = (Ok 2, mk_world ["n"] [] ([] ++ mode_menu ++ new))
    /\ inputs new = 3%nat.
Proof.
  destruct get_description_mode_returns_1_2_or_3 as [_ Hrun].
  apply (Hrun ["0"; "two"] " 2 " 2 ["n"] (mk_world ["0"; "two"; " 2 "; "n"] [] []));
    [repeat constructor | reflexivity | reflexivity].
Defined.

Lemma lower_char_idempotent c : lower_char (lower_char c) = lower_char c.
Proof. destruct c as [[] [] [] [] [] [] [] []]; reflexivity. Qed.

Lemma lower_idempotent s : lower (lower s) = lower s.
Proof.
  induction s as [| c s IH]; cbn [lower]; [reflexivity |].
  rewrite lower_char_idempotent, IH. reflexivity.
Qed.

(** X5. [get_billable_preference] reads lines until one is, in any letter
    case, [y] or [yes] (it returns [True]) or is empty, [n] or [no] (it
    returns [False]: an empty answer is a no); any other line is answered
    by asking again. The letter case of a line does not matter. The only
    exception it can raise is [EOFError]. *)
Theorem get_billable_preference_defaults_to_no :
  (forall w,
      match fst (get_billable_preference w) with
      | Ok _ => True
      | Raise e => e = EOFError
      end)
  /\ (forall bad good answer rest w,
         Forall (fun line => billable_of_line line = None) bad ->
         billable_of_line good = Some answer ->
         stdin w = (bad ++ good :: rest)%list ->
         exists new,
           get_billable_preference w
           = (Ok answer, mk_world rest (service w) (log w ++ new))
           /\ inputs new = S (List.length bad))
  /\ billable_of_line "" = Some false
  /\ (forall line, billable_of_line (lower line) = billable_of_line line).
Proof.
  split; [| split; [| split; [reflexivity |]]]; cycle 2.
  { intros line. unfold billable_of_line. rewrite lower_idempotent. reflexivity. }
  - intros w. unfold get_billable_preference.
    pose proof (input_loop_post (String "010" "Make entries billable? (y/N): ")
                  (fun line =>
                     let choice := lower line in
                     if in_strings choice ["y"; "yes"] then ret (Some true)
                     else if in_strings choice [""; "n"; "no"] then ret (Some false)
                     else print "Please enter 'y' for yes or 'n' for no (default is no)" ;;
                          ret None)
                  (fun _ => True) (fun _ => False)) as H.
    match type of H with
    | ?hyp -> _ => assert (Hb : hyp)
    end.
    { intros line w0. cbv zeta.
      destruct (in_strings (lower line) ["y"; "yes"]); [exact I |].
      destruct (in_strings (lower line) [""; "n"; "no"]); exact I. }
    specialize (H Hb w).
    match goal with
    | |- match fst ?x with _ => _ end => destruct (fst x) as [c | e]
    end; [exact I | destruct H as [H | []]; exact H].
  - intros bad good answer rest w Hbad Hgood Hin.
    unfold get_billable_preference.
    eapply (input_loop_run _ _ billable_of_line);
      [| exact Hbad | exact Hgood | exact Hin].
    intros line w0. unfold billable_of_line. cbv zeta.
    destruct (in_strings (lower line) ["y"; "yes"]).
    + exists []. unfold ret. rewrite app_nil_r. destruct w0; auto.
    + destruct (in_strings (lower line) [""; "n"; "no"]).
      * exists []. unfold ret. rewrite app_nil_r. destruct w0; auto.
      * eexists. split; reflexivity.
Qed.

Lemma get_billable_preference_defaults_to_no_witness :
  exists new,
    get_billable_preference (mk_world ["maybe"; "No"; "x"] [] [])
    = (Ok false, mk_world ["x"] [] ([] ++ new))
    /\ inputs new = 2%nat.
Proof.
  destruct get_billable_preference_defaults_to_no as (_ & Hrun & _ & _).
  apply (Hrun ["maybe"] "No" false ["x"] (mk_world ["maybe"; "No"; "x"] [] []));
    [repeat constructor | reflexivity | reflexivity].
Defined.

Lemma select_project_post (projects : list json) (w : world) :
  match fst (select_project (JList projects) w) with
  | Ok project_idx => 0 <= project_idx < Z.of_nat (List.length projects)
  | Raise e => e = EOFError
  end.
Proof.
  assert (H : match fst (select_project (JList projects) w) with
              | Ok project_idx => 0 <= project_idx < Z.of_nat (List.length projects)
              | Raise e => e = EOFError \/ False
              end).
  { unfold select_project.
    apply (input_loop_post _ _
             (fun idx => 0 <= idx < Z.of_nat (List.length projects))
             (fun _ => False)).
    intros line w0. unfold check_project_number, try_except, bind, lift, ret, print.
    rewrite int_parse. destruct (parse_int line) as [n |]; cbn; [| exact I].
    destruct ((0 <=? n - 1) && (n - 1 <? Z.of_nat (List.length projects))) eqn:E;
      cbn; [| exact I].
    apply andb_true_iff in E. destruct E as [E1 E2].
    apply Z.leb_le in E1. apply Z.ltb_lt in E2. lia. }
  destruct (fst (select_project (JList projects) w)); [exact H |].
  destruct H as [H | []]. exact H.
Qed.

(** X6. The index [select_project] returns is within the list of projects,
    so the subscript [projects[project_idx]] that follows in [main] cannot
    fail; the prompt itself can only raise [EOFError]. With no project at
    all, every answer is rejected and the prompt ends in [EOFError]. *)
Theorem selected_project_exists (projects : list json) (w : world) :
  match select_project (JList projects) w with
  | (Ok project_idx, _) =>
      0 <= project_idx < Z.of_nat (List.length projects)
      /\ exists project, getindex (JList projects) project_idx = Ok project
  | (Raise e, _) => e = EOFError
  end
  /\ fst (select_project (JList []) w) = Raise EOFError.
Proof.
  split.
  - pose proof (select_project_post projects w) as H.
    destruct (select_project (JList projects) w) as [[idx | e] w']; cbn [fst] in H.
    + split; [exact H |]. cbn [getindex].
      destruct (nth_error projects (Z.to_nat idx)) as [p |] eqn:En; [eauto |].
      apply nth_error_None in En. lia.
    + exact H.
  - pose proof (select_project_post [] w) as H.
    destruct (fst (select_project (JList []) w)) as [idx | e].
    + cbn in H. lia.
    + rewrite H. reflexivity.
Qed.

(** X7. The task step of [main]. With no task in the project, nothing is
    read and no task is selected. Otherwise the tasks are listed and
    exactly one line is read, which alone decides: a blank line selects no
    task, the number of a listed task selects that task, anything else
    selects no task. *)
Theorem task_step_reads_one_line (tasks : list json) (w : world) :
  select_task (JList []) w
  = (Ok JNull,
     log_event (EPrint (String "010"
       "No tasks found for this project, proceeding without task selection")) w)
  /\ (forall line rest,
         tasks <> [] ->
         Forall (fun item => exists name, getitem item "name" = Ok name) tasks ->
         stdin w = line :: rest ->
         exists new,
           select_task (JList tasks) w
           = (Ok (task_of_line tasks line),
              mk_world rest (service w) (log w ++ new))
           /\ inputs new = 1%nat)
  /\ (forall line, strip line = "" -> task_of_line tasks line = JNull)
  /\ (forall line n task,
         strip line <> "" -> parse_int line = Some n -> 1 <= n ->
         nth_error tasks (Z.to_nat (n - 1)) = Some task ->
         task_of_line tasks line = task).
Proof.
  split; [reflexivity |]. split; [| split].
  - intros line rest Hne Hnames Hin.
    unfold select_task.
    replace (truthy (JList tasks)) with true
      by (destruct tasks; [congruence | reflexivity]).
    unfold bind at 1, print at 1. unfold bind at 1, lift at 1. cbn [iter].
    unfold bind at 1.
    match goal with
    | |- context [print_numbered tasks 0 ?w0] =>
        destruct (print_numbered_run tasks Hnames 0 w0) as (new1 & -> & Hc1)
    end.
    unfold bind at 1, print at 1. unfold bind at 1, input at 1.
    cbn [stdin service log log_event]. rewrite Hin.
    unfold task_of_line.
    destruct (String.eqb (strip line) "") eqn:Eb; cbn [negb].
    + unfold ret. eexists. split.
      * rewrite <- !app_assoc. reflexivity.
      * rewrite !inputs_app, Hc1. reflexivity.
    + unfold check_task_number, try_except, bind, lift, ret, print.
      rewrite int_parse. destruct (parse_int line) as [n |]; cbn [len].
      * assert (Eq : (0 <=? n - 1) && (n - 1 <? Z.of_nat (List.length tasks))
                     = (1 <=? n) && (n <=? Z.of_nat (List.length tasks))).
        { destruct (1 <=? n) eqn:E1,
                   (n <=? Z.of_nat (List.length tasks)) eqn:E2,
                   (0 <=? n - 1) eqn:E3,
                   (n - 1 <? Z.of_nat (List.length tasks)) eqn:E4;
            try reflexivity; exfalso;
            repeat match goal with
                   | H : (_ <=? _) = true |- _ => apply Z.leb_le in H
                   | H : (_ <=? _) = false |- _ => apply Z.leb_gt in H
                   | H : (_ <? _) = true |- _ => apply Z.ltb_lt in H
                   | H : (_ <? _) = false |- _ => apply Z.ltb_ge in H
                   end; lia. }
        rewrite Eq.
        destruct ((1 <=? n) && (n <=? Z.of_nat (List.length tasks))) eqn:E.
        -- cbn [getindex].
           apply andb_true_iff in E. destruct E as [E1 E2].
           apply Z.leb_le in E1, E2.
           destruct (nth_error tasks (Z.to_nat (n - 1))) as [t |] eqn:En.
           ++ rewrite (nth_error_nth _ _ JNull En).
              eexists. split.
              ** rewrite <- !app_assoc. reflexivity.
              ** rewrite !inputs_app, Hc1. reflexivity.
           ++ apply nth_error_None in En. lia.
        -- unfold log_event. cbn [stdin service log]. eexists. split.
           ++ rewrite <- !app_assoc. reflexivity.
           ++ rewrite !inputs_app, Hc1. reflexivity.
      * cbn [is_ValueError]. unfold log_event. cbn [stdin service log].
        eexists. split.
        -- rewrite <- !app_assoc. reflexivity.
        -- rewrite !inputs_app, Hc1. reflexivity.
  - intros line Hb. unfold task_of_line. rewrite Hb. reflexivity.
  - intros line n task Hb Hp Hn Hnth. unfold task_of_line.
    apply String.eqb_neq in Hb. rewrite Hb, Hp.
    assert (Hlt : (Z.to_nat (n - 1) < List.length tasks)%nat)
      by (apply nth_error_Some; congruence).
    replace ((1 <=? n) && (n <=? Z.of_nat (List.length tasks))) with true
      by (symmetry; apply andb_true_iff; split; apply Z.leb_le; lia).
    apply nth_error_nth. exact Hnth.
Qed.

Lemma task_step_reads_one_line_witness :
  exists new,
    select_task (JList [JDict [("id", JStr "t1"); ("name", JStr "Task")]])
      (mk_world [" 1"; "x"] [] [])
    = (Ok (JDict [("id", JStr "t1"); ("name", JStr "Task")]),
       mk_world ["x"] [] ([] ++ new))
    /\ inputs new = 1%nat.
Proof.
  destruct (task_step_reads_one_line
              [JDict [("id", JStr "t1"); ("name", JStr "Task")]]
              (mk_world [" 1"; "x"] [] [])) as (_ & Hrun & _).
  apply (Hrun " 1" ["x"]);
    [discriminate
    | repeat constructor; exists (JStr "Task"); reflexivity
    | reflexivity].
Defined.

(** *** Requests and prompts of the per-day loop *)

Lemma requests_sent_app m l1 l2 :
  requests_sent m (l1 ++ l2) = requests_sent m l1 + requests_sent m l2.
Proof. unfold requests_sent. rewrite filter_app, length_app. lia. Qed.

Lemma lines_read_app l1 l2 : lines_read (l1 ++ l2) = lines_read l1 + lines_read l2.
Proof. unfold lines_read. rewrite inputs_app. lia. Qed.

(** The counts of the events one iteration adds. *)
Lemma counts_of_print line :
  requests_sent GET [EPrint line] = 0 /\ requests_sent POST [EPrint line] = 0
  /\ failed_creations [EPrint line] = 0 /\ lines_read [EPrint line] = 0.
Proof. repeat split. Qed.

Lemma counts_of_query self pid s e out :
  let ev := ERequest (time_entries_query self pid s e) out in
  requests_sent GET [ev] = 1 /\ requests_sent POST [ev] = 0
  /\ failed_creations [ev] = 0 /\ lines_read [ev] = 0.
Proof. destruct out; repeat split. Qed.

Lemma counts_of_creation self pid s e description task_id bill r :
  let ev := ERequest (creation_request self pid s e description task_id bill)
              (Responded r) in
  requests_sent GET [ev] = 0 /\ requests_sent POST [ev] = 1
  /\ failed_creations [ev] = (if is_error_status r then 1 else 0)
  /\ lines_read [ev] = 0.
Proof.
  cbv zeta. unfold failed_creations. cbn [filter is_failed_creation req_method
    creation_request]. destruct (is_error_status r); repeat split.
Qed.

(** What reading the description adds to the log, by mode. *)
Lemma resolve_description_reads cfg day w description w' :
  resolve_description cfg day w = (Ok description, w') ->
  exists new,
    log w' = (log w ++ new)%list
    /\ requests_sent GET new = 0 /\ requests_sent POST new = 0
    /\ failed_creations new = 0
    /\ lines_read new = (if description_mode cfg =? 3 then 1 else 0).
Proof.
  unfold resolve_description, input, ret.
  destruct (description_mode cfg =? 3).
  - destruct (stdin w); [discriminate |]. intros [= <- <-].
    eexists. cbn [log]. repeat split.
  - intros [= <- <-]. exists []. rewrite app_nil_r. repeat split.
Qed.

(** One iteration that completes: one query, and unless the day is
    skipped one prompt (in mode 3) and one creation request. *)
Lemma process_day_requests self cfg day a k w a' k' w' :
  process_day self cfg day a k w = (Ok (a', k'), w') ->
  exists new,
    log w' = (log w ++ new)%list
    /\ requests_sent GET new = 1
    /\ requests_sent POST new = 1 - (k' - k)
    /\ a' - a = requests_sent POST new - failed_creations new
    /\ lines_read new
       = (if description_mode cfg =? 3 then requests_sent POST new else 0)
    /\ 0 <= k' - k <= 1.
Proof.
  destruct (window_exists day) as (s & e & Hwin & _).
  rewrite (process_day_run _ _ _ _ _ _ _ _ Hwin). cbv zeta.
  destruct (query_answer (next_outcome w)) as [[|] | ex]; [| | discriminate].
  - intros [= <- <- <-]. eexists. split.
    + cbn [log log_event sent]. rewrite <- app_assoc. reflexivity.
    + rewrite !requests_sent_app, !failed_creations_app, !lines_read_app.
      destruct (counts_of_query self (project_id cfg) s e (next_outcome w))
        as (-> & -> & -> & ->).
      match goal with
      | |- context [EPrint ?line] =>
          destruct (counts_of_print line) as (-> & -> & -> & ->)
      end.
      destruct (description_mode cfg =? 3); repeat split; lia.
  - destruct (resolve_description cfg day _) as [[description | ex] w2] eqn:Hd;
      [| discriminate].
    apply resolve_description_reads in Hd.
    destruct Hd as (newd & Hlog & Hg & Hp & Hfd & Hr). cbn [log sent] in Hlog.
    destruct (task_id_argument cfg) as [tid | ex] eqn:Htid.
    + destruct (creation_answer (next_outcome w2)) as [j | ex] eqn:Hc.
      * intros [= <- <- <-]. apply creation_answer_Ok in Hc.
        destruct Hc as (r & Hr2 & Hst).
        eexists. split.
        -- cbn [log log_event sent]. rewrite Hlog, <- !app_assoc. reflexivity.
        -- rewrite !requests_sent_app, !failed_creations_app, !lines_read_app.
           rewrite Hg, Hp, Hfd, Hr, Hr2.
           destruct (counts_of_query self (project_id cfg) s e (next_outcome w))
             as (-> & -> & -> & ->).
           destruct (counts_of_creation self (project_id cfg) s e description
                       tid (billable cfg) r) as (-> & -> & -> & ->).
           rewrite Hst.
           match goal with
           | |- context [EPrint ?line] =>
               destruct (counts_of_print line) as (-> & -> & -> & ->)
           end.
           destruct (description_mode cfg =? 3); repeat split; lia.
      * unfold creation_failed. destruct ex; try discriminate.
        intros [= <- <- <-]. apply creation_answer_HTTPError in Hc.
        destruct Hc as (r & Hr2 & Hst).
        eexists. split.
        -- cbn [log log_event sent]. rewrite Hlog, <- !app_assoc. reflexivity.
        -- rewrite !requests_sent_app, !failed_creations_app, !lines_read_app.
           rewrite Hg, Hp, Hfd, Hr, Hr2.
           destruct (counts_of_query self (project_id cfg) s e (next_outcome w))
             as (-> & -> & -> & ->).
           destruct (counts_of_creation self (project_id cfg) s e description
                       tid (billable cfg) r) as (-> & -> & -> & ->).
           rewrite Hst.
           match goal with
           | |- context [EPrint ?line] =>
               destruct (counts_of_print line) as (-> & -> & -> & ->)
           end.
           destruct (description_mode cfg =? 3); repeat split; lia.
    + apply task_id_argument_not_HTTPError in Htid.
      unfold creation_failed. destruct ex; try discriminate.
Qed.

(** X8. In a loop that completes, every day is queried once; every day
    that is not skipped gets exactly one creation request, preceded in
    description mode 3 by exactly one prompt (in the other modes nothing is
    read); the entries added are the creation requests that did not fail. *)
Theorem one_query_per_day_one_creation_per_missing_entry
    (self : api) (cfg : settings) (days : list datetime) :
  forall a k w a' k' w',
    process_days self cfg days a k w = (Ok (a', k'), w') ->
    exists new,
      log w' = (log w ++ new)%list
      /\ requests_sent GET new = Z.of_nat (List.length days)
      /\ requests_sent POST new = Z.of_nat (List.length days) - (k' - k)
      /\ a' - a = requests_sent POST new - failed_creations new
      /\ lines_read new
         = (if description_mode cfg =? 3 then requests_sent POST new else 0).
Proof.
  induction days as [| day rest IH]; intros a k w a' k' w'.
  - cbn. intros [= <- <- <-]. exists []. rewrite app_nil_r.
    destruct (description_mode cfg =? 3); cbn; repeat split; lia.
  - rewrite process_days_cons.
    destruct (process_day self cfg day a k w) as [[[a1 k1] | ex] w1] eqn:Hday;
      [| discriminate].
    cbn [fst snd]. intros Hrest.
    apply process_day_requests in Hday.
    destruct Hday as (new1 & Hlog1 & G1 & P1 & A1 & R1 & _).
    apply IH in Hrest. destruct Hrest as (new2 & Hlog2 & G2 & P2 & A2 & R2).
    exists (new1 ++ new2)%list. split.
    + rewrite Hlog2, Hlog1, app_assoc. reflexivity.
    + rewrite !requests_sent_app, failed_creations_app, lines_read_app.
      cbn [List.length]. rewrite Nat2Z.inj_succ.
      destruct (description_mode cfg =? 3); repeat split; lia.
Qed.

Lemma one_query_per_day_one_creation_per_missing_entry_witness :
  exists new,
    log (snd (process_days sample_api (sample_cfg 1) [monday] 0 0
                world_creation_fails))
    = (log world_creation_fails ++ new)%list
    /\ requests_sent GET new = 1
    /\ requests_sent POST new = 1 - (0 - 0)
    /\ 0 - 0 = requests_sent POST new - failed_creations new
    /\ lines_read new = 0.
Proof.
  apply (one_query_per_day_one_creation_per_missing_entry sample_api
           (sample_cfg 1) [monday] 0 0 world_creation_fails 0 0).
  reflexivity.
Defined.

(** X9. When the service reports an entry for every day, the loop creates
    nothing: it sends no creation request, reads no input, counts every day
    as skipped and uses up exactly one answer per day. *)
Theorem nothing_is_created_when_every_day_has_an_entry
    (self : api) (cfg : settings) (days : list datetime) :
  forall answers rest a k w,
    service w = (answers ++ rest)%list ->
    List.length answers = List.length days ->
    Forall (fun out => query_answer out = Ok true) answers ->
    exists new,
      process_days self cfg days a k w
      = (Ok (a, k + Z.of_nat (List.length days)),
         mk_world (stdin w) rest (log w ++ new))
      /\ requests_sent POST new = 0.
Proof.
  induction days as [| day days IH]; intros answers rest a k w Hsvc Hlen Hall.
  - destruct answers; [| discriminate]. cbn in Hsvc.
    exists []. cbn. rewrite app_nil_r, Z.add_0_r.
    destruct w; cbn in *; subst. auto.
  - destruct answers as [| out answers]; [discriminate |].
    apply Forall_cons_iff in Hall. destruct Hall as [Hout Hall].
    destruct (window_exists day) as (s & e & Hwin & _).
    rewrite process_days_cons, (process_day_run _ _ _ _ _ _ _ _ Hwin).
    cbv zeta. unfold next_outcome at 1. rewrite Hsvc. cbn [app].
    rewrite Hout. cbn [fst snd].
    match goal with
    | |- context [process_days self cfg days a (k + 1) ?w0] =>
        destruct (IH answers rest a (k + 1) w0) as (new & -> & Hp)
    end.
    + unfold log_event, sent. cbn [service stdin log]. rewrite Hsvc. reflexivity.
    + cbn in Hlen. lia.
    + exact Hall.
    + unfold log_event, sent, next_outcome.
      cbn [service stdin log List.length]. rewrite Hsvc. cbn [app].
      replace (k + Z.of_nat (S (List.length days)))
        with (k + 1 + Z.of_nat (List.length days)) by lia.
      eexists. split.
      * rewrite <- !app_assoc. reflexivity.
      * rewrite !requests_sent_app, Hp. reflexivity.
Qed.

Lemma nothing_is_created_when_every_day_has_an_entry_witness :
  exists new,
    process_days sample_api (sample_cfg 3) [monday] 0 0 world_entry_exists
    = (Ok (0, 0 + 1), mk_world ["unread"] [] ([] ++ new))
    /\ requests_sent POST new = 0.
Proof.
  apply (nothing_is_created_when_every_day_has_an_entry sample_api (sample_cfg 3)
           [monday]
           [answer 200 "OK" (Some (JList [JDict [("id", JStr "e1")]]))] []
           0 0 world_entry_exists);
    [reflexivity | reflexivity | repeat constructor].
Defined.

Lemma emits_bind_ret {A B} (P : event -> Prop) (a : A) (k : A -> M B) :
  emits P (k a) -> emits P (bind (ret a) k).
Proof. intros H w. exact (H w). Qed.

(** Whenever the loop gets hold of a task id, the id that
    [add_time_entry] puts in the payload is the one of the selected task. *)
Lemma task_id_argument_sent cfg task_id :
  task_id_argument cfg = Ok task_id ->
  (if truthy task_id then Some task_id else None) = task_id_sent cfg.
Proof.
  unfold task_id_argument, task_id_sent, getitem.
  destruct (selected_task cfg) as [| b | n | s | l | kvs]; cbn [truthy].
  - intros [= <-]. reflexivity.
  - destruct b; [discriminate |]. intros [= <-]. reflexivity.
  - destruct (n =? 0); cbn [negb]; [| discriminate]. intros [= <-]. reflexivity.
  - destruct (String.eqb s ""); cbn [negb]; [| discriminate].
    intros [= <-]. reflexivity.
  - destruct l; [| discriminate]. intros [= <-]. reflexivity.
  - destruct kvs as [| kv kvs]; [intros [= <-]; reflexivity |].
    destruct (lookup "id" (kv :: kvs)); [| discriminate].
    intros [= <-]. reflexivity.
Qed.

Lemma emits_process_day_settings self cfg day a k :
  emits (posts_carry_settings self cfg) (process_day self cfg day a k).
Proof.
  unfold process_day.
  apply emits_bind_lift. intros start_time _.
  apply emits_bind_lift. intros end_time _.
  apply emits_bind.
  { unfold has_time_entry. emits_steps. }
  intros [|]; [emits_steps |].
  unfold resolve_description.
  destruct (description_mode cfg =? 3) eqn:Hmode.
  - apply emits_bind; [emits_steps |]. intros description. apply emits_try.
    + apply emits_bind_lift. intros task_id Htid.
      apply emits_bind; [| intros; emits_steps].
      unfold add_time_entry, requests_post. apply emits_bind; [| intros; emits_steps].
      apply emits_send. intros out. cbn.
      eexists. split; [reflexivity |]. split; [reflexivity |].
      split; [reflexivity |].
      rewrite <- (task_id_argument_sent _ _ Htid). unfold entry_payload.
      apply Z.eqb_eq in Hmode.
      destruct (truthy task_id), (billable cfg); repeat split; congruence.
    + intros e handler Hh. destruct e; try discriminate.
      injection Hh as <-. emits_steps.
  - apply emits_bind_ret. apply emits_try.
    + apply emits_bind_lift. intros task_id Htid.
      apply emits_bind; [| intros; emits_steps].
      unfold add_time_entry, requests_post. apply emits_bind; [| intros; emits_steps].
      apply emits_send. intros out. cbn.
      eexists. split; [reflexivity |]. split; [reflexivity |].
      split; [reflexivity |].
      rewrite <- (task_id_argument_sent _ _ Htid). unfold entry_payload.
      destruct (truthy task_id), (billable cfg); repeat split.
    + intros e handler Hh. destruct e; try discriminate.
      injection Hh as <-. emits_steps.
Qed.

Lemma emits_process_days_settings self cfg days :
  forall a k, emits (posts_carry_settings self cfg) (process_days self cfg days a k).
Proof.
  induction days as [| day rest IH]; intros a k; cbn [process_days].
  - apply emits_ret.
  - apply emits_bind; [apply emits_process_day_settings |].
    intros counts. apply IH.
Qed.

(** X10. Every creation request of the loop is made from the settings of
    the run: it goes to the time-entries endpoint of the workspace with the
    headers of the client, and its payload carries the selected project,
    the billable flag as a string, the id of the selected task (no
    [taskId] at all when no task is selected or its id is empty) and, in
    description modes other than 3, the one description chosen before the
    loop. *)
Theorem creation_requests_carry_the_settings
    (self : api) (cfg : settings) (days : list datetime) (a k : Z) (w : world) :
  exists new,
    log (snd (process_days self cfg days a k w)) = (log w ++ new)%list
    /\ forall req out,
         In (ERequest req out) new -> req_method req = POST ->
         carries_settings self cfg req.
Proof.
  destruct (emits_process_days_settings self cfg days a k w) as (new & Hlog & Hall).
  exists new. split; [exact Hlog |].
  intros req out Hin Hpost. rewrite Forall_forall in Hall.
  specialize (Hall _ Hin). cbn in Hall. rewrite Hpost in Hall. exact Hall.
Qed.

(** In description modes other than 3 one iteration reads nothing. *)
Lemma process_day_keeps_stdin self cfg day a k w :
  description_mode cfg <> 3 ->
  stdin (snd (process_day self cfg day a k w)) = stdin w.
Proof.
  intros Hmode. apply Z.eqb_neq in Hmode.
  destruct (window_exists day) as (s & e & Hwin & _).
  rewrite (process_day_run _ _ _ _ _ _ _ _ Hwin). cbv zeta.
  unfold resolve_description. rewrite Hmode. unfold ret.
  destruct (query_answer (next_outcome w)) as [[|] | ex]; try reflexivity.
  destruct (task_id_argument cfg) as [tid | ex].
  - match goal with
    | |- context [creation_answer ?o] => destruct (creation_answer o) as [j | ex]
    end; [reflexivity | destruct ex; reflexivity].
  - destruct ex; reflexivity.
Qed.

(** X11. In description modes 1 and 2 the loop reads nothing from the
    input, whether it completes or raises: the lines that were left before
    the loop are left after it. *)
Theorem loop_reads_nothing_outside_mode_3
    (self : api) (cfg : settings) (days : list datetime) :
  description_mode cfg <> 3 ->
  forall a k w, stdin (snd (process_days self cfg days a k w)) = stdin w.
Proof.
  intros Hmode. induction days as [| day rest IH]; intros a k w.
  - reflexivity.
  - rewrite process_days_cons.
    pose proof (process_day_keeps_stdin self cfg day a k w Hmode) as Hday.
    destruct (process_day self cfg day a k w) as [[counts | ex] w1];
      cbn [snd] in *.
    + rewrite IH. exact Hday.
    + exact Hday.
Qed.

Lemma loop_reads_nothing_outside_mode_3_witness :
  stdin (snd (process_days sample_api (sample_cfg 2) [monday; tuesday] 0 0
                (mk_world ["a"; "b"] [answer 200 "OK" (Some (JList []))] [])))
  = ["a"; "b"].
Proof.
  apply (loop_reads_nothing_outside_mode_3 sample_api (sample_cfg 2)
           [monday; tuesday]).
  discriminate.
Defined.

(** X12. A run of [main] that completes ends by printing the summary; the
    two counts it shows are not negative and add up to at most the number
    of working days of the run. *)
Theorem completed_run_ends_with_the_summary
    (env_key : option string) (now : datetime) (w w' : world) :
  main env_key now w = (Ok tt, w') ->
  exists days added skipped before,
    current_month_working_days now = Ok days
    /\ log w' = (before ++ [EPrint (summary_line added skipped)])%list
    /\ 0 <= added /\ 0 <= skipped
    /\ added + skipped <= Z.of_nat (List.length days).
Proof.
  unfold main. intros H.
  do 13 (apply bind_Ok in H; destruct H as (? & ? & _ & H)).
  cbv zeta in H.
  apply bind_Ok in H. destruct H as (days & w1 & Hdays & H).
  apply bind_Ok in H. destruct H as ([added skipped] & w2 & Hloop & H).
  unfold lift in Hdays. injection Hdays as Hdays _.
  apply process_days_tally in Hloop.
  destruct Hloop as (new & _ & Hcount & Ha & Hs).
  injection H as <-. cbn [fst snd log log_event].
  exists days, added, skipped, (log w2). split; [exact Hdays |].
  split; [reflexivity |].
  assert (0 <= failed_creations new) by (unfold failed_creations; lia).
  lia.
Qed.

Lemma completed_run_ends_with_the_summary_witness :
  exists days added skipped before,
    current_month_working_days wednesday_noon = Ok days
    /\ log (snd (main (Some "key") wednesday_noon world_scenario))
       = (before ++ [EPrint (summary_line added skipped)])%list
    /\ 0 <= added /\ 0 <= skipped
    /\ added + skipped <= Z.of_nat (List.length days).
Proof.
  apply (completed_run_ends_with_the_summary (Some "key") wednesday_noon
           world_scenario (snd (main (Some "key") wednesday_noon world_scenario))).
  vm_compute. reflexivity.
Defined.

(** X13. In description mode 3, for a day without an entry, the line read
    at the prompt of that day is the description of the creation request of
    that day, taken as it is (an empty line gives an empty description). *)
Theorem mode_3_description_is_the_line_read
    (self : api) (cfg : settings) (day start_time end_time : datetime)
    (a k : Z) (w : world) (line : string) (rest : list string) (task_id : json) :
  window day start_time end_time ->
  description_mode cfg = 3 ->
  query_answer (next_outcome w) = Ok false ->
  stdin w = line :: rest ->
  task_id_argument cfg = Ok task_id ->
  exists out tail,
    log (snd (process_day self cfg day a k w))
    = (log w
       ++ [ERequest (time_entries_query self (project_id cfg) start_time end_time)
             (next_outcome w);
           EInput (description_prompt day);
           ERequest (creation_request self (project_id cfg) start_time end_time
                       line task_id (billable cfg)) out]
       ++ tail)%list
    /\ stdin (snd (process_day self cfg day a k w)) = rest.
Proof.
  intros Hwin Hmode Hq Hin Htid.
  rewrite (process_day_run _ _ _ _ _ _ _ _ Hwin). cbv zeta. rewrite Hq.
  unfold resolve_description, input. rewrite Hmode. cbn [Z.eqb Pos.eqb].
  cbn [stdin sent]. rewrite Hin, Htid.
  match goal with
  | |- context [creation_answer ?o] =>
      exists o; destruct (creation_answer o) as [j | ex]
  end; [| unfold creation_failed; destruct ex];
    (eexists; split;
     [ cbn [snd log log_event sent]; rewrite <- ?app_assoc; cbn [app];
       reflexivity
     | reflexivity ]).
Qed.

Lemma mode_3_description_is_the_line_read_witness :
  exists out tail,
    log (snd (process_day sample_api (sample_cfg 3) monday 0 0
                (mk_world [""; "x"] [answer 200 "OK" (Some (JList []))] [])))
    = ([]
       ++ [ERequest (time_entries_query sample_api (JStr "p1") monday_0900
                       monday_1630)
             (answer 200 "OK" (Some (JList [])));
           EInput (description_prompt monday);
           ERequest (creation_request sample_api (JStr "p1") monday_0900
                       monday_1630 "" JNull false) out]
       ++ tail)%list
    /\ stdin (snd (process_day sample_api (sample_cfg 3) monday 0 0
                     (mk_world [""; "x"] [answer 200 "OK" (Some (JList []))] [])))
       = ["x"].
Proof.
  apply (mode_3_description_is_the_line_read sample_api (sample_cfg 3) monday
           monday_0900 monday_1630 0 0
           (mk_world [""; "x"] [answer 200 "OK" (Some (JList []))] [])
           "" ["x"] JNull);
    [split; reflexivity | reflexivity | reflexivity | reflexivity | reflexivity].
Defined.

Lemma days_before_next_month y m :
  1 <= m < 12 ->
  days_before_month y (m + 1) = days_before_month y m + days_in_month y m.
Proof.
  intros Hm. unfold days_before_month, days_in_month.
  assert (Hc : m = 1 \/ m = 2 \/ m = 3 \/ m = 4 \/ m = 5 \/ m = 6 \/ m = 7
               \/ m = 8 \/ m = 9 \/ m = 10 \/ m = 11) by lia.
  destruct (is_leap y);
    repeat (destruct Hc as [-> | Hc]; [reflexivity |]); subst; reflexivity.
Qed.

Lemma days_before_next_year y :
  1 <= y ->
  days_before_year (y + 1)
  = days_before_year y + 365 + (if is_leap y then 1 else 0).
Proof.
  intros Hy. unfold days_before_year, is_leap. cbv zeta.
  replace (y + 1 - 1) with y by lia.
  destruct (y mod 4 =? 0) eqn:E4; destruct (y mod 100 =? 0) eqn:E100;
    destruct (y mod 400 =? 0) eqn:E400; cbn [andb orb negb];
    rewrite ?Z.eqb_eq, ?Z.eqb_neq in *;
    Z.div_mod_to_equations; lia.
Qed.

(** Adding a day moves to the next ordinal. *)
Lemma add_one_day_ordinal d n :
  add_one_day d = Ok n ->
  ymd_to_ord (year n) (month n) (day n)
  = ymd_to_ord (year d) (month d) (day d) + 1.
Proof.
  intros H. apply add_one_day_Ok in H. destruct H as [_ H].
  dt_bounds d. unfold ymd_to_ord.
  destruct H as [(Hd & -> & -> & ->) | [(Hd & Hm & -> & -> & ->) | (Hd & Hm & -> & -> & ->)]].
  - lia.
  - rewrite days_before_next_month by lia. lia.
  - rewrite days_before_next_year by lia. rewrite Hm in *.
    assert (E1 : days_before_month (year d + 1) 1 = 0) by reflexivity.
    assert (E12 : days_before_month (year d) 12
                  = 334 + (if is_leap (year d) then 1 else 0)).
    { unfold days_before_month. destruct (is_leap (year d)); reflexivity. }
    assert (D12 : days_in_month (year d) 12 = 31) by reflexivity.
    rewrite E1, E12. destruct (is_leap (year d)); lia.
Qed.

(** The day after a weekday [k] is weekday [k + 1], and Monday after
    Sunday. *)
Lemma add_one_day_weekday d n :
  add_one_day d = Ok n -> weekday n = (weekday d + 1) mod 7.
Proof.
  intros H. unfold weekday. rewrite (add_one_day_ordinal _ _ H).
  Z.div_mod_to_equations. lia.
Qed.

Lemma add_days_plus i j c c' :
  add_days (i + j) c = Ok c' <->
  exists ci, add_days i c = Ok ci /\ add_days j ci = Ok c'.
Proof.
  revert c. induction i as [| i IH]; intros c; cbn [add_days Nat.add].
  - split; [eauto | intros (ci & [= <-] & H); exact H].
  - destruct (add_one_day c) as [n | e]; [apply IH |].
    split; [discriminate | intros (ci & H & _); discriminate].
Qed.

Lemma add_days_le n c c' : add_days n c = Ok c' -> packed c <= packed c'.
Proof.
  revert c. induction n as [| n IH]; intros c; cbn [add_days].
  - intros [= <-]. lia.
  - destruct (add_one_day c) as [c1 |] eqn:E; [| discriminate].
    intros H. apply IH in H. apply add_one_day_next in E. lia.
Qed.

Lemma working_count_plus i j c ci :
  add_days i c = Ok ci ->
  working_count (i + j) c = (working_count i c + working_count j ci)%nat.
Proof.
  revert c. induction i as [| i IH]; intros c; cbn [add_days Nat.add working_count].
  - intros [= <-]. reflexivity.
  - destruct (add_one_day c) as [c1 |]; [| discriminate].
    intros H. rewrite (IH _ H). cbv zeta. destruct (weekday c <? 5); reflexivity.
Qed.

(** The loop, run over [n] days that are all within the range. *)
Lemma working_days_loop_days e n :
  forall c c' acc,
    add_days n c = Ok c' ->
    (forall i ci, (i < n)%nat -> add_days i c = Ok ci -> leb ci e = true) ->
    exists l,
      working_days_loop e c acc = working_days_loop e c' (acc ++ l)%list
      /\ List.length l = working_count n c.
Proof.
  induction n as [| n IH]; intros c c' acc Hn Hle.
  - injection Hn as <-. exists []. rewrite app_nil_r. auto.
  - cbn [add_days working_count] in *.
    destruct (add_one_day c) as [c1 |] eqn:E; [| discriminate].
    assert (Hc : leb c e = true) by (apply (Hle 0%nat c); [lia | reflexivity]).
    rewrite (working_days_loop_step e c acc c1 Hc E).
    destruct (IH c1 c' (if weekday c <? 5 then (acc ++ [c])%list else acc) Hn)
      as (l & Hl & Hlen).
    { intros i ci Hi Hci. apply (Hle (S i) ci); [lia |].
      cbn [add_days]. rewrite E. exact Hci. }
    rewrite Hl. destruct (weekday c <? 5).
    + exists (c :: l). rewrite <- app_assoc. cbn. split; [reflexivity | lia].
    + exists l. split; [reflexivity | exact Hlen].
Qed.

Lemma weekday_range d : 0 <= weekday d < 7.
Proof. unfold weekday. apply Z.mod_pos_bound. lia. Qed.

(** Seven days in a row hold five working days. *)
Lemma working_count_week c c' :
  add_days 7 c = Ok c' -> working_count 7 c = 5%nat.
Proof.
  cbn [add_days working_count].
  destruct (add_one_day c) as [c1 |] eqn:E1; [| discriminate].
  destruct (add_one_day c1) as [c2 |] eqn:E2; [| discriminate].
  destruct (add_one_day c2) as [c3 |] eqn:E3; [| discriminate].
  destruct (add_one_day c3) as [c4 |] eqn:E4; [| discriminate].
  destruct (add_one_day c4) as [c5 |] eqn:E5; [| discriminate].
  destruct (add_one_day c5) as [c6 |] eqn:E6; [| discriminate].
  destruct (add_one_day c6) as [c7 |] eqn:E7; [| discriminate].
  intros _.
  apply add_one_day_weekday in E1, E2, E3, E4, E5, E6.
  pose proof (weekday_range c) as Hr.
  assert (Hc : weekday c = 0 \/ weekday c = 1 \/ weekday c = 2 \/ weekday c = 3
               \/ weekday c = 4 \/ weekday c = 5 \/ weekday c = 6) by lia.
  repeat (destruct Hc as [Hc | Hc]);
    rewrite Hc in *; cbn in E1; rewrite E1 in *; cbn in E2; rewrite E2 in *;
    cbn in E3; rewrite E3 in *; cbn in E4; rewrite E4 in *;
    cbn in E5; rewrite E5 in *; cbn in E6; rewrite E6 in *; reflexivity.
Qed.

Lemma working_count_weeks k :
  forall c c', add_days (7 * k) c = Ok c' -> working_count (7 * k) c = (5 * k)%nat.
Proof.
  induction k as [| k IH]; intros c c' H.
  - reflexivity.
  - replace (7 * S k)%nat with (7 + 7 * k)%nat in * by lia.
    apply add_days_plus in H. destruct H as (c7 & H7 & Hk).
    rewrite (working_count_plus 7 (7 * k) c c7 H7).
    rewrite (working_count_week c c7 H7), (IH c7 c' Hk). lia.
Qed.

(** X14. Over a range of whole weeks, [get_working_days] returns five days per
    week: from [start_date] to the day [7 * weeks - 1] days later (at the
    same time of day), provided that day is not the last one a datetime can
    hold. *)
Theorem whole_weeks_have_five_working_days_each
    (weeks : nat) (start_date end_date next : datetime) :
  (0 < weeks)%nat ->
  add_days (7 * weeks - 1) start_date = Ok end_date ->
  add_one_day end_date = Ok next ->
  exists l,
    get_working_days start_date end_date = Ok l
    /\ List.length l = (5 * weeks)%nat.
Proof.
  intros Hw Hend Hnext.
  assert (Hall : add_days (7 * weeks) start_date = Ok next).
  { replace (7 * weeks)%nat with ((7 * weeks - 1) + 1)%nat by lia.
    apply add_days_plus. exists end_date. split; [exact Hend |].
    cbn [add_days]. rewrite Hnext. reflexivity. }
  unfold get_working_days.
  destruct (working_days_loop_days end_date (7 * weeks) start_date next [] Hall)
    as (l & Hl & Hlen).
  { intros i ci Hi Hci. apply leb_true_iff.
    replace (7 * weeks - 1)%nat with (i + (7 * weeks - 1 - i))%nat in Hend by lia.
    apply add_days_plus in Hend. destruct Hend as (ci' & Hci' & Hrest).
    assert (ci' = ci) by congruence. subst ci'.
    apply add_days_le in Hrest. exact Hrest. }
  exists l. split.
  - rewrite Hl. cbn [app]. apply working_days_loop_stop.
    rewrite leb_packed. apply Z.leb_gt. apply add_one_day_next in Hnext. lia.
  - rewrite Hlen. apply (working_count_weeks weeks start_date next Hall).
Qed.

Lemma whole_weeks_have_five_working_days_each_witness :
  exists l,
    get_working_days monday sunday_week_end = Ok l /\ List.length l = 10%nat.
Proof.
  apply (whole_weeks_have_five_working_days_each 2 monday sunday_week_end
           monday_after); [lia | reflexivity | reflexivity].
Defined.
